(** * astroNN: the [NeuralNetMaster] base class

    A shallow embedding of [astroNN/models/NeuralNetMaster.py].

    The class is glue code over Python, NumPy, Keras/TensorFlow and the file
    system.  The embedding keeps the parts of that environment the methods
    depend on explicit:

    - Python values, exceptions and the operators the methods apply to them;
    - [str.format], parsed from the very template strings of the source;
    - POSIX path joining and a small file system;
    - n-dimensional arrays with shape and row-major data;
    - the object's attribute dictionary, an array store with aliasing, the
      console and the file system, threaded through a state-and-exception
      monad;
    - the external collaborators (Keras, TensorFlow, subclass hooks, the
      clock) as the methods of a type class [Runtime]. *)

From Stdlib Require Import ZArith String Ascii List Bool Lia SpecFloat.
From stdpp Require Import base gmap strings list option pretty.

Set Warnings "-register-all".

Open Scope string_scope.
Open Scope Z_scope.

(** ** Exceptions *)

(** The classes of Python's exception hierarchy the code can meet.
    [KeyboardInterrupt], [SystemExit] and [GeneratorExit] derive from
    [BaseException] only, every other class derives from [Exception]. *)
Inductive exn_class :=
  | ValueError | TypeError | AttributeError | IndexError | KeyError
  | OverflowError | ImportError | OSError
  | FileNotFoundError | FileExistsError | NotADirectoryError | IsADirectoryError
  | RuntimeError
  | KeyboardInterrupt | SystemExit | GeneratorExit.

#[global] Instance exn_class_eq_dec : EqDecision exn_class.
Proof. solve_decision. Defined.

Record exn := Exn { exn_cls : exn_class; exn_msg : string }.

#[global] Instance exn_eq_dec : EqDecision exn.
Proof. solve_decision. Defined.

(** [isinstance(e, Exception)] *)
Definition is_Exception (e : exn) : bool :=
  match exn_cls e with
  | KeyboardInterrupt | SystemExit | GeneratorExit => false
  | _ => true
  end.

(** [isinstance(e, AttributeError)] *)
Definition is_AttributeError (e : exn) : bool :=
  bool_decide (exn_cls e = AttributeError).

(** The outcome of evaluating an expression or running a statement. *)
Inductive result (A : Type) :=
  | Ok (a : A)
  | Raise (e : exn).
Arguments Ok {A} a.
Arguments Raise {A} e.

#[global] Instance result_ret : MRet result := λ A a, Ok a.
#[global] Instance result_bind : MBind result := λ A B f r,
  match r with
  | Ok a => f a
  | Raise e => Raise e
  end.

Definition is_Ok {A} (r : result A) : bool :=
  match r with Ok _ => true | Raise _ => false end.

(** ** Floating-point numbers

    A Python [float] is an IEEE 754 binary64 number: [spec_float] with
    precision 53 and maximal exponent 1024. *)
Module PyFloat.

Definition prec : Z := 53.
Definition emax : Z := 1024.

Definition mul : spec_float → spec_float → spec_float := SFmul prec emax.
Definition sub : spec_float → spec_float → spec_float := SFsub prec emax.

(** [float(n)] for a Python [int]: round to nearest even; an [int] beyond
    the range of binary64 raises. *)
Definition of_int (n : Z) : result spec_float :=
  match binary_normalize prec emax n 0 false with
  | S754_infinity _ => Raise (Exn OverflowError "int too large to convert to float")
  | f => Ok f
  end.

(** The magnitude [m * 2^e] rounded toward zero. *)
Definition trunc_mag (m : positive) (e : Z) : Z :=
  if 0 <=? e then Z.pos m * 2 ^ e else Z.pos m / 2 ^ (- e).

(** The magnitude [m * 2^e] rounded up. *)
Definition ceil_mag (m : positive) (e : Z) : Z :=
  if 0 <=? e then Z.pos m * 2 ^ e else - ((- Z.pos m) / 2 ^ (- e)).

(** [int(f)]: truncation toward zero. *)
Definition to_int (f : spec_float) : result Z :=
  match f with
  | S754_zero _ => Ok 0
  | S754_finite s m e => Ok (if s then - trunc_mag m e else trunc_mag m e)
  | S754_infinity _ => Raise (Exn OverflowError "cannot convert float infinity to integer")
  | S754_nan => Raise (Exn ValueError "cannot convert float NaN to integer")
  end.

(** [math.floor(f)]: the largest integer not above [f]. *)
Definition floor (f : spec_float) : result Z :=
  match f with
  | S754_zero _ => Ok 0
  | S754_finite s m e => Ok (if s then - ceil_mag m e else trunc_mag m e)
  | S754_infinity _ => Raise (Exn OverflowError "cannot convert float infinity to integer")
  | S754_nan => Raise (Exn ValueError "cannot convert float NaN to integer")
  end.

(** [f >= 0.0] *)
Definition nonneg (f : spec_float) : bool :=
  match f with
  | S754_zero _ => true
  | S754_finite s _ _ => negb s
  | S754_infinity s => negb s
  | S754_nan => false
  end.

End PyFloat.

(** NumPy's [float32]: binary32. *)
Module F32.
Definition prec : Z := 24.
Definition emax : Z := 128.
Definition one : spec_float := SFone prec emax.
(** Conversion of a stored value to [float32]. *)
Definition cast (f : spec_float) : spec_float :=
  match f with
  | S754_finite s m e => binary_round prec emax s m e
  | _ => f
  end.
End F32.

#[global] Instance spec_float_inhabited : Inhabited spec_float :=
  populate (S754_zero false).

(** ** Python values *)

(** [VObj] is a reference to an object of an external library (a Keras model
    or layer, a tensor, an optimizer, a logger, an array kept in a field):
    what it does is decided by the [Runtime].  [VAttr v a] is the attribute
    [a] of the built-in value [v] (a bound method, say). *)
Inductive pyval :=
  | VNone
  | VBool (b : bool)
  | VInt (z : Z)
  | VFloat (f : spec_float)
  | VStr (s : string)
  | VTuple (l : list pyval)
  | VObj (o : positive)
  | VAttr (v : pyval) (a : string).

(** [v is None] *)
Definition is_None (v : pyval) : bool :=
  match v with VNone => true | _ => false end.

(** [v is True] *)
Definition is_True (v : pyval) : bool :=
  match v with VBool true => true | _ => false end.

(** [isinstance(v, float)] *)
Definition is_float (v : pyval) : bool :=
  match v with VFloat _ => true | _ => false end.

(** The name of the type of a value, as error messages print it. *)
Definition type_name (v : pyval) : string :=
  match v with
  | VNone => "NoneType"
  | VBool _ => "bool"
  | VInt _ => "int"
  | VFloat _ => "float"
  | VStr _ => "str"
  | VTuple _ => "tuple"
  | VObj _ => "object"
  | VAttr _ _ => "builtin_function_or_method"
  end.

Definition no_attribute (v : pyval) (a : string) : exn :=
  Exn AttributeError ("'" +:+ type_name v +:+ "' object has no attribute '" +:+ a +:+ "'").

(** [s * n] for a string: [n] copies, none when [n <= 0]. *)
Fixpoint str_repeat (n : nat) (s : string) : string :=
  match n with
  | O => ""
  | S n' => s +:+ str_repeat n' s
  end.

Definition as_int (v : pyval) : option Z :=
  match v with
  | VInt z => Some z
  | VBool b => Some (if b then 1 else 0)
  | _ => None
  end.

(** ** Paths and the file system *)

(** [posixpath]: the functions of [os.path] the class calls. *)
Module PosixPath.

Definition is_sep (c : ascii) : bool := bool_decide (c = "/"%char).

(** [s.startswith('/')] *)
Definition startswith_sep (s : string) : bool :=
  match s with
  | String c _ => is_sep c
  | EmptyString => false
  end.

(** [s.endswith('/')] *)
Fixpoint endswith_sep (s : string) : bool :=
  match s with
  | EmptyString => false
  | String c EmptyString => is_sep c
  | String _ s' => endswith_sep s'
  end.

(** [os.path.join(a, b)]: an absolute [b] discards [a]; a separator is
    inserted unless [a] is empty or already ends with one. *)
Definition join (a b : string) : string :=
  if startswith_sep b then b
  else if bool_decide (a = "") || endswith_sep a then a +:+ b
  else a +:+ "/" +:+ b.

(** [s.split('/')] *)
Fixpoint split (s : string) : list string :=
  match s with
  | EmptyString => [""]
  | String c s' =>
      if is_sep c then "" :: split s'
      else match split s' with
           | [] => [String c ""]
           | h :: t => String c h :: t
           end
  end.

(** One component of a path walked from the directory [stack]: empty
    components and ["."] stay, [".."] goes up, a name goes down. *)
Definition walk (stack : list string) (c : string) : list string :=
  if bool_decide (c = "") || bool_decide (c = ".") then stack
  else if bool_decide (c = "..") then removelast stack
  else (stack ++ [c])%list.

(** The location a path string names: the list of names from the root.
    A relative path starts from the working directory [cwd].  Resolution
    is lexical (as [os.path.normpath]; no symbolic links). *)
Definition resolve (cwd : list string) (p : string) : list string :=
  fold_left walk (split p) (if startswith_sep p then [] else cwd).

End PosixPath.

(** What a location of the file system holds. *)
Inductive node :=
  | Dir
  | File (text : string).

(** A file system: the working directory of the process and what exists
    where.  The root [[]] is a directory and always exists. *)
Record FS := mkFS {
  cwd : list string;
  nodes : gmap (list string) node;
}.

Definition is_root (q : list string) : bool := bool_decide (q = []).

Definition is_dir (fs : FS) (q : list string) : bool :=
  is_root q || match nodes fs !! q with Some Dir => true | _ => false end.

Definition is_file (fs : FS) (q : list string) : bool :=
  negb (is_root q) && match nodes fs !! q with Some (File _) => true | _ => false end.

(** The text of the regular file at [q]. *)
Definition read_file (fs : FS) (q : list string) : option string :=
  if is_root q then None
  else match nodes fs !! q with Some (File text) => Some text | _ => None end.

(** The directories from the root down to [q], [q] included. *)
Definition ancestors (q : list string) : list (list string) :=
  (λ i, take i q) <$> seq 1 (length q).

(** [os.path.exists(p)] *)
Definition os_path_exists (fs : FS) (p : string) : bool :=
  let q := PosixPath.resolve (cwd fs) p in
  negb (bool_decide (p = "")) && (is_dir fs q || is_file fs q).

(** [os.makedirs(p)]: the leaf must not exist; missing intermediate
    directories are created. *)
Definition os_makedirs (p : string) (fs : FS) : result FS :=
  let q := PosixPath.resolve (cwd fs) p in
  if bool_decide (p = "") then Raise (Exn FileNotFoundError p)
  else if is_dir fs q || is_file fs q then Raise (Exn FileExistsError p)
  else if existsb (is_file fs) (ancestors q) then Raise (Exn NotADirectoryError p)
  else Ok (mkFS (cwd fs) (foldr (λ d m, <[d := Dir]> m) (nodes fs) (ancestors q))).

(** [open(p, 'w')]: creates or truncates the file; the handle is the
    location of the file. *)
Definition open_w (p : string) (fs : FS) : result (list string * FS) :=
  let q := PosixPath.resolve (cwd fs) p in
  if bool_decide (p = "") then Raise (Exn FileNotFoundError p)
  else if is_dir fs q then Raise (Exn IsADirectoryError p)
  else if is_file fs (removelast q) then Raise (Exn NotADirectoryError p)
  else if negb (is_dir fs (removelast q)) then Raise (Exn FileNotFoundError p)
  else Ok (q, mkFS (cwd fs) (<[q := File ""]> (nodes fs))).

(** [h.write(text)] on an open handle: appends. *)
Definition file_write (h : list string) (text : string) (fs : FS) : FS :=
  mkFS (cwd fs)
    (alter (λ n, match n with File old => File (old +:+ text) | Dir => Dir end)
       h (nodes fs)).

(** ** N-dimensional arrays *)

(** A NumPy array: its shape and its elements in row-major order. *)
Record ndarray := NDArray {
  shape : list nat;
  data : list spec_float;
}.

Module Np.

Definition ndim (a : ndarray) : nat := length (shape a).

(** Number of elements of an array of shape [sh]. *)
Definition size_of (sh : list nat) : nat := foldr Nat.mul 1%nat sh.

(** All multi-indices of a shape, in row-major order. *)
Fixpoint indices (sh : list nat) : list (list nat) :=
  match sh with
  | [] => [[]]
  | n :: sh' => i ← seq 0 n; (λ idx, i :: idx) <$> indices sh'
  end.

(** Position of a multi-index in the row-major data. *)
Fixpoint ravel (sh : list nat) (idx : list nat) : nat :=
  match sh, idx with
  | _ :: sh', i :: idx' => (i * size_of sh' + ravel sh' idx')%nat
  | _, _ => 0%nat
  end.

Definition get (a : ndarray) (idx : list nat) : spec_float :=
  data a !!! ravel (shape a) idx.

(** [a.shape[k]] *)
Definition shape_at (a : ndarray) (k : nat) : result nat :=
  match shape a !! k with
  | Some n => Ok n
  | None => Raise (Exn IndexError "tuple index out of range")
  end.

(** [np.ones(sh, dtype=np.float32)] *)
Definition ones (sh : list nat) : ndarray :=
  NDArray sh (replicate (size_of sh) F32.one).

(** [np.atleast_3d(a)]: a view with at least three axes. *)
Definition atleast_3d (a : ndarray) : ndarray :=
  match shape a with
  | [] => NDArray [1; 1; 1]%nat (data a)
  | [n] => NDArray [1; n; 1]%nat (data a)
  | [n; m] => NDArray [n; m; 1%nat] (data a)
  | _ => a
  end.

(** [a[:, :, :, np.newaxis]] *)
Definition newaxis3 (a : ndarray) : result ndarray :=
  match shape a with
  | s0 :: s1 :: s2 :: rest => Ok (NDArray (s0 :: s1 :: s2 :: 1%nat :: rest) (data a))
  | _ => Raise (Exn IndexError "too many indices for array")
  end.

(** [a[i:i + 1]] *)
Definition slice0 (a : ndarray) (i : nat) : result ndarray :=
  match shape a with
  | [] => Raise (Exn IndexError "too many indices for array")
  | n :: rest =>
      let count := if (i <? n)%nat then 1%nat else 0%nat in
      Ok (NDArray (count :: rest)
            (take (count * size_of rest) (drop (i * size_of rest) (data a))))
  end.

(** [np.asarray(l)[0]] for the list of arrays a session run returns. *)
Definition asarray_first (l : list ndarray) : result ndarray :=
  match l with
  | [] => Raise (Exn IndexError "index 0 is out of bounds for axis 0 with size 0")
  | a :: _ => Ok a
  end.

(** One subscript of an indexing expression. *)
Inductive index :=
  | At (i : nat)            (* [a[i]] *)
  | Range (lo hi : nat)     (* [a[lo:hi]] *)
  | Full.                   (* [a[:]] *)

(** The subscripts fit the shape. *)
Fixpoint check_index (sh : list nat) (ix : list index) : result unit :=
  match sh, ix with
  | _, [] => Ok tt
  | [], _ :: _ => Raise (Exn IndexError "too many indices for array")
  | n :: sh', At k :: ix' =>
      if (k <? n)%nat then check_index sh' ix'
      else Raise (Exn IndexError "index is out of bounds")
  | _ :: sh', _ :: ix' => check_index sh' ix'
  end.

(** Shape of the selected region. *)
Fixpoint region_shape (sh : list nat) (ix : list index) : list nat :=
  match sh, ix with
  | _ :: sh', At _ :: ix' => region_shape sh' ix'
  | n :: sh', Range lo hi :: ix' =>
      (Nat.min hi n - Nat.min lo n)%nat :: region_shape sh' ix'
  | n :: sh', Full :: ix' => n :: region_shape sh' ix'
  | sh, [] => sh
  | [], _ :: _ => []
  end.

(** Where a multi-index of the array lies in the region, if it does. *)
Fixpoint region_pos (ix : list index) (idx : list nat) : option (list nat) :=
  match ix, idx with
  | [], _ => Some idx
  | At k :: ix', i :: idx' =>
      if (i =? k)%nat then region_pos ix' idx' else None
  | Range lo hi :: ix', i :: idx' =>
      if (lo <=? i)%nat && (i <? hi)%nat
      then cons (i - lo)%nat <$> region_pos ix' idx' else None
  | Full :: ix', i :: idx' => cons i <$> region_pos ix' idx'
  | _ :: _, [] => None
  end.

(** Leading axes of length 1 that a value has in excess of its target. *)
Fixpoint strip_ones (extra : nat) (v : list nat) : option (list nat) :=
  match extra, v with
  | O, _ => Some v
  | S extra', 1%nat :: v' => strip_ones extra' v'
  | S _, _ => None
  end.

(** Axis by axis, from the right: equal lengths, or length 1 in the value. *)
Definition axes_fit (v r : list nat) : bool :=
  forallb (λ p : nat * nat, (p.1 =? p.2)%nat || (p.1 =? 1)%nat)
          (zip v (drop (length r - length v)%nat r)).

(** The index of the value element that lands on region position [pos]. *)
Definition source_index (v : list nat) (pos : list nat) : list nat :=
  (λ p : nat * nat, if (p.1 =? 1)%nat then 0%nat else p.2)
    <$> zip v (drop (length pos - length v)%nat pos).

(** [a[ix] = v]: broadcast [v] over the region and store it as [float32]. *)
Definition setitem (a : ndarray) (ix : list index) (v : ndarray) : result ndarray :=
  _ ← check_index (shape a) ix;
  let r := region_shape (shape a) ix in
  match strip_ones (ndim v - length r)%nat (shape v) with
  | Some vs =>
      if axes_fit vs r then
        Ok (NDArray (shape a)
              (zip_with (λ idx old,
                  match region_pos ix idx with
                  | Some pos => F32.cast (data v !!! ravel vs (source_index vs pos))
                  | None => old
                  end) (indices (shape a)) (data a)))
      else Raise (Exn ValueError "could not broadcast input array")
  | None => Raise (Exn ValueError "could not broadcast input array")
  end.

(** [np.mean(a, axis=axis)], with the mean of a list of [float32] values
    left to [mean_of]. *)
Definition mean (mean_of : list spec_float → spec_float) (a : ndarray) (axis : Z)
  : result ndarray :=
  let nd := Z.of_nat (ndim a) in
  let ax := if axis <? 0 then axis + nd else axis in
  if (ax <? 0) || (nd <=? ax) then Raise (Exn ValueError "axis is out of bounds")
  else
    let k := Z.to_nat ax in
    let n := nth k (shape a) 0%nat in
    let sh' := (take k (shape a) ++ drop (S k) (shape a))%list in
    Ok (NDArray sh'
          ((λ idx, mean_of ((λ i, get a (take k idx ++ i :: drop k idx)%list) <$> seq 0 n))
             <$> indices sh')).

End Np.

(** ** The world outside the object *)

(** The console, the file system, and the hidden state [R] of the external
    libraries (the TensorFlow graph and session, the clock, ...). *)
Record World (R : Type) := mkWorld {
  stdout : list string;
  fs : FS;
  rt : R;
}.
Arguments mkWorld {R} _ _ _.
Arguments stdout {R} _.
Arguments fs {R} _.
Arguments rt {R} _.

(** A call into an external library: it may raise, and what it did to the
    world stays done when it raises. *)
Definition ext (R A : Type) : Type := World R → result A * World R.

(** The external collaborators of the class.  None of them is defined in
    this module: each is a method of the runtime the class runs on. *)
Class Runtime (R : Type) := {
  (** Python built-ins, on the values this development does not interpret:
      [str(v)], [getattr(v, a)], the rest of a replacement field (element
      index, conversion, format spec), a binary operator, [int(v)],
      [len(v)], [operator.index(v)]. *)
  rt_str : pyval → string;
  rt_getattr : pyval → string → result pyval;
  rt_format_rest : pyval → string → result string;
  rt_binop : string → pyval → pyval → result pyval;
  rt_int : pyval → result Z;
  rt_len : pyval → result nat;
  rt_index : pyval → result Z;
  (** [time.time()] *)
  time_time : ext R spec_float;
  (** [astroNN.shared.nn_tools] *)
  folder_runnum : ext R pyval;
  cpu_fallback : ext R unit;
  gpu_memory_manage : option pyval → pyval → ext R unit;
  (** NumPy arithmetic: the new contents of [a] after [a -= v], [a /= v],
      and the mean of a list of [float32] values. *)
  np_isub : ndarray → pyval → result ndarray;
  np_itruediv : ndarray → pyval → result ndarray;
  np_mean_of : list spec_float → spec_float;
  (** Keras and TensorFlow: [model.get_layer(name)], an attribute of a
      layer, [tensor[0, j]], [tf.gradients(y, x)],
      [get_session().run(fetches, feed_dict={x: a})] and
      [keras.utils.plot_model(model, show_shapes=..., to_file=...)]. *)
  get_layer : positive → string → ext R pyval;
  layer_attr : pyval → string → ext R pyval;
  tensor_getitem : pyval → Z → Z → ext R pyval;
  tf_gradients : pyval → pyval → ext R pyval;
  session_run : pyval → pyval → ndarray → ext R (list ndarray);
  keras_plot_model : pyval → bool → pyval → ext R unit;
  (** The abstract method [post_training_checklist_child], given the
      object's attributes, and [logger.savefile(folder_name=...)]. *)
  post_training_checklist_child : gmap string pyval → ext R unit;
  savefile : positive → pyval → ext R unit;
}.

(** ** Python operations on values *)

Section Builtins.
Context {R : Type} `{!Runtime R}.

Definition scalar_str (v : pyval) : option string :=
  match v with
  | VNone => Some "None"
  | VBool b => Some (if b then "True" else "False")
  | VInt z => Some (pretty z)
  | _ => None
  end.

Fixpoint comma_sep (l : list string) : string :=
  match l with
  | [] => ""
  | [s] => s
  | s :: l' => s +:+ ", " +:+ comma_sep l'
  end.

(** [str(v)] *)
Definition py_str (v : pyval) : string :=
  match v with
  | VNone | VBool _ | VInt _ => default "" (scalar_str v)
  | VStr s => s
  | VTuple l =>
      match mapM scalar_str l with
      | Some [s] => "(" +:+ s +:+ ",)"
      | Some ss => "(" +:+ comma_sep ss +:+ ")"
      | None => rt_str v
      end
  | _ => rt_str v
  end.

(** The names [dir(float)] lists. *)
Definition float_attributes : list string :=
  [ "__abs__"; "__add__"; "__bool__"; "__ceil__"; "__class__"; "__delattr__";
    "__dir__"; "__divmod__"; "__doc__"; "__eq__"; "__float__"; "__floor__";
    "__floordiv__"; "__format__"; "__ge__"; "__getattribute__";
    "__getformat__"; "__getnewargs__"; "__getstate__"; "__gt__"; "__hash__";
    "__init__"; "__init_subclass__"; "__int__"; "__le__"; "__lt__"; "__mod__";
    "__mul__"; "__ne__"; "__neg__"; "__new__"; "__pos__"; "__pow__";
    "__radd__"; "__rdivmod__"; "__reduce__"; "__reduce_ex__"; "__repr__";
    "__rfloordiv__"; "__rmod__"; "__rmul__"; "__round__"; "__rpow__";
    "__rsub__"; "__rtruediv__"; "__setattr__"; "__setformat__"; "__sizeof__";
    "__str__"; "__sub__"; "__subclasshook__"; "__truediv__"; "__trunc__";
    "as_integer_ratio"; "conjugate"; "fromhex"; "hex"; "imag"; "is_integer";
    "real" ].

(** [getattr(v, a)] *)
Definition py_getattr (v : pyval) (a : string) : result pyval :=
  match v with
  | VFloat f =>
      if bool_decide (a ∈ float_attributes) then
        Ok (if bool_decide (a = "real") then v
            else if bool_decide (a = "imag") then VFloat (S754_zero false)
            else VAttr v a)
      else Raise (no_attribute v a)
  | _ => rt_getattr v a
  end.

Definition unsupported_operands (op : string) (a b : pyval) : exn :=
  Exn TypeError ("unsupported operand type(s) for " +:+ op +:+ ": '"
                 +:+ type_name a +:+ "' and '" +:+ type_name b +:+ "'").

(** [n * v] for an [int] [n] *)
Definition py_mul_int (n : Z) (v : pyval) : result pyval :=
  match v with
  | VInt _ | VBool _ => Ok (VInt (n * default 0 (as_int v)))
  | VFloat f => x ← PyFloat.of_int n; Ok (VFloat (PyFloat.mul x f))
  | VStr s => Ok (VStr (str_repeat (Z.to_nat n) s))
  | VTuple l => Ok (VTuple (mjoin (replicate (Z.to_nat n) l)))
  | VNone | VAttr _ _ => Raise (unsupported_operands "*" (VInt n) v)
  | VObj _ => rt_binop "*" (VInt n) v
  end.

(** [n - v] for an [int] [n] *)
Definition py_sub_int (n : Z) (v : pyval) : result pyval :=
  match v with
  | VInt _ | VBool _ => Ok (VInt (n - default 0 (as_int v)))
  | VFloat f => x ← PyFloat.of_int n; Ok (VFloat (PyFloat.sub x f))
  | VObj _ => rt_binop "-" (VInt n) v
  | _ => Raise (unsupported_operands "-" (VInt n) v)
  end.

(** [v + s] for a string literal [s] *)
Definition py_add_str (v : pyval) (s : string) : result pyval :=
  match v with
  | VStr t => Ok (VStr (t +:+ s))
  | VObj _ => rt_binop "+" v (VStr s)
  | _ => Raise (unsupported_operands "+" v (VStr s))
  end.

(** [int(v)] *)
Definition py_int (v : pyval) : result Z :=
  match v with
  | VInt _ | VBool _ => Ok (default 0 (as_int v))
  | VFloat f => PyFloat.to_int f
  | VStr _ | VObj _ => rt_int v
  | _ => Raise (Exn TypeError "int() argument must be a string, a bytes-like object or a number")
  end.

(** [len(v)] *)
Definition py_len (v : pyval) : result nat :=
  match v with
  | VTuple l => Ok (length l)
  | VStr s => Ok (String.length s)
  | VObj _ => rt_len v
  | _ => Raise (Exn TypeError ("object of type '" +:+ type_name v +:+ "' has no len()"))
  end.

(** [operator.index(v)]: the value as an integer, where an integer is
    required (a dimension, the argument of [range]). *)
Definition py_index (v : pyval) : result Z :=
  match v with
  | VInt _ | VBool _ => Ok (default 0 (as_int v))
  | VObj _ => rt_index v
  | _ => Raise (Exn TypeError ("'" +:+ type_name v +:+ "' object cannot be interpreted as an integer"))
  end.

(** A path argument of [os.path] and [open]: a [str]. *)
Definition py_path (v : pyval) : result string :=
  match v with
  | VStr s => Ok s
  | _ => Raise (Exn TypeError ("expected str, bytes or os.PathLike object, not " +:+ type_name v))
  end.

(** [os.path.join(a, b)] *)
Definition os_path_join (a b : pyval) : result pyval :=
  x ← py_path a; y ← py_path b; Ok (VStr (PosixPath.join x y)).

End Builtins.

(** ** [str.format]

    [template.format(a0, a1, ...)] for positional arguments.  The template is
    read left to right; a replacement field [{...}] is evaluated as soon as
    it is closed.  A field is an argument name (empty: the next positional
    argument; digits: that positional argument), then attribute accesses
    [.name], then possibly an element index, a conversion or a format spec
    (left to the runtime). *)
Module Format.
Section Format.
Context {R : Type} `{!Runtime R}.

Definition is_open (c : ascii) : bool := bool_decide (c = "{"%char).
Definition is_close (c : ascii) : bool := bool_decide (c = "}"%char).
Definition is_dot (c : ascii) : bool := bool_decide (c = "."%char).

(** The characters that end a name inside a field. *)
Definition is_delim (c : ascii) : bool :=
  bool_decide (c ∈ ["."; "["; "!"; ":"]%char).

(** The name at the start of [s], and what follows it. *)
Fixpoint span_name (s : string) : string * string :=
  match s with
  | EmptyString => ("", "")
  | String c s' =>
      if is_delim c then ("", s)
      else let '(n, r) := span_name s' in (String c n, r)
  end.

(** A string of decimal digits as a number. *)
Fixpoint digits_go (s : string) (acc : nat) : option nat :=
  match s with
  | EmptyString => Some acc
  | String c s' => d ← Ascii.is_nat c; digits_go s' (10 * acc + d)%nat
  end.
Definition digits (s : string) : option nat :=
  if bool_decide (s = "") then None else digits_go s 0%nat.

(** How the fields met so far chose their arguments. *)
Inductive numbering :=
  | Unset
  | Auto (next : nat)
  | Manual.

(** The argument a field names. *)
Definition select (arg_name : string) (num : numbering) (args : list pyval)
  : result (pyval * numbering) :=
  let pick (k : nat) (num' : numbering) : result (pyval * numbering) :=
    match args !! k with
    | Some v => Ok (v, num')
    | None => Raise (Exn IndexError "Replacement index out of range for positional args tuple")
    end in
  if bool_decide (arg_name = "") then
    match num with
    | Manual => Raise (Exn ValueError "cannot switch from manual field specification to automatic field numbering")
    | Unset => pick 0%nat (Auto 1)
    | Auto k => pick k (Auto (S k))
    end
  else
    match digits arg_name with
    | Some k =>
        match num with
        | Auto _ => Raise (Exn ValueError "cannot switch from automatic field numbering to manual field specification")
        | _ => pick k Manual
        end
    | None => Raise (Exn KeyError arg_name)
    end.

(** The attribute whose name has been read, if one was being read. *)
Definition close_attr (v : pyval) (attr : option string) : result pyval :=
  match attr with
  | None => Ok v
  | Some a =>
      if bool_decide (a = "") then Raise (Exn ValueError "Empty attribute in format string")
      else py_getattr v a
  end.

(** The rest of a field after the argument name, applied to the value
    [v]; [attr] holds the attribute name being read. *)
Fixpoint access (s : string) (v : pyval) (attr : option string) : result string :=
  match s with
  | EmptyString => v' ← close_attr v attr; Ok (py_str v')
  | String c s' =>
      if is_dot c then v' ← close_attr v attr; access s' v' (Some "")
      else if is_delim c then v' ← close_attr v attr; rt_format_rest v' s
      else match attr with
           | Some a => access s' v (Some (a +:+ String c ""))
           | None => rt_format_rest v s
           end
  end.

(** One replacement field. *)
Definition field (f : string) (num : numbering) (args : list pyval)
  : result (string * numbering) :=
  let '(arg_name, rest) := span_name f in
  '(v, num') ← select arg_name num args;
  text ← access rest v None;
  Ok (text, num').

(** The template from [s] on; [cur] holds the field being read. *)
Fixpoint format_go (s : string) (cur : option string) (num : numbering)
  (args : list pyval) : result string :=
  match s, cur with
  | EmptyString, None => Ok ""
  | EmptyString, Some _ => Raise (Exn ValueError "expected '}' before end of string")
  | String c s', Some f =>
      if is_close c then
        '(text, num') ← field f num args;
        rest ← format_go s' None num' args;
        Ok (text +:+ rest)
      else format_go s' (Some (f +:+ String c "")) num args
  | String c s', None =>
      if is_open c then
        match s' with
        | String c' s'' =>
            if is_open c' then
              rest ← format_go s'' None num args; Ok (String c rest)
            else format_go s' (Some "") num args
        | EmptyString => Raise (Exn ValueError "Single '{' encountered in format string")
        end
      else if is_close c then
        match s' with
        | String c' s'' =>
            if is_close c' then
              rest ← format_go s'' None num args; Ok (String c rest)
            else Raise (Exn ValueError "Single '}' encountered in format string")
        | EmptyString => Raise (Exn ValueError "Single '}' encountered in format string")
        end
      else rest ← format_go s' None num args; Ok (String c rest)
  end.

(** [template.format(a0, a1, ...)] *)
Definition format (template : string) (args : list pyval) : result string :=
  format_go template None Unset args.

End Format.
End Format.

(** ** The state of a run *)

(** The attribute dictionary of the object ([self.__dict__]), the arrays
    that exist (by reference, so that aliasing shows), and the world. *)
Record Heap (R : Type) := mkHeap {
  self : gmap string pyval;
  arrays : gmap positive ndarray;
  world : World R;
}.
Arguments mkHeap {R} _ _ _.
Arguments self {R} _.
Arguments arrays {R} _.
Arguments world {R} _.

(** A Python computation: it ends with a value or with an exception, and
    the state it reached stays reached either way. *)
Definition Py (R A : Type) : Type := Heap R → result A * Heap R.

#[global] Instance Py_ret {R} : MRet (Py R) := λ A a h, (Ok a, h).
#[global] Instance Py_bind {R} : MBind (Py R) := λ A B f m h,
  match m h with
  | (Ok a, h') => f a h'
  | (Raise e, h') => (Raise e, h')
  end.

Section Effects.
Context {R : Type} `{!Runtime R}.

(** [raise e] *)
Definition raise {A} (e : exn) : Py R A := λ h, (Raise e, h).

(** A pure operation that may raise. *)
Definition lift {A} (r : result A) : Py R A := λ h, (r, h).

(** A call into an external library. *)
Definition call {A} (f : ext R A) : Py R A := λ h,
  let '(r, w) := f (world h) in (r, mkHeap (self h) (arrays h) w).

(** [try: body except <class>: handler], for the classes [catches] accepts. *)
Definition try_except {A} (body : Py R A) (catches : exn → bool)
  (handler : Py R A) : Py R A := λ h,
  match body h with
  | (Raise e, h') => if catches e then handler h' else (Raise e, h')
  | r => r
  end.

(** [for a in l: acc = body(a, acc)] *)
Fixpoint for_fold {A B} (l : list A) (acc : B) (body : A → B → Py R B) : Py R B :=
  match l with
  | [] => mret acc
  | a :: l' => acc' ← body a acc; for_fold l' acc' body
  end.

(** [self.a] *)
Definition self_get (a : string) : Py R pyval := λ h,
  match self h !! a with
  | Some v => (Ok v, h)
  | None => (Raise (Exn AttributeError
               ("'NeuralNetMaster' object has no attribute '" +:+ a +:+ "'")), h)
  end.

(** The attributes of [self], as a callee that is handed [self] sees them. *)
Definition get_self : Py R (gmap string pyval) := λ h, (Ok (self h), h).

(** [self.a = v] *)
Definition self_set (a : string) (v : pyval) : Py R unit := λ h,
  (Ok tt, mkHeap (<[a := v]> (self h)) (arrays h) (world h)).

(** [print(s)] *)
Definition print (s : string) : Py R unit := λ h,
  (Ok tt, mkHeap (self h) (arrays h)
            (mkWorld (stdout (world h) ++ [s]) (fs (world h)) (rt (world h)))).

(** The file system, read and changed. *)
Definition fs_read {A} (f : FS → A) : Py R A := λ h, (Ok (f (fs (world h))), h).

Definition fs_update {A} (f : FS → result (A * FS)) : Py R A := λ h,
  match f (fs (world h)) with
  | Ok (a, fs') =>
      (Ok a, mkHeap (self h) (arrays h)
               (mkWorld (stdout (world h)) fs' (rt (world h))))
  | Raise e => (Raise e, h)
  end.

(** The array a reference points to. *)
Definition load (l : positive) : Py R ndarray := λ h,
  (Ok (default (NDArray [0%nat] []) (arrays h !! l)), h).

(** A new array object. *)
Definition alloc (a : ndarray) : Py R positive := λ h,
  let l := fresh (dom (arrays h)) in
  (Ok l, mkHeap (self h) (<[l := a]> (arrays h)) (world h)).

(** The contents of the array at [l] replaced, in place. *)
Definition store (l : positive) (a : ndarray) : Py R unit := λ h,
  (Ok tt, mkHeap (self h) (<[l := a]> (arrays h)) (world h)).

(** [v.name(...)] on a value that must be a library object. *)
Definition method {A} (v : pyval) (name : string) (f : positive → ext R A) : Py R A :=
  match v with
  | VObj o => call (f o)
  | _ => raise (no_attribute v name)
  end.

End Effects.

(** A newline. *)
Definition nl : string := String "010"%char "".

(** [os.getcwd()] *)
Definition os_getcwd (fs : FS) : string :=
  match cwd fs with
  | [] => "/"
  | l => foldr (λ c s, "/" +:+ c +:+ s) "" l
  end.

(** ** The class [NeuralNetMaster] *)

Module NeuralNetMaster.
Section Methods.
Context {R : Type} `{!Runtime R}.

(** [sys.version], the versions of astroNN, Keras and TensorFlow, and
    Keras' [epsilon()], which [__init__] reads from the environment. *)
Record environment := mkEnvironment {
  sys_version : string;
  astroNN_version : string;
  keras_version : string;
  tf_VERSION : string;
  keras_epsilon : spec_float;
}.

(** [__init__]: the assignments, in order. *)
Definition __init__ (env : environment) (fs : FS) : gmap string pyval :=
  foldl (λ d kv, <[kv.1 := kv.2]> d) ∅
    [ ("name", VNone);
      ("_model_type", VNone);
      ("_model_identifier", VNone);
      ("_implementation_version", VNone);
      ("_NeuralNetMaster__python_info", VStr (sys_version env));
      ("_NeuralNetMaster__astronn_ver", VStr (astroNN_version env));
      ("_NeuralNetMaster__keras_ver", VStr (keras_version env));
      ("_NeuralNetMaster__tf_ver", VStr (tf_VERSION env));
      ("fallback_cpu", VBool false);
      ("limit_gpu_mem", VBool true);
      ("log_device_placement", VBool false);
      ("currentdir", VStr (os_getcwd fs));
      ("folder_name", VNone);
      ("fullfilepath", VNone);
      ("batch_size", VInt 64);
      ("autosave", VBool false);
      ("task", VNone);
      ("lr", VNone);
      ("max_epochs", VNone);
      ("val_size", VNone);
      ("val_num", VNone);
      ("beta_1", VFloat (S754_finite false 8106479329266893 (-53)));  (* 0.9 *)
      ("beta_2", VFloat (S754_finite false 8998192055486251 (-53)));  (* 0.999 *)
      ("optimizer_epsilon", VFloat (keras_epsilon env));
      ("optimizer", VNone);
      ("keras_model", VNone);
      ("keras_model_predict", VNone);
      ("history", VNone);
      ("metrics", VNone);
      ("input_normalizer", VNone);
      ("labels_normalizer", VNone);
      ("training_generator", VNone);
      ("input_norm_mode", VNone);
      ("labels_norm_mode", VNone);
      ("input_mean_norm", VNone);
      ("input_std_norm", VNone);
      ("labels_mean_norm", VNone);
      ("labels_std_norm", VNone);
      ("input_shape", VNone);
      ("labels_shape", VNone);
      ("num_train", VNone);
      ("targetname", VNone);
      ("history", VNone);
      ("virtual_cvslogger", VNone) ].

Definition cpu_gpu_check : Py R unit :=
  fallback_cpu ← self_get "fallback_cpu";
  (if is_True fallback_cpu then call cpu_fallback else mret tt);;
  limit_gpu_mem ← self_get "limit_gpu_mem";
  if is_True limit_gpu_mem then
    ldp ← self_get "log_device_placement";
    call (gpu_memory_manage None ldp)
  else
    limit_gpu_mem ← self_get "limit_gpu_mem";
    if is_float limit_gpu_mem then
      ratio ← self_get "limit_gpu_mem";
      ldp ← self_get "log_device_placement";
      call (gpu_memory_manage (Some ratio) ldp)
    else mret tt.

(** [a.shape[k]] as a Python [int] *)
Definition dim (a : ndarray) (k : nat) : result Z :=
  n ← Np.shape_at a k; Ok (Z.of_nat n).

(** The validation and training counts: the first four lines of
    [pre_training_checklist_master]. *)
Definition split_counts (input_data : ndarray) : Py R unit :=
  val_size ← self_get "val_size";
  (if is_None val_size then self_set "val_size" (VInt 0) else mret tt);;
  (* self.val_num = int(input_data.shape[0] * self.val_size) *)
  n ← lift (dim input_data 0);
  val_size ← self_get "val_size";
  product ← lift (py_mul_int n val_size);
  val_num ← lift (py_int product);
  self_set "val_num" (VInt val_num);;
  (* self.num_train = input_data.shape[0] - self.val_num *)
  n ← lift (dim input_data 0);
  val_num ← self_get "val_num";
  num_train ← lift (py_sub_int n val_num);
  self_set "num_train" num_train.

(** The [if input_data.ndim == ...] chain. *)
Definition infer_input_shape (input_data : ndarray) : Py R unit :=
  if bool_decide (Np.ndim input_data = 2%nat) then
    d1 ← lift (dim input_data 1);
    self_set "input_shape" (VTuple [VInt d1; VInt 1])
  else if bool_decide (Np.ndim input_data = 3%nat) then
    d1 ← lift (dim input_data 1);
    d2 ← lift (dim input_data 2);
    self_set "input_shape" (VTuple [VInt d1; VInt d2; VInt 1])
  else if bool_decide (Np.ndim input_data = 4%nat) then
    d1 ← lift (dim input_data 1);
    d2 ← lift (dim input_data 2);
    d3 ← lift (dim input_data 3);
    self_set "input_shape" (VTuple [VInt d1; VInt d2; VInt d3])
  else mret tt.

(** The [if labels.ndim == ...] chain. *)
Definition infer_labels_shape (labels : ndarray) : Py R unit :=
  if bool_decide (Np.ndim labels = 1%nat) then
    self_set "labels_shape" (VInt 1)
  else if bool_decide (Np.ndim labels = 2%nat) then
    d1 ← lift (dim labels 1);
    self_set "labels_shape" (VInt d1)
  else if bool_decide (Np.ndim labels = 3%nat) then
    d1 ← lift (dim labels 1);
    d2 ← lift (dim labels 2);
    self_set "labels_shape" (VTuple [VInt d1; VInt d2])
  else if bool_decide (Np.ndim labels = 4%nat) then
    d1 ← lift (dim labels 1);
    d2 ← lift (dim labels 2);
    d3 ← lift (dim labels 3);
    self_set "labels_shape" (VTuple [VInt d1; VInt d2; VInt d3])
  else mret tt.

(** The final [print]. *)
Definition report_counts : Py R unit :=
  num_train ← self_get "num_train";
  val_num ← self_get "val_num";
  line ← lift (Format.format "Number of Training Data: {}, Number of Validation Data: {}"
                 [num_train; val_num]);
  print line.

Definition pre_training_checklist_master (input_data labels : ndarray) : Py R unit :=
  split_counts input_data;;
  infer_input_shape input_data;;
  infer_labels_shape labels;;
  cpu_gpu_check;;
  report_counts.

Definition pre_testing_checklist_master : Py R unit := mret tt.

Definition post_training_checklist_master : Py R unit := mret tt.

(** [os.path.join(self.currentdir, self.folder_name)] *)
Definition folder_path : Py R string :=
  currentdir ← self_get "currentdir";
  folder_name ← self_get "folder_name";
  p ← lift (os_path_join currentdir folder_name);
  lift (py_path p).

(** The first part of [save]: the choice and the creation of the folder. *)
Definition save_folder (name : pyval) : Py R unit :=
  folder_name ← self_get "folder_name";
  if is_None folder_name && is_None name then
    r ← call folder_runnum;
    self_set "folder_name" r
  else
    (if negb (is_None name) then self_set "folder_name" name else mret tt);;
    p ← folder_path;
    found ← fs_read (λ fs, os_path_exists fs p);
    if negb found then
      p ← folder_path;
      fs_update (λ fs, fs' ← os_makedirs p fs; Ok (tt, fs'))
    else mret tt.

(** The lines of the summary: the template of each, without its final
    newline, and the attribute it shows. *)
Definition hyperparameter_lines : list (string * string) :=
  [ ("model: {} ", "name");
    ("model type: {} ", "_model_type");
    ("astroNN identifier: {} ", "_model_identifier");
    ("python version: {} ", "_NeuralNetMaster__python_info");
    ("astroNN version: {} ", "_NeuralNetMaster__astronn_ver");
    ("keras version: {} ", "_NeuralNetMaster__keras_ver");
    ("tensorflow version: {} ", "_NeuralNetMaster__tf_ver");
    ("folder name: {} ", "folder_name");
    ("fallback cpu? : {} ", "fallback_cpu");
    ("astroNN GPU management: {} ", "limit_gpu_mem");
    ("batch_size: {} ", "batch_size");
    ("optimizer: {} ", "optimizer");
    ("max_epochs: {} ", "max_epochs");
    ("learning rate: {} ", "lr");
    ("Validation Size: {} ", "val_size");
    ("training input shape: {} ", "input_shape");
    ("label shape: {} ", "labels_shape");
    ("number of training data: {} ", "num_train");
    ("number of validation data: {} ", "val_num") ].

(** [h.write(template.format(self.attribute))] *)
Definition write_line (h : list string) (line : string * string) : Py R unit :=
  v ← self_get line.2;
  text ← lift (Format.format (line.1 +:+ nl) [v]);
  fs_update (λ fs, Ok (tt, file_write h text fs)).

(** The [with open(...) as h:] block of [save]. *)
Definition save_hyperparameter : Py R unit :=
  fullfilepath ← self_get "fullfilepath";
  p ← lift (py_add_str fullfilepath "hyperparameter.txt");
  p ← lift (py_path p);
  h ← fs_update (open_w p);
  for_fold hyperparameter_lines tt (λ line _, write_line h line).

(** The [try] block of [plot_model]: the rendering of the diagram. *)
Definition render_model : Py R unit :=
  fullfilepath ← self_get "fullfilepath";
  if negb (is_None fullfilepath) then
    keras_model ← self_get "keras_model";
    fullfilepath ← self_get "fullfilepath";
    to_file ← lift (py_add_str fullfilepath "model.png");
    call (keras_plot_model keras_model true to_file)
  else
    keras_model ← self_get "keras_model";
    call (keras_plot_model keras_model true (VStr "model.png")).

Definition plot_model_warning : string :=
  "Skipped plot_model! graphviz and pydot_ng are required to plot the model architecture".

Definition plot_model : Py R unit :=
  try_except render_model is_Exception (print plot_model_warning).

(** What [save] does after the hyperparameter file is written. *)
Definition save_finish (model_plot : pyval) : Py R unit :=
  (if is_True model_plot then plot_model else mret tt);;
  attributes ← get_self;
  call (post_training_checklist_child attributes);;
  virtual_cvslogger ← self_get "virtual_cvslogger";
  if negb (is_None virtual_cvslogger) then
    logger ← self_get "virtual_cvslogger";
    folder_name ← self_get "folder_name";
    method logger "savefile" (λ o, savefile o folder_name)
  else mret tt.

(** [save] up to the end of the [with] block. *)
Definition save_summary (name : pyval) : Py R unit :=
  save_folder name;;
  (* self.fullfilepath = os.path.join(self.currentdir, self.folder_name + '/') *)
  currentdir ← self_get "currentdir";
  folder_name ← self_get "folder_name";
  with_sep ← lift (py_add_str folder_name "/");
  fullfilepath ← lift (os_path_join currentdir with_sep);
  self_set "fullfilepath" fullfilepath;;
  save_hyperparameter.

Definition save (name : pyval) (model_plot : pyval) : Py R unit :=
  save_summary name;;
  save_finish model_plot.

(** [self.<model>.get_layer("input").input] and
    [self.<model>.get_layer("input").input_shape] *)
Definition input_layer (model : string) : Py R (pyval * pyval) :=
  m ← self_get model;
  layer ← method m "get_layer" (λ o, get_layer o "input");
  input_tens ← call (layer_attr layer "input");
  m ← self_get model;
  layer ← method m "get_layer" (λ o, get_layer o "input");
  input_shape_expectation ← call (layer_attr layer "input_shape");
  mret (input_tens, input_shape_expectation).

(** The [try] statement of [jacobian]: the input layer of the model kept
    for prediction, or, when reading it raises [AttributeError], of the
    model. *)
Definition find_input_layer : Py R (pyval * pyval) :=
  try_except (input_layer "keras_model_predict") is_AttributeError
             (input_layer "keras_model").

(** The [print] that opens each round of the outer loop. *)
Definition report_progress (counter : nat) (start_time : spec_float) : Py R unit :=
  labels_shape ← self_get "labels_shape";
  now ← call time_time;
  line ← lift (Format.format "Completed {} of {} output, {.04} seconds elapsed"
                 [VInt (Z.of_nat counter + 1); labels_shape;
                  VFloat (PyFloat.sub now start_time)]);
  print line.

(** A dimension handed to [np.ones]. *)
Definition dimension (v : pyval) : result nat :=
  z ← py_index v;
  if z <? 0 then Raise (Exn ValueError "negative dimensions are not allowed")
  else Ok (Z.to_nat z).

(** [range(v)] *)
Definition py_range (v : pyval) : result (list nat) :=
  z ← py_index v; Ok (seq 0 (Z.to_nat z)).

(** [tf.gradients(self.keras_model.get_layer("output").output[0, j], input_tens)] *)
Definition gradient_tensor (j : nat) (input_tens : pyval) : Py R pyval :=
  keras_model ← self_get "keras_model";
  layer ← method keras_model "get_layer" (λ o, get_layer o "output");
  output ← call (layer_attr layer "output");
  grad ← call (tensor_getitem output 0 (Z.of_nat j));
  call (tf_gradients grad input_tens).

(** [np.asarray(get_session().run(g, feed_dict={input_tens: x_data[i:i + 1]}))[0]] *)
Definition run_gradient (g input_tens : pyval) (x_data : ndarray) (i : nat)
  : Py R ndarray :=
  x_in ← lift (Np.slice0 x_data i);
  r ← call (session_run g input_tens x_in);
  lift (Np.asarray_first r).

(** [jacobian] from the copy of the data to the start of the clock:
    the normalised data, the input tensor, the shape the input layer
    expects, and the start time. *)
Definition jacobian_prepare (x : positive)
  : Py R (ndarray * pyval * pyval * spec_float) :=
  (* x_data = np.array(x): a new array with the contents of x *)
  a ← load x;
  x_data ← alloc a;
  (* x_data -= self.input_mean_norm *)
  a ← load x_data;
  input_mean_norm ← self_get "input_mean_norm";
  a ← lift (np_isub a input_mean_norm);
  store x_data a;;
  (* x_data /= self.input_std_norm *)
  a ← load x_data;
  input_std_norm ← self_get "input_std_norm";
  a ← lift (np_itruediv a input_std_norm);
  store x_data a;;
  (* x_data = np.atleast_3d(x_data): from here on x_data is only read *)
  a ← load x_data;
  let x_data := Np.atleast_3d a in
  '(input_tens, input_shape_expectation) ←
    try_except (input_layer "keras_model_predict") is_AttributeError
               (input_layer "keras_model");
  start_time ← call time_time;
  mret (x_data, input_tens, input_shape_expectation, start_time).

Definition shape_mismatch : exn :=
  Exn ValueError "Input Data shape do not match neural network expectation".

(** A round of the loop over the output units, after its progress report,
    for an input layer that expects a shape of length 3: the gradient of
    unit [j] at each example [i], stored in [jacobian[j, :, i:i + 1]]. *)
Definition gradients_round3 (input_tens : pyval) (x_data : ndarray) (j : nat)
  (jacobian : ndarray) : Py R ndarray :=
  grad_wrt_input_tensor ← gradient_tensor j input_tens;
  n ← lift (Np.shape_at x_data 0);
  for_fold (seq 0 n) jacobian (λ i jacobian,
    v ← run_gradient grad_wrt_input_tensor input_tens x_data i;
    lift (Np.setitem jacobian [Np.At j; Np.Full; Np.Range i (i + 1)] v)).

(** The same for an input layer that expects a shape of length 4; the
    examples are counted by [x.shape[0]], the shape of the argument itself,
    and the gradient is stored in [jacobian[j, i:i + 1, :, :, :]]. *)
Definition gradients_round4 (x : positive) (input_tens : pyval) (x_data : ndarray)
  (j : nat) (jacobian : ndarray) : Py R ndarray :=
  grad_wrt_input_tensor ← gradient_tensor j input_tens;
  a ← load x;
  n ← lift (Np.shape_at a 0);
  for_fold (seq 0 n) jacobian (λ i jacobian,
    v ← run_gradient grad_wrt_input_tensor input_tens x_data i;
    lift (Np.setitem jacobian
            [Np.At j; Np.Range i (i + 1); Np.Full; Np.Full; Np.Full] v)).

(** [jacobian] from the test of the expected shape on. *)
Definition jacobian_compute (x : positive) (mean_output : pyval)
  (x_data : ndarray) (input_tens input_shape_expectation : pyval)
  (start_time : spec_float) : Py R ndarray :=
  len ← lift (py_len input_shape_expectation);
  if bool_decide (len = 3%nat) then
    let x_data := Np.atleast_3d x_data in
    labels_shape ← self_get "labels_shape";
    d1 ← lift (Np.shape_at x_data 1);
    d0 ← lift (Np.shape_at x_data 0);
    l ← lift (dimension labels_shape);
    let jacobian := Np.ones [l; d1; d0] in
    labels_shape ← self_get "labels_shape";
    js ← lift (py_range labels_shape);
    jacobian ← for_fold js jacobian (λ j jacobian,
      report_progress j start_time;;
      gradients_round3 input_tens x_data j jacobian);
    if is_True mean_output then lift (Np.mean np_mean_of jacobian (-1))
    else mret jacobian
  else if bool_decide (len = 4%nat) then
    x_data ← lift (Np.newaxis3 x_data);
    labels_shape ← self_get "labels_shape";
    d0 ← lift (Np.shape_at x_data 0);
    d2 ← lift (Np.shape_at x_data 2);
    d1 ← lift (Np.shape_at x_data 1);
    d3 ← lift (Np.shape_at x_data 3);
    l ← lift (dimension labels_shape);
    let jacobian := Np.ones [l; d0; d2; d1; d3] in
    labels_shape ← self_get "labels_shape";
    js ← lift (py_range labels_shape);
    jacobian ← for_fold js jacobian (λ j jacobian,
      report_progress j start_time;;
      gradients_round4 x input_tens x_data j jacobian);
    if is_True mean_output then lift (Np.mean np_mean_of jacobian 1)
    else mret jacobian
  else
    raise shape_mismatch.

Definition missing_data : exn :=
  Exn ValueError "Please provide data to calculate the jacobian".

(** [x] is [None] or a reference to an array. *)
Definition jacobian (x : option positive) (mean_output : pyval) : Py R ndarray :=
  (* import numpy as np *)
  match x with
  | None => raise missing_data
  | Some x =>
      '(x_data, input_tens, input_shape_expectation, start_time) ← jacobian_prepare x;
      jacobian_compute x mean_output x_data input_tens input_shape_expectation start_time
  end.

End Methods.
End NeuralNetMaster.

(** ** A small runtime

    A runtime to run the methods on concrete states: one Keras model
    (object 1) with an input layer (object 2) and an output layer
    (object 3), gradients that are the fed data, and a configuration that
    says what the input layer expects and whether rendering fails. *)
Module Toy.

Record config := mkConfig {
  expectation : pyval;
  plot_failure : option exn;
  clock : spec_float;
}.

Definition returns {A} (a : A) : ext config A := λ w, (Ok a, w).
Definition fails {A} (e : exn) : ext config A := λ w, (Raise e, w).

Definition arith (op : spec_float → spec_float → spec_float)
  (a : ndarray) (v : pyval) : result ndarray :=
  match v with
  | VFloat f => Ok (NDArray (shape a) ((λ x, op x f) <$> data a))
  | _ => Raise (Exn TypeError "unsupported operand")
  end.

Definition mean_of (l : list spec_float) : spec_float :=
  SFdiv F32.prec F32.emax
    (foldr (SFadd F32.prec F32.emax) (S754_zero false) l)
    (binary_normalize F32.prec F32.emax (Z.of_nat (length l)) 0 false).

Definition run_folder : string := "astroNN_run001".

#[global] Instance runtime : Runtime config := {|
  rt_str v := "<" +:+ type_name v +:+ ">";
  rt_getattr v a := Raise (no_attribute v a);
  rt_format_rest v s := Raise (Exn ValueError "Invalid format specifier");
  rt_binop op a b := Raise (Exn TypeError "unsupported operand");
  rt_int v := Raise (Exn ValueError "invalid literal for int()");
  rt_len v := Raise (Exn TypeError "object has no len()");
  rt_index v := Raise (Exn TypeError "object cannot be interpreted as an integer");
  time_time w := (Ok (clock (rt w)), w);
  folder_runnum w :=
    (Ok (VStr run_folder),
     mkWorld (stdout w)
       (mkFS (cwd (fs w)) (<[(cwd (fs w) ++ [run_folder])%list := Dir]> (nodes (fs w))))
       (rt w));
  cpu_fallback := returns tt;
  gpu_memory_manage ratio log_device_placement := returns tt;
  np_isub := arith PyFloat.sub;
  np_itruediv := arith (SFdiv PyFloat.prec PyFloat.emax);
  np_mean_of := mean_of;
  get_layer o name :=
    if bool_decide (o = 1%positive) then
      if bool_decide (name = "input") then returns (VObj 2)
      else if bool_decide (name = "output") then returns (VObj 3)
      else fails (Exn ValueError ("No such layer: " +:+ name))
    else fails (Exn AttributeError "get_layer");
  layer_attr layer a w :=
    match layer with
    | VObj 2 =>
        if bool_decide (a = "input") then (Ok (VObj 4), w)
        else if bool_decide (a = "input_shape") then (Ok (expectation (rt w)), w)
        else (Raise (no_attribute layer a), w)
    | VObj 3 =>
        if bool_decide (a = "output") then (Ok (VObj 5), w)
        else (Raise (no_attribute layer a), w)
    | _ => (Raise (no_attribute layer a), w)
    end;
  tensor_getitem t i j := returns (VObj (Pos.of_nat (10 + Z.to_nat j)));
  tf_gradients y x := returns (VObj 6);
  session_run g x a := returns [a];
  keras_plot_model model show_shapes to_file w :=
    match plot_failure (rt w) with
    | Some e => (Raise e, w)
    | None => (Ok tt, w)
    end;
  post_training_checklist_child attributes := returns tt;
  savefile logger folder_name := returns tt;
|}.

Definition env : NeuralNetMaster.environment :=
  NeuralNetMaster.mkEnvironment "3.6.3" "0.9" "2.1.2" "1.4.0"
    (S754_finite false 7555786372591432 (-76)).

(** A file system with the directory [/home/user], the working directory. *)
Definition disk : FS :=
  mkFS ["home"; "user"] (<[["home"; "user"] := Dir]> (<[["home"] := Dir]> ∅)).

Definition half : spec_float := S754_finite false 4503599627370496 (-53).
Definition minus_half : spec_float := S754_finite true 4503599627370496 (-53).
Definition tenth : spec_float := S754_finite false 7205759403792794 (-56).
Definition quarter : spec_float := S754_finite false 4503599627370496 (-54).

(** A trained model: one output unit, normalisation by scalars. *)
Definition trained : gmap string pyval :=
  <["labels_shape" := VInt 1]>
    (<["keras_model" := VObj 1]>
       (<["input_mean_norm" := VFloat half]>
          (<["input_std_norm" := VFloat quarter]>
             (NeuralNetMaster.__init__ env disk)))).

(** An input layer that expects [(None, 2, 1)]. *)
Definition config3 : config :=
  mkConfig (VTuple [VNone; VInt 2; VInt 1]) None (S754_zero false).

(** One example with two features, [[0.5, 0.25]], as array 1. *)
Definition x2 : ndarray := NDArray [1; 2]%nat [half; quarter].

(** An input layer that expects [(None, 2)]. *)
Definition config2 : config :=
  mkConfig (VTuple [VNone; VInt 2]) None (S754_zero false).

(** Rendering fails for want of graphviz; rendering is interrupted. *)
Definition no_graphviz : config :=
  mkConfig (VTuple [VNone; VInt 2; VInt 1])
    (Some (Exn ImportError "Failed to import pydot")) (S754_zero false).
Definition interrupted : config :=
  mkConfig (VTuple [VNone; VInt 2; VInt 1])
    (Some (Exn KeyboardInterrupt "")) (S754_zero false).

(** The same example as an array of rank 3, and an array of rank 0. *)
Definition x3 : ndarray := NDArray [1; 2; 1]%nat [half; quarter].
Definition scalar : ndarray := NDArray [] [half].

(** Ten examples with three features; labels for them. *)
Definition inputs : ndarray := NDArray [10; 3]%nat (replicate 30 half).
Definition labels : ndarray := NDArray [10; 2]%nat (replicate 20 quarter).

(** Two examples with two features, of rank 3. The session of this runtime
    returns what it is fed, so the gradient at an example is the example. *)
Definition examples : ndarray :=
  NDArray [2; 2; 1]%nat [half; quarter; tenth; minus_half].
Definition fed (x : ndarray) (i : nat) : ndarray :=
  match Np.slice0 x i with
  | Ok a => a
  | Raise _ => x
  end.

Definition heap (attributes : gmap string pyval) (x : ndarray) (c : config)
  : Heap config :=
  mkHeap attributes {[ 1%positive := x ]} (mkWorld [] disk c).

(** The trained model with the [val_size] [f]. *)
Definition with_val_size (f : spec_float) : Heap config :=
  heap (<["val_size" := VFloat f]> trained) x2 config3.

(** The data of [x2] prepared by [jacobian] on a model that expects
    [(None, 2, 1)], the data of [x3] on one that expects [(None, 2)], and
    the state a [save] to the folder [run1] leaves: evaluated. *)
Definition prepared3 : result (ndarray * pyval * pyval * spec_float) * Heap config :=
  Eval vm_compute in NeuralNetMaster.jacobian_prepare 1 (heap trained x2 config3).
Definition prepared2 : result (ndarray * pyval * pyval * spec_float) * Heap config :=
  Eval vm_compute in NeuralNetMaster.jacobian_prepare 1 (heap trained x3 config2).
Definition saved : Heap config :=
  Eval vm_compute in
    (NeuralNetMaster.save (VStr "run1") (VBool true) (heap trained x2 config3)).2.

(** [limit_gpu_mem = 1], an [int]. *)
Definition int_limit : Heap config :=
  heap (<["limit_gpu_mem" := VInt 1]> trained) x2 config3.



(** An object as [__init__] leaves it. *)
Definition fresh : Heap config :=
  heap (NeuralNetMaster.__init__ env disk) x2 config3.

(** [fullfilepath = 3]. *)
Definition bad_path : Heap config :=
  heap (<["fullfilepath" := VInt 3]> trained) x2 config3.

(** A model without output units, and what [jacobian] gives on it. *)
Definition no_units : Heap config :=
  heap (<["labels_shape" := VInt 0]> trained) x2 config3.
Definition no_units_jacobian : result ndarray * Heap config :=
  Eval vm_compute in NeuralNetMaster.jacobian (Some 1%positive) (VBool false) no_units.

(** Labels of rank 3 were given to the checklist. *)
Definition tuple_labels : Heap config :=
  heap (<["labels_shape" := VTuple [VInt 2; VInt 3]]> trained) x2 config3.
Definition prepared_tuple : result (ndarray * pyval * pyval * spec_float) * Heap config :=
  Eval vm_compute in NeuralNetMaster.jacobian_prepare 1 tuple_labels.

(** Labels for seven examples. *)
Definition labels7 : ndarray := NDArray [7; 2]%nat (replicate 14 half).

(** The state after the summary of [save('run1')] is written. *)
Definition summarised : Heap config :=
  Eval vm_compute in
    (NeuralNetMaster.save_summary (VStr "run1") (heap trained x2 config3)).2.

End Toy.

(** ** Vocabulary of the statements *)

Section Vocabulary.
Context {R : Type} `{!Runtime R}.

(** A property of the state that a computation keeps, however it ends. *)
Definition stable {A} (P : Heap R → Prop) (m : Py R A) : Prop :=
  ∀ h, P h → P (m h).2.

(** The value [val_size] counts as: [None] is replaced by [0]. *)
Definition effective_val_size (v : pyval) : pyval :=
  if is_None v then VInt 0 else v.

(** [math.floor(v)] for a number. *)
Definition py_floor (v : pyval) : result Z :=
  match v with
  | VInt _ | VBool _ => Ok (default 0 (as_int v))
  | VFloat f => PyFloat.floor f
  | _ => Raise (Exn TypeError "must be real number")
  end.

(** [v >= 0] for a number. *)
Definition py_nonneg (v : pyval) : bool :=
  match v with
  | VInt _ | VBool _ => 0 <=? default 0 (as_int v)
  | VFloat f => PyFloat.nonneg f
  | _ => false
  end.

(** The attributes after the split counts of [n] samples are stored. *)
Definition with_counts (n vn : Z) (vs : pyval) (d : gmap string pyval)
  : gmap string pyval :=
  <["num_train" := VInt (n - vn)]>
    (<["val_num" := VInt vn]> (<["val_size" := effective_val_size vs]> d)).

(** The attributes after the shape of the input is inferred. *)
Definition with_input_shape (a : ndarray) (d : gmap string pyval)
  : gmap string pyval :=
  match shape a with
  | [_; d1] => <["input_shape" := VTuple [VInt (Z.of_nat d1); VInt 1]]> d
  | [_; d1; d2] =>
      <["input_shape" := VTuple [VInt (Z.of_nat d1); VInt (Z.of_nat d2); VInt 1]]> d
  | [_; d1; d2; d3] =>
      <["input_shape" :=
          VTuple [VInt (Z.of_nat d1); VInt (Z.of_nat d2); VInt (Z.of_nat d3)]]> d
  | _ => d
  end.

(** The attributes after the shape of the labels is inferred. *)
Definition with_labels_shape (a : ndarray) (d : gmap string pyval)
  : gmap string pyval :=
  match shape a with
  | [_] => <["labels_shape" := VInt 1]> d
  | [_; d1] => <["labels_shape" := VInt (Z.of_nat d1)]> d
  | [_; d1; d2] =>
      <["labels_shape" := VTuple [VInt (Z.of_nat d1); VInt (Z.of_nat d2)]]> d
  | [_; d1; d2; d3] =>
      <["labels_shape" :=
          VTuple [VInt (Z.of_nat d1); VInt (Z.of_nat d2); VInt (Z.of_nat d3)]]> d
  | _ => d
  end.

(** The calls that set up the devices return. *)
Definition device_calls_return : Prop :=
  (∀ w, is_Ok (cpu_fallback w).1 = true)
  ∧ (∀ ratio log_device_placement w,
       is_Ok (gpu_memory_manage ratio log_device_placement w).1 = true).

(** The attributes [cpu_gpu_check] reads exist. *)
Definition device_attributes (h : Heap R) : Prop :=
  is_Some (self h !! "fallback_cpu")
  ∧ is_Some (self h !! "limit_gpu_mem")
  ∧ is_Some (self h !! "log_device_placement").

(** The class of the exception a computation ended with. *)
Definition raised_class {A} (r : result A) : option exn_class :=
  match r with
  | Ok _ => None
  | Raise e => Some (exn_cls e)
  end.

(** A multi-index within a shape. *)
Definition in_range (idx sh : list nat) : Prop := Forall2 lt idx sh.

(** An array whose data fills its shape. *)
Definition well_formed (a : ndarray) : Prop :=
  length (data a) = Np.size_of (shape a).

(** The runtime yields gradients for the object with the attributes [d]:
    the gradient tensor of every output unit [j] can be built, and running
    it on the example [i] of [x_data] returns the one array [G j i]. *)
Definition gradients_available (d : gmap string pyval) (input_tens : pyval)
  (x_data : ndarray) (G : nat → nat → ndarray) : Prop :=
  ∀ j (h : Heap R), self h = d →
    ∃ g h', NeuralNetMaster.gradient_tensor j input_tens h = (Ok g, h')
            ∧ self h' = d
            ∧ ∀ i x_in w, Np.slice0 x_data i = Ok x_in →
                ∃ w', session_run g input_tens x_in w = (Ok [G j i], w').

(** A property of the attributes, of the file system. *)
Definition on_self (Q : gmap string pyval → Prop) : Heap R → Prop :=
  λ h, Q (self h).
Definition on_fs (Q : FS → Prop) : Heap R → Prop :=
  λ h, Q (fs (world h)).

(** An external call keeps a property of the file system. *)
Definition ext_keeps {A} (Q : FS → Prop) (f : ext R A) : Prop :=
  ∀ w, Q (fs w) → Q (fs (f w).2).

(** The calls [save] makes after the summary is written keep [Q]: the
    rendering of the diagram, the hook of the subclass, the logger. *)
Definition save_externals_keep (Q : FS → Prop) : Prop :=
  (∀ model show_shapes to_file, ext_keeps Q (keras_plot_model model show_shapes to_file))
  ∧ (∀ attributes, ext_keeps Q (post_training_checklist_child attributes))
  ∧ (∀ logger folder_name, ext_keeps Q (savefile logger folder_name)).

(** Something exists at the path [p]. *)
Definition path_exists (p : string) (fs : FS) : Prop :=
  os_path_exists fs p = true.

(** The name of the summary file. *)
Definition summary_file : string := "hyperparameter.txt".

(** The summary [save] is to write: for each line its label and the
    attribute it shows. *)
Definition summary_labels : list (string * string) :=
  [ ("model: ", "name");
    ("model type: ", "_model_type");
    ("astroNN identifier: ", "_model_identifier");
    ("python version: ", "_NeuralNetMaster__python_info");
    ("astroNN version: ", "_NeuralNetMaster__astronn_ver");
    ("keras version: ", "_NeuralNetMaster__keras_ver");
    ("tensorflow version: ", "_NeuralNetMaster__tf_ver");
    ("folder name: ", "folder_name");
    ("fallback cpu? : ", "fallback_cpu");
    ("astroNN GPU management: ", "limit_gpu_mem");
    ("batch_size: ", "batch_size");
    ("optimizer: ", "optimizer");
    ("max_epochs: ", "max_epochs");
    ("learning rate: ", "lr");
    ("Validation Size: ", "val_size");
    ("training input shape: ", "input_shape");
    ("label shape: ", "labels_shape");
    ("number of training data: ", "num_train");
    ("number of validation data: ", "val_num") ].

(** The text of the lines [labels] for the attributes [d]: a label, the
    value as [str] prints it, a space and a newline. *)
Definition lines_text (labels : list (string * string)) (d : gmap string pyval)
  : string :=
  foldr (λ lab acc,
           lab.1 +:+ py_str (default VNone (d !! lab.2)) +:+ " " +:+ nl +:+ acc)
        "" labels.

Definition summary_text (d : gmap string pyval) : string :=
  lines_text summary_labels d.

(** The folder at [p] is a directory, or can be created: nothing is at
    [p] and no regular file is on the way to it. *)
Definition folder_ready (fs : FS) (p : string) : Prop :=
  is_dir fs (PosixPath.resolve (cwd fs) p) = true
  ∨ (os_path_exists fs p = false
     ∧ existsb (is_file fs) (ancestors (PosixPath.resolve (cwd fs) p)) = false).

(** The array at [x] is [o]. *)
Definition array_is (x : positive) (o : option ndarray) (h : Heap R) : Prop :=
  arrays h !! x = o.

(** The attributes [pre_training_checklist_master] assigns. *)
Definition checklist_fields : list string :=
  ["val_size"; "val_num"; "num_train"; "input_shape"; "labels_shape"].

(** The line the checklist prints for the counts. *)
Definition counts_line (num_train val_num : Z) : string :=
  "Number of Training Data: " +:+ pretty num_train
  +:+ ", Number of Validation Data: " +:+ pretty val_num.

(** A plain name of a file or folder: not empty, without separator,
    neither [.] nor [..]. *)
Definition plain_name (c : string) : Prop :=
  c ≠ "" ∧ c ≠ "." ∧ c ≠ ".." ∧ PosixPath.split c = [c].

(** The path of a directory below the root, as [os.getcwd] prints it. *)
Definition dirs (l : list string) : string :=
  foldr (λ c s, "/" +:+ c +:+ s) "" l.

(** The location [q] holds a directory, or is free with no regular file on
    the way to it. *)
Definition location_ready (f : FS) (q : list string) : Prop :=
  is_dir f q = true
  ∨ (is_dir f q = false ∧ is_file f q = false
     ∧ existsb (is_file f) (ancestors q) = false).

(** The state after [print(s)]. *)
Definition printed (s : string) (h : Heap R) : Heap R :=
  mkHeap (self h) (arrays h)
    (mkWorld (stdout (world h) ++ [s]) (fs (world h)) (rt (world h))).

(** The error of [operator.index] on a value that is no integer. *)
Definition not_an_integer (v : pyval) : exn :=
  Exn TypeError ("'" +:+ type_name v +:+ "' object cannot be interpreted as an integer").

End Vocabulary.

(** * Properties *)

Import NeuralNetMaster.

(** ** Running computations *)

Section Running.
Context {R : Type} `{!Runtime R}.

Lemma append_cons (c : ascii) (s t : string) :
  String c s +:+ t = String c (s +:+ t).
Proof. reflexivity. Qed.

Lemma append_empty_r (s : string) : s +:+ "" = s.
Proof. induction s as [|c s IH]; [done|]. by rewrite append_cons, IH. Qed.

Lemma append_assoc (s t u : string) : (s +:+ t) +:+ u = s +:+ t +:+ u.
Proof. induction s as [|c s IH]; [done|]. by rewrite !append_cons, IH. Qed.

Lemma run_bind {A B} (m : Py R A) (f : A → Py R B) (h : Heap R) :
  (m ≫= f) h =
  match m h with
  | (Ok a, h') => f a h'
  | (Raise e, h') => (Raise e, h')
  end.
Proof. reflexivity. Qed.

Lemma run_bind_ok {A B} (m : Py R A) (f : A → Py R B) h a h' :
  m h = (Ok a, h') → (m ≫= f) h = f a h'.
Proof. intros E. rewrite run_bind, E. reflexivity. Qed.

Lemma run_bind_raise {A B} (m : Py R A) (f : A → Py R B) h e h' :
  m h = (Raise e, h') → (m ≫= f) h = (Raise e, h').
Proof. intros E. rewrite run_bind, E. reflexivity. Qed.

Lemma run_self_get a v (h : Heap R) :
  self h !! a = Some v → self_get a h = (Ok v, h).
Proof. intros E. unfold self_get. rewrite E. reflexivity. Qed.

Lemma stable_bind {A B} P (m : Py R A) (f : A → Py R B) :
  stable P m → (∀ a, stable P (f a)) → stable P (m ≫= f).
Proof.
  intros Hm Hf h HP. rewrite run_bind.
  specialize (Hm h HP). destruct (m h) as [[a|e] h']; simpl in *.
  - by apply Hf.
  - done.
Qed.

Lemma stable_ret {A} P (a : A) : stable P (mret a : Py R A).
Proof. by intros h HP. Qed.

Lemma stable_raise {A} P e : stable P (raise e : Py R A).
Proof. by intros h HP. Qed.

Lemma stable_lift {A} P (r : result A) : stable P (lift r : Py R A).
Proof. by intros h HP. Qed.

Lemma stable_self_get P a : stable P (self_get a : Py R pyval).
Proof. intros h HP. unfold self_get. by destruct (self h !! a). Qed.

Lemma stable_load P l : stable P (load l : Py R ndarray).
Proof. by intros h HP. Qed.

Lemma stable_get_self P : stable P (get_self : Py R _).
Proof. by intros h HP. Qed.

Lemma stable_try_except {A} P (body handler : Py R A) catches :
  stable P body → stable P handler → stable P (try_except body catches handler).
Proof.
  intros Hb Hh h HP. unfold try_except. specialize (Hb h HP).
  destruct (body h) as [[a|e] h']; simpl in *; [done|].
  destruct (catches e); [by apply Hh | done].
Qed.

Lemma stable_for_fold {A B} P (l : list A) (acc : B) (body : A → B → Py R B) :
  (∀ a b, stable P (body a b)) → stable P (for_fold l acc body).
Proof.
  intros Hb. revert acc. induction l as [|a l IH]; intros acc; simpl.
  - apply stable_ret.
  - apply stable_bind; [apply Hb | intros b; apply IH].
Qed.

End Running.

(** ** The argument of [jacobian] is not written to *)

Section InputArray.
Context {R : Type} `{!Runtime R}.
Variable x : positive.
Variable o : option ndarray.

Lemma array_is_self_set a v : stable (array_is x o) (self_set a v : Py R unit).
Proof. by intros h HP. Qed.

Lemma array_is_print s : stable (array_is x o) (print s : Py R unit).
Proof. by intros h HP. Qed.

Lemma array_is_call {A} (f : ext R A) : stable (array_is x o) (call f).
Proof. intros h HP. unfold call. by destruct (f (world h)). Qed.

Lemma array_is_method {A} v name (f : positive → ext R A) :
  stable (array_is x o) (method v name f).
Proof.
  destruct v; simpl; try apply stable_raise. apply array_is_call.
Qed.

Lemma array_is_store l a : l ≠ x → stable (array_is x o) (store l a : Py R unit).
Proof.
  intros Hne h HP. unfold array_is in *. simpl. by rewrite lookup_insert_ne.
Qed.

Lemma array_is_alloc a (h : Heap R) :
  is_Some (arrays h !! x) →
  ∃ l h', alloc a h = (Ok l, h') ∧ l ≠ x ∧ arrays h' !! x = arrays h !! x.
Proof.
  intros Hx. eexists _, _. split; [reflexivity|].
  assert (fresh (dom (arrays h)) ≠ x) as Hne.
  { intros E. apply (is_fresh (dom (arrays h))). rewrite E. by apply elem_of_dom. }
  split; [done|]. simpl. by rewrite lookup_insert_ne.
Qed.

End InputArray.

Create HintDb stable.

#[local] Hint Resolve stable_ret stable_raise stable_lift stable_self_get
  stable_load stable_get_self array_is_self_set array_is_print array_is_call
  array_is_method array_is_store : stable.

(** One step of a proof that a computation keeps a property. *)
Ltac stable_step :=
  match goal with
  | |- stable _ (let _ := _ in _) => cbv zeta
  | |- stable _ (mbind _ _) => apply stable_bind; [| intros ?]
  | |- stable _ (try_except _ _ _) => apply stable_try_except
  | |- stable _ (for_fold _ _ _) => apply stable_for_fold; intros ? ?
  | |- stable _ (if ?b then _ else _) => destruct b
  | |- stable _ (match ?p with (_, _) => _ end) => destruct p
  | |- stable _ _ => solve [eauto with stable]
  end.

Section InputArrayJacobian.
Context {R : Type} `{!Runtime R}.

Lemma array_is_input_layer x o model :
  stable (array_is x o) (input_layer model : Py R _).
Proof. unfold input_layer. repeat stable_step. Qed.

Lemma array_is_report_progress x o j t :
  stable (array_is x o) (report_progress j t : Py R _).
Proof. unfold report_progress. repeat stable_step. Qed.

Lemma array_is_gradient_tensor x o j t :
  stable (array_is x o) (gradient_tensor j t : Py R _).
Proof. unfold gradient_tensor. repeat stable_step. Qed.

Lemma array_is_run_gradient x o g t a i :
  stable (array_is x o) (run_gradient g t a i : Py R _).
Proof. unfold run_gradient. repeat stable_step. Qed.

Lemma array_is_gradients_round3 x o t a j jac :
  stable (array_is x o) (gradients_round3 t a j jac : Py R _).
Proof.
  pose proof array_is_gradient_tensor. pose proof array_is_run_gradient.
  unfold gradients_round3. repeat stable_step.
Qed.

Lemma array_is_gradients_round4 x o y t a j jac :
  stable (array_is x o) (gradients_round4 y t a j jac : Py R _).
Proof.
  pose proof array_is_gradient_tensor. pose proof array_is_run_gradient.
  unfold gradients_round4. repeat stable_step.
Qed.

Lemma array_is_jacobian_compute x o y mean_output x_data t e s :
  stable (array_is x o) (jacobian_compute y mean_output x_data t e s : Py R _).
Proof.
  pose proof array_is_report_progress. pose proof array_is_gradients_round3.
  pose proof array_is_gradients_round4.
  unfold jacobian_compute. repeat stable_step.
Qed.

Lemma array_is_after_alloc x o (l : positive) :
  l ≠ x →
  stable (array_is x o)
    (a ← load l;
     input_mean_norm ← self_get "input_mean_norm";
     a ← lift (np_isub a input_mean_norm);
     store l a;;
     a ← load l;
     input_std_norm ← self_get "input_std_norm";
     a ← lift (np_itruediv a input_std_norm);
     store l a;;
     a ← load l;
     let x_data := Np.atleast_3d a in
     '(input_tens, input_shape_expectation) ←
       try_except (input_layer "keras_model_predict") is_AttributeError
                  (input_layer "keras_model");
     start_time ← call time_time;
     mret (x_data, input_tens, input_shape_expectation, start_time) : Py R _).
Proof.
  intros Hne. pose proof array_is_input_layer.
  repeat stable_step.
Qed.

(** C9: [jacobian] normalises a copy.  Whatever the state, the flag
    [mean_output] and the outcome of the call (a result or an exception),
    the array passed as [x] holds after the call what it held before. *)
Theorem jacobian_leaves_input (x : positive) (mean_output : pyval) (h : Heap R) :
  is_Some (arrays h !! x) →
  arrays (jacobian (Some x) mean_output h).2 !! x = arrays h !! x.
Proof.
  intros Hx. unfold jacobian. rewrite run_bind.
  assert (array_is x (arrays h !! x) (jacobian_prepare x h).2) as Hprep.
  { unfold jacobian_prepare.
    rewrite (run_bind_ok (load x) _ h _ h eq_refl).
    destruct (array_is_alloc x (default (NDArray [0%nat] []) (arrays h !! x)) h Hx)
      as (l & h' & E & Hne & Hx').
    rewrite (run_bind_ok _ _ _ _ _ E).
    apply (array_is_after_alloc x _ l Hne h'). exact Hx'. }
  destruct (jacobian_prepare x h) as [[[[[x_data t] e] s]|err] h1]; simpl in *.
  - by apply array_is_jacobian_compute.
  - exact Hprep.
Qed.

End InputArrayJacobian.

(** ** [jacobian]: the data, the progress report, the expected shape *)

Section Jacobian.
Context {R : Type} `{!Runtime R}.

(** C2: without data, [jacobian] raises [ValueError], whatever the state
    of the object and whatever [mean_output]; nothing is changed. *)
Theorem jacobian_requires_data (mean_output : pyval) (h : Heap R) :
  jacobian None mean_output h = (Raise missing_data, h)
  ∧ exn_cls missing_data = ValueError.
Proof. split; reflexivity. Qed.

(** The template of the progress report asks for the attribute [04] of
    its third argument: with a [float] there, formatting raises. *)
Lemma progress_format_raises (a b : pyval) (f : spec_float) :
  Format.format "Completed {} of {} output, {.04} seconds elapsed" [a; b; VFloat f]
  = Raise (no_attribute (VFloat f) "04").
Proof. reflexivity. Qed.

Lemma report_progress_raises (j : nat) (start_time : spec_float) (h : Heap R) :
  is_Some (self h !! "labels_shape") →
  is_Ok (time_time (world h)).1 = true →
  ∃ e h', report_progress j start_time h = (Raise e, h')
          ∧ exn_cls e = AttributeError ∧ self h' = self h.
Proof.
  intros [v Hv] Ht. unfold report_progress.
  rewrite (run_bind_ok _ _ _ _ _ (run_self_get _ _ _ Hv)).
  rewrite run_bind. unfold call.
  destruct (time_time (world h)) as [[t|e] w']; [|discriminate].
  rewrite run_bind. unfold lift. rewrite progress_format_raises.
  eexists _, _. split; [reflexivity|]. split; reflexivity.
Qed.

Lemma report_then_raises {B} (j : nat) (start_time : spec_float) (k : Py R B)
  (h : Heap R) :
  is_Some (self h !! "labels_shape") →
  is_Ok (time_time (world h)).1 = true →
  ∃ e h', (report_progress j start_time;; k) h = (Raise e, h')
          ∧ exn_cls e = AttributeError.
Proof.
  intros Hv Ht.
  destruct (report_progress_raises j start_time h Hv Ht) as (e & h' & E & He & _).
  exists e, h'. by rewrite (run_bind_raise _ _ _ _ _ E).
Qed.

Lemma for_fold_cons {A B} (a : A) (l : list A) (acc : B) (body : A → B → Py R B) :
  for_fold (a :: l) acc body = (acc' ← body a acc; for_fold l acc' body).
Proof. reflexivity. Qed.

Lemma for_fold_first_raises {A B} (a : A) (l : list A) (acc : B)
  (body : A → B → Py R B) (h : Heap R) e h' :
  body a acc h = (Raise e, h') → for_fold (a :: l) acc body h = (Raise e, h').
Proof. intros E. simpl. by rewrite (run_bind_raise _ _ _ _ _ E). Qed.

Lemma atleast_3d_shape (a : ndarray) :
  ∃ d0 d1 d2 rest, shape (Np.atleast_3d a) = d0 :: d1 :: d2 :: rest.
Proof.
  unfold Np.atleast_3d. destruct (shape a) as [|n [|m [|k rest]]] eqn:E; simpl; eauto.
Qed.

Lemma run_lift {A} (r : result A) (h : Heap R) : lift r h = (r, h).
Proof. reflexivity. Qed.

(** C1, what the code does: with an input layer that expects a shape of
    length 3 and at least one output unit, [jacobian] does not return the
    array of gradients.  The first round of the loop over the output
    units starts with the progress report, whose template has the field
    [{.04}]; formatting it raises [AttributeError], and so does the call. *)
Theorem jacobian_progress_report_raises (x : positive) (mean_output : pyval)
  (h h1 : Heap R) (x_data : ndarray) (input_tens expectation : pyval)
  (start_time : spec_float) (units : Z) :
  jacobian_prepare x h = (Ok (x_data, input_tens, expectation, start_time), h1) →
  py_len expectation = Ok 3%nat →
  self h1 !! "labels_shape" = Some (VInt units) →
  0 < units →
  (∀ w, is_Ok (time_time w).1 = true) →
  ∃ e h', jacobian (Some x) mean_output h = (Raise e, h')
          ∧ exn_cls e = AttributeError.
Proof.
  intros Hprep Hlen Hls Hpos Htime.
  unfold jacobian. rewrite (run_bind_ok _ _ _ _ _ Hprep). cbv beta iota.
  unfold jacobian_compute.
  rewrite run_bind, run_lift, Hlen. cbv iota zeta.
  rewrite bool_decide_eq_true_2 by reflexivity.
  rewrite (run_bind_ok _ _ _ _ _ (run_self_get _ _ _ Hls)).
  destruct (atleast_3d_shape x_data) as (d0 & d1 & d2 & rest & Hsh).
  rewrite run_bind, run_lift. unfold Np.shape_at at 1. rewrite Hsh. simpl lookup.
  cbv iota.
  rewrite run_bind, run_lift. unfold Np.shape_at at 1. rewrite Hsh. simpl lookup.
  cbv iota.
  rewrite run_bind, run_lift. unfold dimension. simpl py_index. simpl mbind at 1.
  destruct (Z.ltb_spec units 0) as [|_]; [lia|]. cbv iota.
  rewrite (run_bind_ok _ _ _ _ _ (run_self_get _ _ _ Hls)).
  rewrite run_bind, run_lift. unfold py_range. simpl py_index. simpl mbind at 1.
  cbv iota.
  destruct (Z.to_nat units) as [|n] eqn:Hn; [lia|]. simpl seq.
  rewrite run_bind.
  destruct (report_then_raises 0 start_time
              (gradients_round3 input_tens (Np.atleast_3d x_data) 0
                 (Np.ones [S n; d1; d0]))
              h1 (ex_intro _ _ Hls) (Htime _)) as (e & h' & E & He).
  erewrite for_fold_first_raises; [|exact E].
  eauto.
Qed.

(** *** The test of the expected shape *)

Lemma shape_at_quiet a k : Np.shape_at a k ≠ Raise shape_mismatch.
Proof. unfold Np.shape_at. by destruct (shape a !! k). Qed.

Lemma newaxis3_quiet a : Np.newaxis3 a ≠ Raise shape_mismatch.
Proof. unfold Np.newaxis3. by destruct (shape a) as [|? [|? [|? ?]]]. Qed.

Lemma mean_quiet f a ax : Np.mean f a ax ≠ Raise shape_mismatch.
Proof. unfold Np.mean. by destruct (_ || _). Qed.

Lemma dimension_quiet v :
  (∀ o, v ≠ VObj o) → dimension v ≠ Raise shape_mismatch.
Proof.
  intros Hv. unfold dimension.
  destruct v; simpl; try done; try (by destruct (_ <? _)).
  by destruct (Hv o).
Qed.

Lemma py_range_quiet v :
  (∀ o, v ≠ VObj o) → py_range v ≠ Raise shape_mismatch.
Proof. intros Hv. destruct v; simpl; try done. by destruct (Hv o). Qed.

Lemma py_range_dimension v l js :
  dimension v = Ok l → py_range v = Ok js → js = seq 0 l.
Proof.
  unfold dimension, py_range. destruct (py_index v) as [z|]; simpl; [|done].
  destruct (z <? 0); [done|]. congruence.
Qed.

(** The loop over the output units either does not start, or stops in
    its first round with the [AttributeError] of the progress report. *)
Lemma units_loop_outcome (js : list nat) (acc : ndarray) (start_time : spec_float)
  (rest : nat → ndarray → Py R ndarray) (h : Heap R) :
  is_Some (self h !! "labels_shape") →
  is_Ok (time_time (world h)).1 = true →
  let r := for_fold js acc (λ j jacobian, report_progress j start_time;; rest j jacobian) h in
  (js = [] ∧ r = (Ok acc, h)) ∨ (∃ e h', r = (Raise e, h') ∧ exn_cls e = AttributeError).
Proof.
  intros Hv Ht. destruct js as [|j js]; [left; done|]. right.
  destruct (report_then_raises j start_time (rest j acc) h Hv Ht) as (e & h' & E & He).
  exists e, h'. split; [|done]. by apply for_fold_first_raises.
Qed.

End Jacobian.

(** One statement of [jacobian_compute] run: a case for its result, a case
    for its exception. *)
Ltac run_step :=
  rewrite run_bind;
  lazymatch goal with
  | |- context [lift ?r ?h] =>
      rewrite (run_lift r h); let E := fresh "E" in destruct r as [?|?] eqn:E
  | |- context [self_get ?a ?h] =>
      unfold self_get at 1; let E := fresh "E" in destruct (self h !! a) eqn:E
  end; cbv beta iota.

(** The exception of a pure step is not the one of the shape test. *)
Ltac other_error :=
  simpl; intros [= ->];
  lazymatch goal with
  | E : _ = Raise shape_mismatch |- _ =>
      first [ by apply shape_at_quiet in E
            | by apply newaxis3_quiet in E
            | by apply dimension_quiet in E
            | by apply py_range_quiet in E ]
  end.

Section JacobianShape.
Context {R : Type} `{!Runtime R}.

(** C3, amended: once the data is normalised and the input layer found,
    [jacobian] raises the [ValueError] of the shape test exactly when the
    shape the input layer of the model expects has a length other than 3
    and 4.  The rank of the data [x] plays no part. *)
Theorem jacobian_shape_error_iff (x : positive) (mean_output : pyval)
  (h h1 : Heap R) (x_data : ndarray) (input_tens expectation : pyval)
  (start_time : spec_float) (n : nat) :
  jacobian_prepare x h = (Ok (x_data, input_tens, expectation, start_time), h1) →
  py_len expectation = Ok n →
  (∀ o, self h1 !! "labels_shape" ≠ Some (VObj o)) →
  (∀ w, is_Ok (time_time w).1 = true) →
  (jacobian (Some x) mean_output h).1 = Raise shape_mismatch
  ↔ n ≠ 3%nat ∧ n ≠ 4%nat.
Proof.
  intros Hprep Hlen Hobj Htime.
  unfold jacobian. rewrite (run_bind_ok _ _ _ _ _ Hprep). cbv beta iota.
  unfold jacobian_compute. rewrite run_bind, run_lift, Hlen. cbv iota zeta.
  split.
  - (* the error is raised: the length is neither 3 nor 4 *)
    intros Hr. split; intros ->.
    + rewrite bool_decide_eq_true_2 in Hr by reflexivity. revert Hr.
      run_step; [|done].
      assert (∀ o, p ≠ VObj o) as Hp by (intros o ->; by apply (Hobj o)).
      run_step; [|other_error].
      run_step; [|other_error].
      run_step; [|other_error].
      run_step; [|done]. simplify_eq.
      run_step; [|other_error].
      rewrite run_bind.
      match goal with
      | |- context [for_fold ?js ?acc (λ j jac, report_progress j ?t;; @?rest j jac) ?h] =>
          destruct (units_loop_outcome js acc t rest h) as [[_ ->]|(e & h' & -> & He)];
            [eauto | apply Htime | |]
      end.
      * destruct (is_True mean_output); [|done].
        rewrite run_lift. simpl. by intros ?%mean_quiet.
      * intros [= ->]. discriminate.
    + rewrite bool_decide_eq_false_2 in Hr by lia.
      rewrite bool_decide_eq_true_2 in Hr by reflexivity. revert Hr.
      run_step; [|other_error].
      run_step; [|done].
      assert (∀ o, p ≠ VObj o) as Hp by (intros o ->; by apply (Hobj o)).
      run_step; [|other_error].
      run_step; [|other_error].
      run_step; [|other_error].
      run_step; [|other_error].
      run_step; [|other_error].
      run_step; [|done]. simplify_eq.
      run_step; [|other_error].
      rewrite run_bind.
      match goal with
      | |- context [for_fold ?js ?acc (λ j jac, report_progress j ?t;; @?rest j jac) ?h] =>
          destruct (units_loop_outcome js acc t rest h) as [[_ ->]|(e & h' & -> & He)];
            [eauto | apply Htime | |]
      end.
      * destruct (is_True mean_output); [|done].
        rewrite run_lift. simpl. by intros ?%mean_quiet.
      * intros [= ->]. discriminate.
  - (* the length is neither 3 nor 4: the error is raised *)
    intros [H3 H4].
    rewrite bool_decide_eq_false_2 by done.
    rewrite bool_decide_eq_false_2 by done. reflexivity.
Qed.

End JacobianShape.

(** ** [pre_training_checklist_master] *)

Section Checklist.
Context {R : Type} `{!Runtime R}.

Lemma run_self_set a v (h : Heap R) :
  self_set a v h = (Ok tt, mkHeap (<[a := v]> (self h)) (arrays h) (world h)).
Proof. reflexivity. Qed.

Lemma dim_cons (a : ndarray) (n : nat) (rest : list nat) :
  shape a = n :: rest → dim a 0 = Ok (Z.of_nat n).
Proof. intros E. unfold dim, Np.shape_at. by rewrite E. Qed.

Lemma split_counts_run (input_data : ndarray) (h : Heap R) n rest vs p vn :
  shape input_data = n :: rest →
  self h !! "val_size" = Some vs →
  py_mul_int (Z.of_nat n) (effective_val_size vs) = Ok p →
  py_int p = Ok vn →
  ∃ h', split_counts input_data h = (Ok tt, h')
        ∧ self h' = <["num_train" := VInt (Z.of_nat n - vn)]>
                      (<["val_num" := VInt vn]>
                         (<["val_size" := effective_val_size vs]> (self h)))
        ∧ arrays h' = arrays h ∧ world h' = world h.
Proof.
  intros Hsh Hvs Hmul Hint. unfold split_counts.
  rewrite (run_bind_ok _ _ _ _ _ (run_self_get _ _ _ Hvs)).
  set (h0 := mkHeap (<["val_size" := effective_val_size vs]> (self h))
               (arrays h) (world h)).
  assert ((if is_None vs then self_set "val_size" (VInt 0) else mret tt) h
          = (Ok tt, h0) ∨
          ((if is_None vs then self_set "val_size" (VInt 0) else mret tt) h
           = (Ok tt, h) ∧ self h = self h0)) as Hstep.
  { unfold h0, effective_val_size. destruct (is_None vs) eqn:Hn.
    - left. reflexivity.
    - right. split; [reflexivity|]. simpl. by rewrite insert_id. }
  assert (∀ h1 : Heap R,
    self h1 = self h0 → arrays h1 = arrays h → world h1 = world h →
    ∃ h', (n0 ← lift (dim input_data 0);
           val_size ← self_get "val_size";
           product ← lift (py_mul_int n0 val_size);
           val_num ← lift (py_int product);
           self_set "val_num" (VInt val_num);;
           n1 ← lift (dim input_data 0);
           val_num ← self_get "val_num";
           num_train ← lift (py_sub_int n1 val_num);
           self_set "num_train" num_train) h1 = (Ok tt, h')
          ∧ self h' = <["num_train" := VInt (Z.of_nat n - vn)]>
                        (<["val_num" := VInt vn]> (self h0))
          ∧ arrays h' = arrays h ∧ world h' = world h) as Hrest.
  { intros h1 Hs Ha Hw.
    rewrite run_bind, run_lift, (dim_cons _ _ _ Hsh). cbv iota.
    erewrite run_bind_ok;
      [|apply run_self_get; rewrite Hs; apply lookup_insert_eq].
    rewrite run_bind, run_lift, Hmul. cbv iota.
    rewrite run_bind, run_lift, Hint. cbv iota.
    rewrite run_bind, run_self_set. cbv iota.
    rewrite run_bind, run_lift. cbv iota.
    erewrite run_bind_ok;
      [|apply run_self_get; simpl; apply lookup_insert_eq].
    rewrite run_bind, run_lift. simpl py_sub_int. cbv iota.
    rewrite run_self_set. eexists. split; [reflexivity|]. simpl.
    by rewrite Hs, Ha, Hw. }
  destruct Hstep as [E | [E Hs]]; rewrite (run_bind_ok _ _ _ _ _ E).
  - apply (Hrest h0); reflexivity.
  - apply (Hrest h); [exact Hs | reflexivity | reflexivity].
Qed.

Lemma report_counts_format (a b : pyval) :
  Format.format "Number of Training Data: {}, Number of Validation Data: {}" [a; b]
  = Ok ("Number of Training Data: " +:+ py_str a
        +:+ ", Number of Validation Data: " +:+ py_str b).
Proof. rewrite <- (append_empty_r (py_str b)). reflexivity. Qed.

Lemma report_counts_run (h : Heap R) a b :
  self h !! "num_train" = Some a →
  self h !! "val_num" = Some b →
  ∃ h', report_counts h = (Ok tt, h') ∧ self h' = self h ∧ arrays h' = arrays h.
Proof.
  intros Ha Hb. unfold report_counts.
  rewrite (run_bind_ok _ _ _ _ _ (run_self_get _ _ _ Ha)).
  rewrite (run_bind_ok _ _ _ _ _ (run_self_get _ _ _ Hb)).
  rewrite run_bind, run_lift, report_counts_format. cbv iota.
  eexists. split; [reflexivity|]. done.
Qed.

Lemma cpu_gpu_check_run (h : Heap R) :
  device_attributes h → device_calls_return →
  ∃ h', cpu_gpu_check h = (Ok tt, h') ∧ self h' = self h ∧ arrays h' = arrays h.
Proof.
  intros ([f Hf] & [l Hl] & [d Hd]) [Hcpu Hgpu]. unfold cpu_gpu_check.
  assert (∀ (c : ext R unit) (h0 : Heap R), is_Ok (c (world h0)).1 = true →
          ∃ h', call c h0 = (Ok tt, h') ∧ self h' = self h0 ∧ arrays h' = arrays h0)
    as Hcall.
  { intros c h0 Hok. unfold call.
    destruct (c (world h0)) as [[[]|e] w']; [|discriminate]. eauto. }
  rewrite (run_bind_ok _ _ _ _ _ (run_self_get _ _ _ Hf)).
  assert (∃ h1, (if is_True f then call cpu_fallback else mret tt) h = (Ok tt, h1)
                ∧ self h1 = self h ∧ arrays h1 = arrays h) as (h1 & E & Hs & Ha).
  { destruct (is_True f); [apply Hcall, Hcpu | eauto]. }
  rewrite (run_bind_ok _ _ _ _ _ E).
  rewrite <- Hs in Hl, Hd. rewrite <- Hs, <- Ha.
  rewrite (run_bind_ok _ _ _ _ _ (run_self_get _ _ _ Hl)).
  destruct (is_True l).
  - rewrite (run_bind_ok _ _ _ _ _ (run_self_get _ _ _ Hd)). apply Hcall, Hgpu.
  - rewrite (run_bind_ok _ _ _ _ _ (run_self_get _ _ _ Hl)).
    destruct (is_float l); [|eauto].
    rewrite (run_bind_ok _ _ _ _ _ (run_self_get _ _ _ Hl)).
    rewrite (run_bind_ok _ _ _ _ _ (run_self_get _ _ _ Hd)). apply Hcall, Hgpu.
Qed.

Lemma infer_input_shape_run (a : ndarray) (h : Heap R) :
  ∃ h', infer_input_shape a h = (Ok tt, h')
        ∧ self h' = with_input_shape a (self h)
        ∧ arrays h' = arrays h ∧ world h' = world h.
Proof.
  unfold infer_input_shape, with_input_shape, Np.ndim, dim, Np.shape_at.
  destruct (shape a) as [|n [|d1 [|d2 [|d3 [|d4 rest]]]]];
    (eexists; split; [reflexivity|done]).
Qed.

Lemma infer_labels_shape_run (a : ndarray) (h : Heap R) :
  ∃ h', infer_labels_shape a h = (Ok tt, h')
        ∧ self h' = with_labels_shape a (self h)
        ∧ arrays h' = arrays h ∧ world h' = world h.
Proof.
  unfold infer_labels_shape, with_labels_shape, Np.ndim, dim, Np.shape_at.
  destruct (shape a) as [|n [|d1 [|d2 [|d3 [|d4 rest]]]]];
    (eexists; split; [reflexivity|done]).
Qed.

Lemma with_input_shape_other a d k :
  k ≠ "input_shape" → with_input_shape a d !! k = d !! k.
Proof.
  intros Hk. unfold with_input_shape.
  destruct (shape a) as [|n [|d1 [|d2 [|d3 [|d4 rest]]]]];
    try done; by rewrite lookup_insert_ne.
Qed.

Lemma with_labels_shape_other a d k :
  k ≠ "labels_shape" → with_labels_shape a d !! k = d !! k.
Proof.
  intros Hk. unfold with_labels_shape.
  destruct (shape a) as [|n [|d1 [|d2 [|d3 [|d4 rest]]]]];
    try done; by rewrite lookup_insert_ne.
Qed.

(** The whole method, when the count of validation data is defined and
    the devices are set up: it returns, and the attributes are those of
    before with the counts and the inferred shapes stored. *)
Lemma checklist_run (input_data labels : ndarray) (h : Heap R) n rest vs p vn :
  shape input_data = n :: rest →
  self h !! "val_size" = Some vs →
  py_mul_int (Z.of_nat n) (effective_val_size vs) = Ok p →
  py_int p = Ok vn →
  device_attributes h →
  device_calls_return →
  ∃ h', pre_training_checklist_master input_data labels h = (Ok tt, h')
        ∧ self h' = with_labels_shape labels
                      (with_input_shape input_data
                         (with_counts (Z.of_nat n) vn vs (self h)))
        ∧ arrays h' = arrays h.
Proof.
  intros Hsh Hvs Hmul Hint Hattr Hdev. unfold pre_training_checklist_master.
  destruct (split_counts_run _ h _ _ _ _ _ Hsh Hvs Hmul Hint)
    as (h1 & E1 & Hs1 & Ha1 & Hw1).
  rewrite (run_bind_ok _ _ _ _ _ E1).
  destruct (infer_input_shape_run input_data h1) as (h2 & E2 & Hs2 & Ha2 & Hw2).
  rewrite (run_bind_ok _ _ _ _ _ E2).
  destruct (infer_labels_shape_run labels h2) as (h3 & E3 & Hs3 & Ha3 & Hw3).
  rewrite (run_bind_ok _ _ _ _ _ E3).
  assert (self h3 = with_labels_shape labels
                      (with_input_shape input_data
                         (with_counts (Z.of_nat n) vn vs (self h)))) as Hs.
  { by rewrite Hs3, Hs2, Hs1. }
  assert (∀ k, k ≠ "labels_shape" → k ≠ "input_shape" → k ≠ "num_train" →
               k ≠ "val_num" → k ≠ "val_size" → self h3 !! k = self h !! k) as Hother.
  { intros k ? ? ? ? ?. rewrite Hs, with_labels_shape_other, with_input_shape_other by done.
    unfold with_counts. by rewrite !lookup_insert_ne. }
  destruct (cpu_gpu_check_run h3) as (h4 & E4 & Hs4 & Ha4); [|done|].
  { destruct Hattr as (? & ? & ?). unfold device_attributes.
    rewrite !Hother by done. done. }
  rewrite (run_bind_ok _ _ _ _ _ E4).
  destruct (report_counts_run h4 (VInt (Z.of_nat n - vn)) (VInt vn))
    as (h5 & E5 & Hs5 & Ha5).
  { rewrite Hs4, Hs, with_labels_shape_other, with_input_shape_other by done.
    apply lookup_insert_eq. }
  { rewrite Hs4, Hs, with_labels_shape_other, with_input_shape_other by done.
    unfold with_counts. rewrite lookup_insert_ne by done. apply lookup_insert_eq. }
  exists h5. split; [done|]. split; congruence.
Qed.

Lemma nonneg_floor_int (v : pyval) (z : Z) :
  py_nonneg v = true → py_int v = Ok z → py_floor v = Ok z.
Proof.
  destruct v as [| | |f| | | |]; try done.
  destruct f as [|[]| |[] m e]; done.
Qed.

(** C4, amended: on input data with [n] samples, whatever [val_size] is:
    the stored counts add up to [n]; [val_num] is [int(n * val_size)],
    the product truncated toward zero, with [val_size] taken as [0] when
    it is [None]; it is the floor of the product when the product is not
    negative. *)
Theorem checklist_split_counts (input_data labels : ndarray) (h : Heap R)
  n rest vs p vn :
  shape input_data = n :: rest →
  self h !! "val_size" = Some vs →
  py_mul_int (Z.of_nat n) (effective_val_size vs) = Ok p →
  py_int p = Ok vn →
  device_attributes h →
  device_calls_return →
  ∃ h' val_num num_train,
    pre_training_checklist_master input_data labels h = (Ok tt, h')
    ∧ self h' !! "val_num" = Some (VInt val_num)
    ∧ self h' !! "num_train" = Some (VInt num_train)
    ∧ val_num + num_train = Z.of_nat n
    ∧ py_int p = Ok val_num
    ∧ (py_nonneg p = true → py_floor p = Ok val_num)
    ∧ (vs = VNone → val_num = 0 ∧ num_train = Z.of_nat n).
Proof.
  intros Hsh Hvs Hmul Hint Hattr Hdev.
  destruct (checklist_run input_data labels h _ _ _ _ _ Hsh Hvs Hmul Hint Hattr Hdev)
    as (h' & E & Hs & _).
  exists h', vn, (Z.of_nat n - vn). split; [done|].
  rewrite Hs, !with_labels_shape_other, !with_input_shape_other by done.
  unfold with_counts.
  split; [rewrite lookup_insert_ne by done; apply lookup_insert_eq|].
  split; [apply lookup_insert_eq|].
  split; [lia|]. split; [done|].
  split; [intros Hnn; by apply nonneg_floor_int|].
  intros ->. simpl in Hmul. injection Hmul as <-. simpl in Hint.
  injection Hint as <-. lia.
Qed.

(** C5: the shape fields follow the rank of the arrays.  For input of
    rank 2, 3, 4 the field [input_shape] is [(d1, 1)], [(d1, d2, 1)],
    [(d1, d2, d3)]; for labels of rank 1, 2, 3, 4 the field
    [labels_shape] is [1], [d1], [(d1, d2)], [(d1, d2, d3)]; [d1], [d2],
    [d3] are the lengths of the axes after the first. *)
Theorem checklist_infers_shapes (input_data labels : ndarray) (h : Heap R)
  n rest vs p vn :
  shape input_data = n :: rest →
  self h !! "val_size" = Some vs →
  py_mul_int (Z.of_nat n) (effective_val_size vs) = Ok p →
  py_int p = Ok vn →
  device_attributes h →
  device_calls_return →
  ∃ h',
    pre_training_checklist_master input_data labels h = (Ok tt, h')
    ∧ (∀ d1, rest = [d1] →
         self h' !! "input_shape" = Some (VTuple [VInt (Z.of_nat d1); VInt 1]))
    ∧ (∀ d1 d2, rest = [d1; d2] →
         self h' !! "input_shape"
         = Some (VTuple [VInt (Z.of_nat d1); VInt (Z.of_nat d2); VInt 1]))
    ∧ (∀ d1 d2 d3, rest = [d1; d2; d3] →
         self h' !! "input_shape"
         = Some (VTuple [VInt (Z.of_nat d1); VInt (Z.of_nat d2); VInt (Z.of_nat d3)]))
    ∧ (∀ m, shape labels = [m] → self h' !! "labels_shape" = Some (VInt 1))
    ∧ (∀ m d1, shape labels = [m; d1] →
         self h' !! "labels_shape" = Some (VInt (Z.of_nat d1)))
    ∧ (∀ m d1 d2, shape labels = [m; d1; d2] →
         self h' !! "labels_shape"
         = Some (VTuple [VInt (Z.of_nat d1); VInt (Z.of_nat d2)]))
    ∧ (∀ m d1 d2 d3, shape labels = [m; d1; d2; d3] →
         self h' !! "labels_shape"
         = Some (VTuple [VInt (Z.of_nat d1); VInt (Z.of_nat d2); VInt (Z.of_nat d3)])).
Proof.
  intros Hsh Hvs Hmul Hint Hattr Hdev.
  destruct (checklist_run input_data labels h _ _ _ _ _ Hsh Hvs Hmul Hint Hattr Hdev)
    as (h' & E & Hs & _).
  exists h'. split; [done|]. rewrite Hs.
  repeat split.
  - intros d1 ->. rewrite with_labels_shape_other by done.
    unfold with_input_shape. rewrite Hsh. apply lookup_insert_eq.
  - intros d1 d2 ->. rewrite with_labels_shape_other by done.
    unfold with_input_shape. rewrite Hsh. apply lookup_insert_eq.
  - intros d1 d2 d3 ->. rewrite with_labels_shape_other by done.
    unfold with_input_shape. rewrite Hsh. apply lookup_insert_eq.
  - intros m E'. unfold with_labels_shape. rewrite E'. apply lookup_insert_eq.
  - intros m d1 E'. unfold with_labels_shape. rewrite E'. apply lookup_insert_eq.
  - intros m d1 d2 E'. unfold with_labels_shape. rewrite E'. apply lookup_insert_eq.
  - intros m d1 d2 d3 E'. unfold with_labels_shape. rewrite E'. apply lookup_insert_eq.
Qed.

(** C10, amended: input data of rank 1 or of rank above 4, and labels of
    rank 0 or of rank above 4, raise no error: the shape field of an array
    whose rank is not among the handled ones keeps its value, and the
    split counts are stored all the same. *)
Theorem checklist_unhandled_rank (input_data labels : ndarray) (h : Heap R)
  n rest vs p vn :
  shape input_data = n :: rest →
  self h !! "val_size" = Some vs →
  py_mul_int (Z.of_nat n) (effective_val_size vs) = Ok p →
  py_int p = Ok vn →
  device_attributes h →
  device_calls_return →
  ∃ h',
    pre_training_checklist_master input_data labels h = (Ok tt, h')
    ∧ (Np.ndim input_data ≠ 2%nat → Np.ndim input_data ≠ 3%nat →
       Np.ndim input_data ≠ 4%nat →
       self h' !! "input_shape" = self h !! "input_shape")
    ∧ (Np.ndim labels ≠ 1%nat → Np.ndim labels ≠ 2%nat →
       Np.ndim labels ≠ 3%nat → Np.ndim labels ≠ 4%nat →
       self h' !! "labels_shape" = self h !! "labels_shape")
    ∧ self h' !! "val_num" = Some (VInt vn)
    ∧ self h' !! "num_train" = Some (VInt (Z.of_nat n - vn)).
Proof.
  intros Hsh Hvs Hmul Hint Hattr Hdev.
  destruct (checklist_run input_data labels h _ _ _ _ _ Hsh Hvs Hmul Hint Hattr Hdev)
    as (h' & E & Hs & _).
  exists h'. split; [done|]. rewrite Hs. unfold with_counts.
  repeat split.
  - intros H2 H3 H4. rewrite with_labels_shape_other by done.
    unfold with_input_shape, Np.ndim in *.
    destruct (shape input_data) as [|? [|? [|? [|? [|? ?]]]]]; try done;
      by rewrite !lookup_insert_ne.
  - intros H1 H2 H3 H4.
    unfold with_labels_shape, Np.ndim in *.
    destruct (shape labels) as [|? [|? [|? [|? [|? ?]]]]]; try done;
      rewrite with_input_shape_other by done; by rewrite !lookup_insert_ne.
  - rewrite with_labels_shape_other, with_input_shape_other by done.
    rewrite lookup_insert_ne by done. apply lookup_insert_eq.
  - rewrite with_labels_shape_other, with_input_shape_other by done.
    apply lookup_insert_eq.
Qed.

End Checklist.

(** ** Paths *)

Section Paths.
Import PosixPath.

Lemma split_nonempty (s : string) : split s ≠ [].
Proof.
  destruct s as [|c s]; simpl; [done|].
  destruct (is_sep c); [done|]. by destruct (split s).
Qed.

Lemma split_append_sep (a b : string) :
  split (a +:+ "/" +:+ b) = (split a ++ split b)%list.
Proof.
  induction a as [|c a IH]; [done|].
  rewrite append_cons. simpl. rewrite IH.
  destruct (is_sep c); [done|].
  pose proof (split_nonempty a). by destruct (split a).
Qed.

Lemma startswith_sep_append (a b : string) :
  a ≠ "" → startswith_sep (a +:+ b) = startswith_sep a.
Proof. by destruct a. Qed.

Lemma append_nonempty (a b : string) : a ≠ "" → a +:+ b ≠ "".
Proof. by destruct a. Qed.

Lemma join_nonempty (a b : string) : b ≠ "" → join a b ≠ "".
Proof.
  intros Hb. unfold join. destruct (startswith_sep b); [done|].
  destruct (_ || _).
  - destruct a; [done|]. by rewrite append_cons.
  - destruct a; [|by rewrite append_cons]. by cbv.
Qed.

(** Joining a folder name with a final separator is joining the folder
    name and adding the separator: for a folder name that is not empty. *)
Lemma join_with_sep (a b : string) :
  b ≠ "" → join a (b +:+ "/") = join a b +:+ "/".
Proof.
  intros Hb. unfold join. rewrite startswith_sep_append by done.
  destruct (startswith_sep b); [done|].
  destruct (_ || _); by rewrite ?append_assoc.
Qed.

(** The empty folder name joins to the root. *)
Lemma join_empty_with_sep (a : string) : join a ("" +:+ "/") = "/".
Proof. reflexivity. Qed.

(** A name below a directory. *)
Lemma resolve_child (cwd : list string) (d name : string) :
  d ≠ "" → split name = [name] →
  name ≠ "" → name ≠ "." → name ≠ ".." →
  resolve cwd (d +:+ "/" +:+ name) = (resolve cwd d ++ [name])%list.
Proof.
  intros Hd Hsplit H1 H2 H3. unfold resolve.
  rewrite startswith_sep_append by done.
  rewrite split_append_sep, Hsplit, fold_left_app. simpl.
  unfold walk at 1.
  rewrite !bool_decide_eq_false_2 by done. reflexivity.
Qed.

End Paths.

(** ** The file system *)

Section FileSystem.

Lemma is_dir_insert_file fs q q' text :
  q ≠ q' → is_dir (mkFS (cwd fs) (<[q := File text]> (nodes fs))) q' = is_dir fs q'.
Proof. intros Hne. unfold is_dir. simpl nodes. by rewrite lookup_insert_ne. Qed.

Lemma is_file_insert_file fs q q' text :
  q ≠ q' → is_file (mkFS (cwd fs) (<[q := File text]> (nodes fs))) q' = is_file fs q'.
Proof. intros Hne. unfold is_file. simpl nodes. by rewrite lookup_insert_ne. Qed.

Lemma open_w_keeps_path p p' fs q fs' :
  path_exists p fs → open_w p' fs = Ok (q, fs') → path_exists p fs'.
Proof.
  unfold path_exists, os_path_exists, open_w.
  destruct (bool_decide (p' = "")); [done|].
  destruct (is_dir fs (PosixPath.resolve (cwd fs) p')) eqn:Hd; [done|].
  destruct (is_file fs (removelast _)); [done|].
  destruct (negb (is_dir fs (removelast _))); [done|].
  intros Hp [= <- <-]. simpl cwd.
  destruct (bool_decide (p = "")); [done|]. simpl in *.
  set (q := PosixPath.resolve (cwd fs) p') in *.
  set (q0 := PosixPath.resolve (cwd fs) p) in *.
  destruct (decide (q = q0)) as [<-|Hne].
  - rewrite Hd in Hp. simpl in Hp. apply orb_true_iff. right.
    unfold is_file, is_dir in *. simpl. rewrite lookup_insert_eq.
    by destruct (is_root q).
  - by rewrite is_dir_insert_file, is_file_insert_file.
Qed.

Lemma file_write_keeps_path p h text fs :
  path_exists p fs → path_exists p (file_write h text fs).
Proof.
  unfold path_exists, os_path_exists, file_write. simpl cwd.
  destruct (bool_decide (p = "")); [done|]. simpl.
  set (q0 := PosixPath.resolve (cwd fs) p).
  unfold is_dir, is_file. simpl. rewrite lookup_alter.
  destruct (decide (h = q0)) as [->|Hne]; [|done].
  by destruct (is_root q0), (nodes fs !! q0) as [[]|].
Qed.

Lemma ancestors_self (q : list string) : q ≠ [] → q ∈ ancestors q.
Proof.
  intros Hq. unfold ancestors. apply list_elem_of_fmap.
  exists (length q). split; [by rewrite firstn_all|].
  apply elem_of_seq. destruct q; [done|]. simpl. lia.
Qed.

Lemma lookup_make_dirs (l : list (list string)) (m : gmap (list string) node) q :
  q ∈ l → foldr (λ d m, <[d := Dir]> m) m l !! q = Some Dir.
Proof.
  induction l as [|d l IH]; [by intros ?%elem_of_nil|].
  intros [->|Hin]%elem_of_cons; simpl.
  - apply lookup_insert_eq.
  - destruct (decide (d = q)) as [->|Hne]; [apply lookup_insert_eq|].
    rewrite lookup_insert_ne by done. by apply IH.
Qed.

Lemma makedirs_makes_path p fs fs' :
  os_makedirs p fs = Ok fs' → path_exists p fs' ∧ cwd fs' = cwd fs.
Proof.
  unfold os_makedirs, path_exists, os_path_exists.
  destruct (bool_decide (p = "")); [done|].
  set (q := PosixPath.resolve (cwd fs) p).
  destruct (is_dir fs q || is_file fs q) eqn:Hex; [done|].
  destruct (existsb _ _); [done|]. intros [= <-]. simpl cwd. split; [|done].
  simpl. apply orb_true_iff. left. fold q.
  assert (q ≠ []) as Hq by (intros E; by rewrite E in Hex).
  unfold is_dir. simpl. rewrite (lookup_make_dirs _ _ q (ancestors_self q Hq)).
  apply orb_true_r.
Qed.

End FileSystem.

(** ** What the steps of [save] leave as it is *)

Section SaveFrames.
Context {R : Type} `{!Runtime R}.

Lemma on_self_print Q s : stable (on_self Q) (print s : Py R unit).
Proof. by intros h HP. Qed.

Lemma on_self_call {A} Q (f : ext R A) : stable (on_self Q) (call f).
Proof. intros h HP. unfold call. by destruct (f (world h)). Qed.

Lemma on_self_method {A} Q v name (f : positive → ext R A) :
  stable (on_self Q) (method v name f).
Proof. destruct v; simpl; try apply stable_raise. apply on_self_call. Qed.

Lemma on_self_fs_read {A} Q (f : FS → A) : stable (on_self Q) (fs_read f : Py R A).
Proof. by intros h HP. Qed.

Lemma on_self_fs_update {A} Q (f : FS → result (A * FS)) :
  stable (on_self Q) (fs_update f : Py R A).
Proof. intros h HP. unfold fs_update. by destruct (f _) as [[a fs']|e]. Qed.

Lemma on_fs_self_set Q a v : stable (on_fs Q) (self_set a v : Py R unit).
Proof. by intros h HP. Qed.

Lemma on_fs_print Q s : stable (on_fs Q) (print s : Py R unit).
Proof. by intros h HP. Qed.

Lemma on_fs_fs_read {A} Q (f : FS → A) : stable (on_fs Q) (fs_read f : Py R A).
Proof. by intros h HP. Qed.

Lemma on_fs_call {A} Q (f : ext R A) : ext_keeps Q f → stable (on_fs Q) (call f).
Proof.
  intros Hf h HP. unfold call, on_fs in *. specialize (Hf (world h) HP).
  by destruct (f (world h)).
Qed.

Lemma on_fs_method {A} Q v name (f : positive → ext R A) :
  (∀ o, ext_keeps Q (f o)) → stable (on_fs Q) (method v name f).
Proof. intros Hf. destruct v; simpl; try apply stable_raise. by apply on_fs_call. Qed.

Lemma on_fs_fs_update {A} (Q : FS → Prop) (f : FS → result (A * FS)) :
  (∀ fs a fs', Q fs → f fs = Ok (a, fs') → Q fs') →
  stable (on_fs Q) (fs_update f : Py R A).
Proof.
  intros Hf h HP. unfold fs_update, on_fs in *.
  destruct (f (fs (world h))) as [[a fs']|e] eqn:E; [|done]. simpl. eauto.
Qed.

End SaveFrames.

#[local] Hint Resolve on_self_print on_self_call on_self_method on_self_fs_read
  on_self_fs_update on_fs_self_set on_fs_print on_fs_fs_read : stable.

Section SaveSteps.
Context {R : Type} `{!Runtime R}.

Lemma save_hyperparameter_self Q :
  stable (on_self Q) (save_hyperparameter : Py R unit).
Proof. unfold save_hyperparameter, write_line. repeat stable_step. Qed.

Lemma save_hyperparameter_path p :
  stable (on_fs (path_exists p)) (save_hyperparameter : Py R unit).
Proof.
  unfold save_hyperparameter, write_line. repeat stable_step.
  - apply on_fs_fs_update. intros fs q fs' Hp E. by eapply open_w_keeps_path.
  - apply on_fs_fs_update. intros fs [] fs' Hp [= <-]. by apply file_write_keeps_path.
Qed.

Lemma plot_model_self Q : stable (on_self Q) (plot_model : Py R unit).
Proof. unfold plot_model, render_model. repeat stable_step. Qed.

Lemma save_finish_self Q model_plot :
  stable (on_self Q) (save_finish model_plot : Py R unit).
Proof.
  pose proof plot_model_self. unfold save_finish. repeat stable_step.
Qed.

Lemma save_finish_fs Q model_plot :
  save_externals_keep Q → stable (on_fs Q) (save_finish model_plot : Py R unit).
Proof.
  intros (Hplot & Hchild & Hlog).
  unfold save_finish, plot_model, render_model.
  repeat first [ stable_step | apply on_fs_call | apply on_fs_method ]; auto.
Qed.

End SaveSteps.

(** ** [save]: the folder *)

Section SaveFolder.
Context {R : Type} `{!Runtime R}.

Lemma run_bind_inv {A B} (m : Py R A) (f : A → Py R B) (h h' : Heap R) (b : B) :
  (m ≫= f) h = (Ok b, h') → ∃ a h0, m h = (Ok a, h0) ∧ f a h0 = (Ok b, h').
Proof.
  rewrite run_bind. destruct (m h) as [[a|e] h0]; [eauto|discriminate].
Qed.

Lemma os_path_join_str (a b : string) :
  os_path_join (VStr a) (VStr b) = Ok (VStr (PosixPath.join a b)).
Proof. reflexivity. Qed.

Lemma folder_path_run (h : Heap R) (cd s : string) :
  self h !! "currentdir" = Some (VStr cd) →
  self h !! "folder_name" = Some (VStr s) →
  folder_path h = (Ok (PosixPath.join cd s), h).
Proof.
  intros Hcd Hfn. unfold folder_path.
  rewrite (run_bind_ok _ _ _ _ _ (run_self_get _ _ _ Hcd)).
  rewrite (run_bind_ok _ _ _ _ _ (run_self_get _ _ _ Hfn)).
  reflexivity.
Qed.

(** The folder step when the named folder is there: nothing is created,
    nothing fails, and [folder_name] is the name. *)
Lemma save_folder_existing (h : Heap R) (cd s : string) :
  is_Some (self h !! "folder_name") →
  self h !! "currentdir" = Some (VStr cd) →
  path_exists (PosixPath.join cd s) (fs (world h)) →
  save_folder (VStr s) h
  = (Ok tt, mkHeap (<["folder_name" := VStr s]> (self h)) (arrays h) (world h)).
Proof.
  intros [fn Hfn] Hcd Hex. unfold save_folder.
  rewrite (run_bind_ok _ _ _ _ _ (run_self_get _ _ _ Hfn)).
  rewrite andb_false_r. simpl negb. cbv iota.
  rewrite run_bind, run_self_set. cbv iota.
  erewrite run_bind_ok;
    [|apply (folder_path_run _ cd s); simpl;
      [by rewrite lookup_insert_ne | apply lookup_insert_eq]].
  rewrite run_bind. unfold fs_read. simpl. unfold path_exists in Hex.
  rewrite Hex. reflexivity.
Qed.

(** What a folder step that returned has done, for a name that is a
    string. *)
Lemma save_folder_inv (h h' : Heap R) (s : string) :
  save_folder (VStr s) h = (Ok tt, h') →
  ∃ cd, self h !! "currentdir" = Some (VStr cd)
        ∧ self h' = <["folder_name" := VStr s]> (self h)
        ∧ path_exists (PosixPath.join cd s) (fs (world h')).
Proof.
  unfold save_folder. rewrite run_bind. unfold self_get at 1.
  destruct (self h !! "folder_name") as [fn|] eqn:Hfn; [|discriminate].
  cbv iota. rewrite andb_false_r. simpl negb. cbv iota.
  rewrite run_bind, run_self_set. cbv iota.
  set (h0 := mkHeap (<["folder_name" := VStr s]> (self h)) (arrays h) (world h)).
  destruct (self h !! "currentdir") as [cdv|] eqn:Hcd.
  2:{ rewrite run_bind. unfold folder_path. rewrite run_bind.
      unfold self_get at 1. simpl. rewrite lookup_insert_ne by done.
      rewrite Hcd. discriminate. }
  destruct cdv as [| | | |cd| | |];
    try (rewrite run_bind; unfold folder_path;
         erewrite run_bind_ok;
           [|apply run_self_get; simpl; rewrite lookup_insert_ne by done; exact Hcd];
         erewrite run_bind_ok; [|apply run_self_get; simpl; apply lookup_insert_eq];
         discriminate).
  assert (folder_path h0 = (Ok (PosixPath.join cd s), h0)) as Hfp.
  { apply folder_path_run; simpl;
      [by rewrite lookup_insert_ne | apply lookup_insert_eq]. }
  rewrite (run_bind_ok _ _ _ _ _ Hfp).
  rewrite run_bind. unfold fs_read. simpl fst. cbv iota.
  destruct (os_path_exists (fs (world h0)) (PosixPath.join cd s)) eqn:Hex;
    cbn [negb].
  - intros [= <-]. exists cd. done.
  - rewrite (run_bind_ok _ _ _ _ _ Hfp). unfold fs_update.
    destruct (os_makedirs (PosixPath.join cd s) (fs (world h0))) as [fs'|e] eqn:Hmk;
      [|discriminate].
    simpl. intros [= <-]. exists cd. split; [done|]. split; [done|].
    simpl. by apply makedirs_makes_path in Hmk as [? _].
Qed.

(** C6: the creation of the folder is idempotent.  After a call
    [save(name)] that returned, and provided the calls it ended with
    (rendering, subclass hook, logger) removed nothing, the folder step of
    a second [save(name)] creates nothing and does not fail: it leaves
    the file system and the attributes as they are.  However the second
    call ends, every attribute, [folder_name] and [fullfilepath] among
    them, has the value the first call left. *)
Theorem save_folder_idempotent (s : string) (model_plot model_plot' : pyval)
  (h h1 : Heap R) :
  save (VStr s) model_plot h = (Ok tt, h1) →
  (∀ p, save_externals_keep (path_exists p)) →
  save_folder (VStr s) h1 = (Ok tt, h1)
  ∧ self h1 !! "folder_name" = Some (VStr s)
  ∧ (∃ cd, self h1 !! "currentdir" = Some (VStr cd)
           ∧ self h1 !! "fullfilepath" = Some (VStr (PosixPath.join cd (s +:+ "/"))))
  ∧ ∀ r h2, save (VStr s) model_plot' h1 = (r, h2) → self h2 = self h1.
Proof.
  intros Hsave Hkeep. unfold save in Hsave.
  apply run_bind_inv in Hsave as ([] & h0 & Hsum & Hfin).
  unfold save_summary in Hsum.
  apply run_bind_inv in Hsum as ([] & ha & Hfolder & Hsum).
  destruct (save_folder_inv _ _ _ Hfolder) as (cd & Hcd & Hsa & Hex).
  assert (self ha !! "currentdir" = Some (VStr cd)) as Hcda.
  { rewrite Hsa. by rewrite lookup_insert_ne. }
  assert (self ha !! "folder_name" = Some (VStr s)) as Hfna.
  { rewrite Hsa. apply lookup_insert_eq. }
  rewrite (run_bind_ok _ _ _ _ _ (run_self_get _ _ _ Hcda)) in Hsum.
  rewrite (run_bind_ok _ _ _ _ _ (run_self_get _ _ _ Hfna)) in Hsum.
  rewrite run_bind, run_lift in Hsum. simpl py_add_str in Hsum. cbv iota in Hsum.
  rewrite run_bind, run_lift, os_path_join_str in Hsum. cbv iota in Hsum.
  rewrite run_bind, run_self_set in Hsum. cbv iota in Hsum.
  set (ffp := VStr (PosixPath.join cd (s +:+ "/"))) in *.
  set (hb := mkHeap (<["fullfilepath" := ffp]> (self ha)) (arrays ha) (world ha)) in *.
  (* the attributes and the folder, from the summary to the end of the call *)
  assert (self h0 = self hb) as Hs0.
  { pose proof (save_hyperparameter_self (λ d, d = self hb) hb eq_refl) as Hs.
    unfold on_self in Hs. by rewrite Hsum in Hs. }
  assert (path_exists (PosixPath.join cd s) (fs (world h0))) as Hex0.
  { pose proof (save_hyperparameter_path (PosixPath.join cd s) hb Hex) as Hp.
    unfold on_fs in Hp. by rewrite Hsum in Hp. }
  assert (self h1 = self hb) as Hs1.
  { pose proof (save_finish_self (λ d, d = self hb) model_plot h0 Hs0) as Hs.
    unfold on_self in Hs. by rewrite Hfin in Hs. }
  assert (path_exists (PosixPath.join cd s) (fs (world h1))) as Hex1.
  { pose proof (save_finish_fs _ model_plot (Hkeep (PosixPath.join cd s)) h0 Hex0) as Hp.
    unfold on_fs in Hp. by rewrite Hfin in Hp. }
  assert (self h1 !! "folder_name" = Some (VStr s)) as Hfn1.
  { rewrite Hs1. simpl. by rewrite lookup_insert_ne. }
  assert (self h1 !! "currentdir" = Some (VStr cd)) as Hcd1.
  { rewrite Hs1. simpl. by rewrite lookup_insert_ne. }
  assert (self h1 !! "fullfilepath" = Some ffp) as Hffp1.
  { rewrite Hs1. simpl. apply lookup_insert_eq. }
  assert (save_folder (VStr s) h1 = (Ok tt, h1)) as Hagain.
  { rewrite (save_folder_existing h1 cd s); [|eauto|done|done].
    rewrite insert_id by done. by destruct h1. }
  split; [done|]. split; [done|]. split; [eauto|].
  intros r h2. unfold save, save_summary.
  rewrite run_bind, run_bind, Hagain. cbv iota.
  rewrite (run_bind_ok _ _ _ _ _ (run_self_get _ _ _ Hcd1)).
  rewrite (run_bind_ok _ _ _ _ _ (run_self_get _ _ _ Hfn1)).
  rewrite run_bind, run_lift. simpl py_add_str. cbv iota.
  rewrite run_bind, run_lift, os_path_join_str. cbv iota.
  rewrite run_bind, run_self_set. cbv iota. fold ffp.
  rewrite insert_id by done.
  set (hc := mkHeap (self h1) (arrays h1) (world h1)).
  pose proof (save_hyperparameter_self (λ d, d = self h1) hc eq_refl) as Hsc.
  unfold on_self in Hsc.
  destruct (save_hyperparameter hc) as [[[]|e] hd]; simpl in Hsc.
  - pose proof (save_finish_self (λ d, d = self h1) model_plot' hd Hsc) as Hsd.
    unfold on_self in Hsd. intros E. by rewrite E in Hsd.
  - by intros [= _ <-].
Qed.

End SaveFolder.

(** ** [plot_model] *)

Section PlotModel.
Context {R : Type} `{!Runtime R}.

(** C7, amended: an exception raised while the diagram is rendered that
    is an instance of [Exception] is caught; a warning goes to the
    console, nothing else changes, and [save] goes on with the hook of
    the subclass as a call without plotting would. *)
Theorem plot_model_catches_exceptions (h h' : Heap R) (e : exn) :
  render_model h = (Raise e, h') →
  is_Exception e = true →
  let warned :=
    mkHeap (self h') (arrays h')
      (mkWorld (stdout (world h') ++ [plot_model_warning])
               (fs (world h')) (rt (world h'))) in
  plot_model h = (Ok tt, warned)
  ∧ save_finish (VBool true) h = save_finish (VBool false) warned.
Proof.
  intros Hrender Hexn warned.
  assert (plot_model h = (Ok tt, warned)) as Hplot.
  { unfold plot_model, try_except. by rewrite Hrender, Hexn. }
  split; [done|]. unfold save_finish. simpl is_True. cbv iota.
  by rewrite (run_bind_ok _ _ _ _ _ Hplot).
Qed.

(** The exceptions that are not instances of [Exception] pass through. *)
Lemma plot_model_passes_base_exceptions (h h' : Heap R) (e : exn) :
  render_model h = (Raise e, h') →
  is_Exception e = false →
  plot_model h = (Raise e, h').
Proof.
  intros Hrender Hexn. unfold plot_model, try_except. by rewrite Hrender, Hexn.
Qed.

End PlotModel.

(** ** [save]: the summary *)

Section SaveSummary.
Context {R : Type} `{!Runtime R}.

Lemma lookup_make_dirs_other (l : list (list string))
  (m : gmap (list string) node) q :
  q ∉ l → foldr (λ d m, <[d := Dir]> m) m l !! q = m !! q.
Proof.
  induction l as [|d l IH]; [done|].
  intros [Hne Hin]%not_elem_of_cons. simpl.
  rewrite lookup_insert_ne by done. by apply IH.
Qed.

Lemma child_not_ancestor (q : list string) (name : string) :
  (q ++ [name])%list ∉ ancestors q.
Proof.
  unfold ancestors. intros (i & E & _)%list_elem_of_fmap.
  apply (f_equal length) in E. rewrite length_app, length_take in E. simpl in E. lia.
Qed.

Lemma is_dir_not_file fs q : is_dir fs q = true → is_file fs q = false.
Proof.
  unfold is_dir, is_file. destruct (is_root q); [done|].
  by destruct (nodes fs !! q) as [[]|].
Qed.

(** The folder step, for a folder that is there or can be created. *)
Lemma save_folder_ready (h : Heap R) (cd s name : string) :
  is_Some (self h !! "folder_name") →
  self h !! "currentdir" = Some (VStr cd) →
  s ≠ "" →
  folder_ready (fs (world h)) (PosixPath.join cd s) →
  let folder := PosixPath.resolve (cwd (fs (world h))) (PosixPath.join cd s) in
  is_dir (fs (world h)) (folder ++ [name]) = false →
  ∃ h', save_folder (VStr s) h = (Ok tt, h')
        ∧ self h' = <["folder_name" := VStr s]> (self h)
        ∧ cwd (fs (world h')) = cwd (fs (world h))
        ∧ is_dir (fs (world h')) folder = true
        ∧ is_dir (fs (world h')) (folder ++ [name]) = false.
Proof.
  intros Hfn Hcd Hs Hready folder Hfree.
  pose proof (join_nonempty cd s Hs) as Hp.
  destruct Hready as [Hdir | [Hnone Hclear]].
  - eexists. split.
    + apply (save_folder_existing h cd s Hfn Hcd).
      unfold path_exists, os_path_exists.
      rewrite bool_decide_eq_false_2 by done. by rewrite Hdir.
    + done.
  - destruct Hfn as [fn Hfn]. unfold save_folder.
    rewrite (run_bind_ok _ _ _ _ _ (run_self_get _ _ _ Hfn)).
    rewrite andb_false_r. cbn [negb is_None]. cbv iota.
    rewrite run_bind, run_self_set. cbv iota.
    set (h0 := mkHeap (<["folder_name" := VStr s]> (self h)) (arrays h) (world h)).
    assert (folder_path h0 = (Ok (PosixPath.join cd s), h0)) as Hfp.
    { apply folder_path_run; simpl;
        [by rewrite lookup_insert_ne | apply lookup_insert_eq]. }
    rewrite (run_bind_ok _ _ _ _ _ Hfp).
    rewrite run_bind. unfold fs_read. simpl fst. cbv iota.
    change (fs (world h0)) with (fs (world h)). rewrite Hnone. cbn [negb].
    rewrite (run_bind_ok _ _ _ _ _ Hfp). unfold fs_update.
    change (fs (world h0)) with (fs (world h)).
    unfold os_makedirs. rewrite bool_decide_eq_false_2 by done. fold folder.
    unfold os_path_exists in Hnone.
    rewrite bool_decide_eq_false_2 in Hnone by done. fold folder in Hnone.
    simpl in Hnone. rewrite Hnone. fold folder in Hclear. rewrite Hclear.
    simpl. eexists. split; [reflexivity|]. simpl.
    split; [done|]. split; [done|].
    assert (folder ≠ []) as Hne.
    { intros E. rewrite E in Hnone. done. }
    unfold is_dir in *. simpl.
    rewrite (lookup_make_dirs _ _ folder (ancestors_self folder Hne)).
    rewrite (lookup_make_dirs_other _ _ _ (child_not_ancestor folder name)).
    split; [apply orb_true_r | done].
Qed.

(** The lines, written one after the other. *)
Lemma write_lines_run (lines labels : list (string * string)) (h : Heap R)
  (q : list string) (text : string) :
  Forall2 (λ line lab,
             line.2 = lab.2
             ∧ ∀ v, Format.format (line.1 +:+ nl) [v]
                    = Ok (lab.1 +:+ py_str v +:+ " " +:+ nl)) lines labels →
  Forall (λ lab : string * string, is_Some (self h !! lab.2)) labels →
  nodes (fs (world h)) !! q = Some (File text) →
  ∃ h', for_fold lines tt (λ line _, write_line q line) h = (Ok tt, h')
        ∧ self h' = self h
        ∧ cwd (fs (world h')) = cwd (fs (world h))
        ∧ nodes (fs (world h'))
          = <[q := File (text +:+ lines_text labels (self h))]> (nodes (fs (world h))).
Proof.
  intros Hlines. revert h text.
  induction Hlines as [|line lab lines labels [Hfield Hformat] _ IH];
    intros h text Hattrs Hq.
  - exists h. split; [done|]. split; [done|]. split; [done|].
    simpl. rewrite append_empty_r. by rewrite insert_id.
  - apply Forall_cons in Hattrs as [[v Hv] Hattrs].
    set (t := lab.1 +:+ py_str v +:+ " " +:+ nl).
    set (h1 := mkHeap (self h) (arrays h)
                 (mkWorld (stdout (world h)) (file_write q t (fs (world h)))
                    (rt (world h)))).
    assert (write_line q line h = (Ok tt, h1)) as Hstep.
    { unfold write_line. rewrite Hfield.
      rewrite (run_bind_ok _ _ _ _ _ (run_self_get _ _ _ Hv)).
      rewrite run_bind, run_lift, Hformat. reflexivity. }
    assert (nodes (fs (world h1)) = <[q := File (text +:+ t)]> (nodes (fs (world h))))
      as Hn1.
    { simpl. apply map_eq. intros k. rewrite lookup_alter.
      destruct (decide (q = k)) as [<-|Hne].
      - by rewrite Hq, lookup_insert_eq.
      - by rewrite lookup_insert_ne. }
    destruct (IH h1 (text +:+ t)) as (h' & E & Hs & Hc & Hn).
    { exact Hattrs. }
    { rewrite Hn1. apply lookup_insert_eq. }
    exists h'. split.
    { rewrite for_fold_cons. by rewrite (run_bind_ok _ _ _ _ _ Hstep). }
    split; [done|]. split; [done|].
    rewrite Hn, Hn1, insert_insert_eq. do 2 f_equal.
    simpl lines_text. rewrite Hv. simpl default. fold t.
    unfold t. by rewrite !append_assoc.
Qed.

Lemma hyperparameter_lines_labels :
  Forall2 (λ line lab : string * string,
             line.2 = lab.2
             ∧ ∀ v, Format.format (line.1 +:+ nl) [v]
                    = Ok (lab.1 +:+ py_str v +:+ " " +:+ nl))
          hyperparameter_lines summary_labels.
Proof. repeat constructor. Qed.

(** For a folder name that is not empty, [save] writes the summary into
    the folder: the file [hyperparameter.txt] directly below the location
    of [os.path.join(currentdir, folder_name)], holding one line for each
    configuration field. *)
Lemma save_summary_writes (h : Heap R) (cd s : string) :
  s ≠ "" →
  self h !! "currentdir" = Some (VStr cd) →
  Forall (λ lab : string * string, is_Some (self h !! lab.2)) summary_labels →
  folder_ready (fs (world h)) (PosixPath.join cd s) →
  let folder := PosixPath.resolve (cwd (fs (world h))) (PosixPath.join cd s) in
  is_dir (fs (world h)) (folder ++ [summary_file]) = false →
  ∃ h', save_summary (VStr s) h = (Ok tt, h')
        ∧ self h' = <["fullfilepath" := VStr (PosixPath.join cd s +:+ "/")]>
                      (<["folder_name" := VStr s]> (self h))
        ∧ read_file (fs (world h')) (folder ++ [summary_file])
          = Some (summary_text (self h'))
        ∧ is_dir (fs (world h')) folder = true.
Proof.
  intros Hs Hcd Hattrs Hready folder Hfree.
  assert (is_Some (self h !! "folder_name")) as Hfn.
  { rewrite Forall_forall in Hattrs.
    apply (Hattrs ("folder name: ", "folder_name")).
    unfold summary_labels. set_solver. }
  destruct (save_folder_ready h cd s summary_file Hfn Hcd Hs Hready Hfree)
    as (ha & Efolder & Hsa & Hcwd & Hdir & Hfree').
  fold folder in Hdir, Hfree'.
  assert (self ha !! "currentdir" = Some (VStr cd)) as Hcda.
  { rewrite Hsa. by rewrite lookup_insert_ne. }
  assert (self ha !! "folder_name" = Some (VStr s)) as Hfna.
  { rewrite Hsa. apply lookup_insert_eq. }
  set (ffp := PosixPath.join cd s +:+ "/").
  set (hb := mkHeap (<["fullfilepath" := VStr ffp]> (self ha)) (arrays ha) (world ha)).
  set (q := (folder ++ [summary_file])%list).
  (* the file is opened in the folder *)
  assert (PosixPath.resolve (cwd (fs (world ha))) (ffp +:+ summary_file) = q) as Hq.
  { unfold ffp. rewrite append_assoc, Hcwd.
    apply resolve_child; try done. by apply join_nonempty. }
  set (fs1 := mkFS (cwd (fs (world ha))) (<[q := File ""]> (nodes (fs (world ha))))).
  assert (open_w (ffp +:+ summary_file) (fs (world ha)) = Ok (q, fs1)) as Hopen.
  { unfold open_w. rewrite Hq.
    rewrite bool_decide_eq_false_2.
    2:{ unfold ffp. apply append_nonempty, append_nonempty. by apply join_nonempty. }
    unfold q at 1 2 3. rewrite Hfree', removelast_last.
    by rewrite (is_dir_not_file _ _ Hdir), Hdir. }
  set (hc := mkHeap (self hb) (arrays hb) (mkWorld (stdout (world ha)) fs1 (rt (world ha)))).
  destruct (write_lines_run hyperparameter_lines summary_labels hc q ""
              hyperparameter_lines_labels) as (h' & Elines & Hs' & Hc' & Hn').
  { eapply Forall_impl; [exact Hattrs|]. intros lab [v Hv]. simpl.
    apply lookup_insert_is_Some'. right. rewrite Hsa.
    apply lookup_insert_is_Some'. right. eauto. }
  { simpl. apply lookup_insert_eq. }
  exists h'. split.
  { unfold save_summary. rewrite (run_bind_ok _ _ _ _ _ Efolder).
    rewrite (run_bind_ok _ _ _ _ _ (run_self_get _ _ _ Hcda)).
    rewrite (run_bind_ok _ _ _ _ _ (run_self_get _ _ _ Hfna)).
    rewrite run_bind, run_lift. simpl py_add_str. cbv iota.
    rewrite run_bind, run_lift, os_path_join_str, (join_with_sep _ _ Hs). cbv iota.
    rewrite run_bind, run_self_set. cbv iota. fold ffp hb.
    unfold save_hyperparameter.
    erewrite run_bind_ok; [|apply run_self_get; simpl; apply lookup_insert_eq].
    rewrite run_bind, run_lift. simpl py_add_str. cbv iota.
    rewrite run_bind, run_lift. simpl py_path. cbv iota.
    assert (fs_update (open_w (ffp +:+ summary_file)) hb = (Ok q, hc)) as Hupd.
    { unfold fs_update. simpl world. by rewrite Hopen. }
    change "hyperparameter.txt" with summary_file.
    rewrite (run_bind_ok _ _ _ _ _ Hupd). exact Elines. }
  split; [rewrite Hs'; simpl; by rewrite Hsa|].
  unfold read_file, is_dir. rewrite Hn'. simpl nodes.
  split.
  - rewrite lookup_insert_eq.
    assert (is_root q = false) as -> by (unfold is_root, q; by destruct folder).
    by rewrite Hs'.
  - assert (q ≠ folder) as Hne.
    { unfold q. intros E. apply (f_equal length) in E.
      rewrite length_app in E. simpl in E. lia. }
    rewrite !lookup_insert_ne by done. exact Hdir.
Qed.

End SaveSummary.

(** ** Arrays *)

Section Arrays.
Import Np.

Lemma length_bind_uniform {A B} (f : A → list B) (m : nat) (l : list A) :
  (∀ y, length (f y) = m) → length (l ≫= f) = (length l * m)%nat.
Proof.
  intros Hf. induction l as [|x l IH]; [done|].
  rewrite bind_cons, length_app, Hf, IH. simpl. lia.
Qed.

Lemma lookup_bind_uniform {A B} (f : A → list B) (m : nat) (l : list A)
  (i r : nat) (x : A) :
  (∀ y, length (f y) = m) → l !! i = Some x → (r < m)%nat →
  (l ≫= f) !! (i * m + r)%nat = f x !! r.
Proof.
  intros Hf. revert i. induction l as [|x0 l IH]; intros i Hi Hr; [done|].
  rewrite bind_cons. destruct i as [|i]; simpl in *.
  - injection Hi as ->. apply lookup_app_l. by rewrite Hf.
  - rewrite lookup_app_r by (rewrite Hf; lia). rewrite Hf.
    replace (m + i * m + r - m)%nat with (i * m + r)%nat by lia. by apply IH.
Qed.

Lemma indices_cons (n : nat) (sh : list nat) :
  indices (n :: sh) = seq 0 n ≫= λ i, cons i <$> indices sh.
Proof. reflexivity. Qed.

Lemma length_indices (sh : list nat) : length (indices sh) = size_of sh.
Proof.
  induction sh as [|n sh IH]; [done|]. rewrite indices_cons.
  rewrite (length_bind_uniform _ (size_of sh)).
  - by rewrite length_seq.
  - intros y. by rewrite length_fmap.
Qed.

Lemma ravel_lt (sh idx : list nat) :
  in_range idx sh → (ravel sh idx < size_of sh)%nat.
Proof.
  intros H. induction H as [|i n idx sh Hi _ IH]; simpl; [lia|]. nia.
Qed.

(** The row-major position of a multi-index is where the enumeration of
    the indices has it. *)
Lemma lookup_indices (sh idx : list nat) :
  in_range idx sh → indices sh !! ravel sh idx = Some idx.
Proof.
  intros H. induction H as [|i n idx sh Hi Hrest IH]; [done|].
  rewrite indices_cons. simpl ravel.
  rewrite (lookup_bind_uniform _ (size_of sh) _ _ _ i).
  - by rewrite list_lookup_fmap, IH.
  - intros y. by rewrite length_fmap, length_indices.
  - by apply lookup_seq.
  - by apply ravel_lt.
Qed.

(** What an assignment to a region stores, element by element. *)
Lemma setitem_get (a v : ndarray) (ix : list index) (vs : list nat) :
  well_formed a →
  check_index (shape a) ix = Ok tt →
  strip_ones (ndim v - length (region_shape (shape a) ix)) (shape v) = Some vs →
  axes_fit vs (region_shape (shape a) ix) = true →
  ∃ a', setitem a ix v = Ok a'
        ∧ shape a' = shape a
        ∧ well_formed a'
        ∧ ∀ idx, in_range idx (shape a) →
            get a' idx = match region_pos ix idx with
                         | Some pos => F32.cast (data v !!! ravel vs (source_index vs pos))
                         | None => get a idx
                         end.
Proof.
  intros Hwf Hix Hstrip Hfit. unfold setitem. rewrite Hix. simpl.
  rewrite Hstrip, Hfit. eexists. split; [reflexivity|]. simpl.
  split; [done|]. split.
  - unfold well_formed in *. simpl.
    rewrite length_zip_with, length_indices. lia.
  - intros idx Hidx. unfold get at 1. simpl.
    pose proof (ravel_lt _ _ Hidx) as Hlt.
    assert (is_Some (data a !! ravel (shape a) idx)) as [x Hx].
    { apply lookup_lt_is_Some. by rewrite Hwf. }
    rewrite list_lookup_total_alt, lookup_zip_with, (lookup_indices _ _ Hidx), Hx.
    simpl. destruct (region_pos ix idx); [done|].
    unfold get. by rewrite list_lookup_total_alt, Hx.
Qed.

(** [jacobian[j, :, i:i + 1] = v] for a gradient [v] of shape [(1, F, 1)]:
    the column of unit [j] and example [i] takes the values of [v] as
    [float32], and nothing else changes. *)
Lemma setitem_column (a v : ndarray) (L F N j i : nat) :
  well_formed a → shape a = [L; F; N] → shape v = [1%nat; F; 1%nat] →
  (j < L)%nat → (i < N)%nat →
  ∃ a', setitem a [At j; Full; Range i (i + 1)] v = Ok a'
        ∧ shape a' = [L; F; N]
        ∧ well_formed a'
        ∧ ∀ j' f i', (j' < L)%nat → (f < F)%nat → (i' < N)%nat →
            get a' [j'; f; i']
            = if bool_decide (j' = j ∧ i' = i) then F32.cast (data v !!! f)
              else get a [j'; f; i'].
Proof.
  intros Hwf Hsh Hv Hj Hi.
  destruct (setitem_get a v [At j; Full; Range i (i + 1)] [F; 1%nat]) as
    (a' & E & Hsh' & Hwf' & Hget); try done.
  - rewrite Hsh. simpl. by destruct (Nat.ltb_spec j L); [|lia].
  - rewrite Hsh. unfold ndim. rewrite Hv. simpl. done.
  - rewrite Hsh. simpl.
    replace (Nat.min (i + 1) N - Nat.min i N)%nat with 1%nat by lia.
    unfold axes_fit. simpl. by rewrite Nat.eqb_refl.
  - exists a'. split; [done|]. split; [congruence|]. split; [done|].
    intros j' f i' Hj' Hf Hi'. rewrite Hget.
    2:{ rewrite Hsh. repeat constructor; done. }
    simpl. destruct (Nat.eqb_spec j' j) as [->|Hne].
    + destruct (Nat.leb_spec i i'), (Nat.ltb_spec i' (i + 1)); simpl.
      * assert (i' = i) as -> by lia. rewrite bool_decide_eq_true_2 by done.
        do 2 f_equal. unfold source_index. simpl.
        replace (i - i)%nat with 0%nat by lia.
        destruct (Nat.eqb_spec F 1); simpl; lia.
      * rewrite bool_decide_eq_false_2 by lia. done.
      * rewrite bool_decide_eq_false_2 by lia. done.
      * rewrite bool_decide_eq_false_2 by lia. done.
    + rewrite bool_decide_eq_false_2 by (intros [? ?]; done). done.
Qed.

Lemma ones_well_formed (sh : list nat) : well_formed (ones sh).
Proof. unfold well_formed, ones. simpl. by rewrite length_replicate. Qed.

End Arrays.

(** ** The rounds of [jacobian] after their progress report *)

Section Rounds.
Context {R : Type} `{!Runtime R}.
Import Np.

(** The loop over the examples for one output unit [j]: the columns of the
    examples from [s] on, [k] of them, take the gradients. *)
Lemma column_loop (g input_tens : pyval) (x_data : ndarray) (G : nat → ndarray)
  (L F N j : nat) (rest : list nat) :
  (∀ i x_in w, slice0 x_data i = Ok x_in →
     ∃ w', session_run g input_tens x_in w = (Ok [G i], w')) →
  (∀ i, (i < N)%nat → shape (G i) = [1%nat; F; 1%nat]) →
  shape x_data = N :: rest →
  (j < L)%nat →
  ∀ (k s : nat) (jac : ndarray) (h : Heap R),
    (s + k ≤ N)%nat → well_formed jac → shape jac = [L; F; N] →
    ∃ J h',
      for_fold (seq s k) jac (λ i jacobian,
        v ← run_gradient g input_tens x_data i;
        lift (setitem jacobian [At j; Full; Range i (i + 1)] v)) h = (Ok J, h')
      ∧ self h' = self h
      ∧ well_formed J ∧ shape J = [L; F; N]
      ∧ ∀ j' f i', (j' < L)%nat → (f < F)%nat → (i' < N)%nat →
          get J [j'; f; i']
          = if bool_decide (j' = j ∧ (s ≤ i' < s + k)%nat)
            then F32.cast (data (G i') !!! f)
            else get jac [j'; f; i'].
Proof.
  intros Hrun HG Hx Hj k.
  induction k as [|k IH]; intros s jac h Hk Hwf Hsh.
  - exists jac, h. split; [done|]. split; [done|]. split; [done|]. split; [done|].
    intros j' f i' _ _ _. rewrite bool_decide_eq_false_2 by lia. done.
  - simpl seq. rewrite for_fold_cons.
    (* the gradient of example s *)
    assert (∃ x_in, slice0 x_data s = Ok x_in) as [x_in Hslice].
    { unfold slice0. rewrite Hx. eauto. }
    destruct (Hrun s x_in (world h) Hslice) as [w' Hw'].
    set (h1 := mkHeap (self h) (arrays h) w').
    assert (run_gradient g input_tens x_data s h = (Ok (G s), h1)) as Hgrad.
    { unfold run_gradient. rewrite run_bind, run_lift, Hslice. cbv iota.
      rewrite run_bind. unfold call. rewrite Hw'. reflexivity. }
    destruct (setitem_column jac (G s) L F N j s Hwf Hsh (HG s ltac:(lia)) Hj) as
      (jac1 & Hset & Hsh1 & Hwf1 & Hget1); [lia|].
    destruct (IH (S s) jac1 h1) as (J & h' & Hloop & Hself & HwfJ & HshJ & HgetJ);
      [lia|done|done|].
    exists J, h'. split.
    { rewrite run_bind, run_bind, Hgrad. cbv iota. rewrite run_lift, Hset. exact Hloop. }
    split; [done|]. split; [done|]. split; [done|].
    intros j' f i' Hj' Hf Hi'. rewrite HgetJ, Hget1 by done.
    repeat case_bool_decide; try done; try lia.
    destruct_and!. by subst.
Qed.

(** The rounds for the output units from [s] on, [k] of them. *)
Lemma rounds_loop (input_tens : pyval) (x_data : ndarray) (G : nat → nat → ndarray)
  (L F N : nat) (rest : list nat) (d : gmap string pyval) :
  gradients_available d input_tens x_data G →
  (∀ j i, (i < N)%nat → shape (G j i) = [1%nat; F; 1%nat]) →
  shape x_data = N :: rest →
  ∀ (k s : nat) (jac : ndarray) (h : Heap R),
    self h = d →
    (s + k ≤ L)%nat → well_formed jac → shape jac = [L; F; N] →
    ∃ J h',
      for_fold (seq s k) jac (gradients_round3 input_tens x_data) h = (Ok J, h')
      ∧ well_formed J ∧ shape J = [L; F; N]
      ∧ ∀ j f i, (j < L)%nat → (f < F)%nat → (i < N)%nat →
          get J [j; f; i]
          = if bool_decide (s ≤ j < s + k)%nat
            then F32.cast (data (G j i) !!! f)
            else get jac [j; f; i].
Proof.
  intros Havail HG Hx k.
  induction k as [|k IH]; intros s jac h Hd Hk Hwf Hsh.
  - exists jac, h. split; [done|]. split; [done|]. split; [done|].
    intros j f i _ _ _. rewrite bool_decide_eq_false_2 by lia. done.
  - simpl seq. rewrite for_fold_cons.
    destruct (Havail s h Hd) as (g & h1 & Hg & Hd1 & Hrun).
    destruct (column_loop g input_tens x_data (G s) L F N s rest Hrun (HG s) Hx
                ltac:(lia) N 0%nat jac h1)
      as (jac1 & h2 & Hcol & Hself & Hwf1 & Hsh1 & Hget1); [lia|done|done|].
    assert (gradients_round3 input_tens x_data s jac h = (Ok jac1, h2)) as Hround.
    { unfold gradients_round3. rewrite (run_bind_ok _ _ _ _ _ Hg).
      rewrite run_bind, run_lift. unfold shape_at. rewrite Hx. simpl. exact Hcol. }
    destruct (IH (S s) jac1 h2) as (J & h' & Hloop & HwfJ & HshJ & HgetJ);
      [congruence|lia|done|done|].
    exists J, h'. split.
    { by rewrite (run_bind_ok _ _ _ _ _ Hround). }
    split; [done|]. split; [done|].
    intros j f i Hj Hf Hi. rewrite HgetJ, Hget1 by done.
    repeat case_bool_decide; try done; try lia.
    assert (j = s) as -> by lia. done.
Qed.

(** X21: with a progress report that returned, the loop of [jacobian] over
    the output units would do what it is written for: started on the array of
    ones of shape [(labels_shape, features, examples)], its rounds leave in
    [jacobian[j, :, i]] the gradient of the output unit [j] at the example
    [i], as [float32]. *)
Lemma gradient_rounds_fill (input_tens : pyval) (x_data : ndarray)
  (G : nat → nat → ndarray) (L F N : nat) (rest : list nat) (h : Heap R) :
  gradients_available (self h) input_tens x_data G →
  (∀ j i, (i < N)%nat → shape (G j i) = [1%nat; F; 1%nat]) →
  shape x_data = N :: rest →
  ∃ J h',
    for_fold (seq 0 L) (ones [L; F; N]) (gradients_round3 input_tens x_data) h
    = (Ok J, h')
    ∧ shape J = [L; F; N]
    ∧ ∀ j f i, (j < L)%nat → (f < F)%nat → (i < N)%nat →
        get J [j; f; i] = F32.cast (data (G j i) !!! f).
Proof.
  intros Havail HG Hx.
  destruct (rounds_loop input_tens x_data G L F N rest (self h) Havail HG Hx L 0%nat
              (ones [L; F; N]) h) as (J & h' & Hloop & _ & HshJ & HgetJ);
    [done|lia|apply ones_well_formed|done|].
  exists J, h'. split; [done|]. split; [done|].
  intros j f i Hj Hf Hi. rewrite HgetJ by done.
  rewrite bool_decide_eq_true_2 by lia. done.
Qed.

End Rounds.

(** ** Attributes the methods leave alone *)

Section AttributeFrames.
Context {R : Type} `{!Runtime R}.

Lemma heap_eta (h : Heap R) : mkHeap (self h) (arrays h) (world h) = h.
Proof. by destruct h. Qed.

Lemma on_self_store Q l a : stable (on_self Q) (store l a : Py R unit).
Proof. by intros h HP. Qed.

Lemma on_self_alloc Q a : stable (on_self Q) (alloc a : Py R positive).
Proof. by intros h HP. Qed.

Lemma on_self_self_set_other (k : string) (v : option pyval) a val :
  a ≠ k → stable (on_self (λ d, d !! k = v)) (self_set a val : Py R unit).
Proof. intros Hne h HP. unfold on_self in *. simpl. by rewrite lookup_insert_ne. Qed.

End AttributeFrames.

#[local] Hint Resolve on_self_store on_self_alloc on_self_self_set_other : stable.

(** ** Computations that returned *)

Section Returned.
Context {R : Type} `{!Runtime R}.

Lemma lift_inv {A} (r : result A) (a : A) (h h' : Heap R) :
  lift r h = (Ok a, h') → r = Ok a ∧ h' = h.
Proof. by intros [= -> ->]. Qed.

Lemma self_get_inv (a : string) (v : pyval) (h h' : Heap R) :
  self_get a h = (Ok v, h') → self h !! a = Some v ∧ h' = h.
Proof.
  unfold self_get. destruct (self h !! a); [|done]. by intros [= -> ->].
Qed.

End Returned.

(** One statement of a computation that returned, undone. *)
Ltac undo_step H :=
  let E := fresh "E" in
  apply run_bind_inv in H as (? & ? & E & H);
  first [ apply lift_inv in E as [E ->] | apply self_get_inv in E as [E ->] ].

(** ** [cpu_gpu_check] *)

Section DeviceCheck.
Context {R : Type} `{!Runtime R}.

(** X1: [cpu_gpu_check] sets up a device only for [fallback_cpu is True],
    [limit_gpu_mem is True] and a [limit_gpu_mem] that is a [float].  With
    any other values, [False], [None] or the [int] [1] among them, it
    calls nothing and changes nothing. *)
Theorem cpu_gpu_check_other_settings (h : Heap R) (f l : pyval) :
  self h !! "fallback_cpu" = Some f →
  self h !! "limit_gpu_mem" = Some l →
  is_True f = false → is_True l = false → is_float l = false →
  cpu_gpu_check h = (Ok tt, h).
Proof.
  intros Hf Hl Ef El Efl. unfold cpu_gpu_check.
  rewrite (run_bind_ok _ _ _ _ _ (run_self_get _ _ _ Hf)), Ef.
  rewrite run_bind. cbv beta iota. change ((mret tt : Py R unit) h) with (Ok tt, h).
  cbv iota.
  rewrite (run_bind_ok _ _ _ _ _ (run_self_get _ _ _ Hl)), El.
  rewrite (run_bind_ok _ _ _ _ _ (run_self_get _ _ _ Hl)), Efl.
  reflexivity.
Qed.

End DeviceCheck.

(** ** [pre_training_checklist_master]: frame, report, errors *)

Section ChecklistRuns.
Context {R : Type} `{!Runtime R}.

Lemma checklist_array_is x o (input_data labels : ndarray) :
  stable (array_is x o) (pre_training_checklist_master input_data labels : Py R unit).
Proof.
  unfold pre_training_checklist_master, split_counts, infer_input_shape,
    infer_labels_shape, cpu_gpu_check, report_counts.
  repeat stable_step.
Qed.

(** X2: however the checklist ends, it has assigned no attribute other
    than [val_size], [val_num], [num_train], [input_shape] and
    [labels_shape], and it has written to no array. *)
Theorem checklist_keeps_other_attributes (input_data labels : ndarray)
  (h : Heap R) (k : string) :
  k ∉ checklist_fields →
  let h' := (pre_training_checklist_master input_data labels h).2 in
  self h' !! k = self h !! k ∧ arrays h' = arrays h.
Proof.
  intros Hk h'. split.
  - assert ("val_size" ≠ k ∧ "val_num" ≠ k ∧ "num_train" ≠ k
            ∧ "input_shape" ≠ k ∧ "labels_shape" ≠ k) as (? & ? & ? & ? & ?).
    { unfold checklist_fields in Hk.
      repeat (apply not_elem_of_cons in Hk as [? Hk]). repeat split; congruence. }
    assert (stable (on_self (λ d, d !! k = self h !! k))
              (pre_training_checklist_master input_data labels : Py R unit)) as Hst.
    { unfold pre_training_checklist_master, split_counts, infer_input_shape,
        infer_labels_shape, cpu_gpu_check, report_counts.
      repeat stable_step. }
    exact (Hst h eq_refl).
  - apply map_eq. intros x.
    exact (checklist_array_is x (arrays h !! x) input_data labels h eq_refl).
Qed.

(** The checklist from the device check on, in the state its first three
    steps leave. *)
Lemma checklist_steps (input_data labels : ndarray) (h : Heap R) n rest vs p vn :
  shape input_data = n :: rest →
  self h !! "val_size" = Some vs →
  py_mul_int (Z.of_nat n) (effective_val_size vs) = Ok p →
  py_int p = Ok vn →
  pre_training_checklist_master input_data labels h
  = (cpu_gpu_check;; report_counts)
      (mkHeap (with_labels_shape labels
                 (with_input_shape input_data
                    (with_counts (Z.of_nat n) vn vs (self h))))
              (arrays h) (world h)).
Proof.
  intros Hsh Hvs Hmul Hint. unfold pre_training_checklist_master.
  destruct (split_counts_run _ h _ _ _ _ _ Hsh Hvs Hmul Hint)
    as (h1 & E1 & Hs1 & Ha1 & Hw1).
  rewrite (run_bind_ok _ _ _ _ _ E1).
  destruct (infer_input_shape_run input_data h1) as (h2 & E2 & Hs2 & Ha2 & Hw2).
  rewrite (run_bind_ok _ _ _ _ _ E2).
  destruct (infer_labels_shape_run labels h2) as (h3 & E3 & Hs3 & Ha3 & Hw3).
  rewrite (run_bind_ok _ _ _ _ _ E3).
  f_equal. rewrite <- (heap_eta h3). f_equal; [|congruence|congruence].
  rewrite Hs3, Hs2, Hs1. reflexivity.
Qed.

Lemma checklist_fields_other (input_data labels : ndarray) n vn vs
  (d : gmap string pyval) (k : string) :
  k ∉ checklist_fields →
  with_labels_shape labels
    (with_input_shape input_data (with_counts n vn vs d)) !! k = d !! k.
Proof.
  intros Hk. unfold checklist_fields in Hk.
  repeat (apply not_elem_of_cons in Hk as [? Hk]).
  rewrite with_labels_shape_other, with_input_shape_other by done.
  unfold with_counts. rewrite !lookup_insert_ne by congruence. done.
Qed.

Lemma checklist_fields_counts (input_data labels : ndarray) n vn vs
  (d : gmap string pyval) :
  let d' := with_labels_shape labels
              (with_input_shape input_data (with_counts n vn vs d)) in
  d' !! "num_train" = Some (VInt (n - vn))
  ∧ d' !! "val_num" = Some (VInt vn)
  ∧ d' !! "val_size" = Some (effective_val_size vs).
Proof.
  intros d'. unfold d'.
  rewrite !with_labels_shape_other, !with_input_shape_other by done.
  unfold with_counts. repeat split.
  - apply lookup_insert_eq.
  - rewrite lookup_insert_ne by done. apply lookup_insert_eq.
  - rewrite !lookup_insert_ne by done. apply lookup_insert_eq.
Qed.

(** X3: when the checklist returns, the last line on the console is its
    report, with the count of training data and the count of validation
    data it has stored, in decimal. *)
Theorem checklist_prints_counts (input_data labels : ndarray) (h : Heap R)
  n rest vs p vn :
  shape input_data = n :: rest →
  self h !! "val_size" = Some vs →
  py_mul_int (Z.of_nat n) (effective_val_size vs) = Ok p →
  py_int p = Ok vn →
  device_attributes h →
  device_calls_return →
  ∃ h', pre_training_checklist_master input_data labels h = (Ok tt, h')
        ∧ last (stdout (world h')) = Some (counts_line (Z.of_nat n - vn) vn).
Proof.
  intros Hsh Hvs Hmul Hint Hattr Hdev.
  rewrite (checklist_steps _ _ _ _ _ _ _ _ Hsh Hvs Hmul Hint).
  set (d' := with_labels_shape labels _).
  set (h3 := mkHeap d' (arrays h) (world h)).
  destruct (checklist_fields_counts input_data labels (Z.of_nat n) vn vs (self h))
    as (Hnt & Hvn & _). fold d' in Hnt, Hvn.
  destruct (cpu_gpu_check_run h3) as (h4 & E4 & Hs4 & Ha4); [|done|].
  { destruct Hattr as (? & ? & ?). unfold device_attributes, h3, d'. simpl.
    rewrite !checklist_fields_other by compute_done. done. }
  rewrite (run_bind_ok _ _ _ _ _ E4). unfold report_counts.
  erewrite run_bind_ok; [|apply run_self_get; rewrite Hs4; exact Hnt].
  erewrite run_bind_ok; [|apply run_self_get; rewrite Hs4; exact Hvn].
  rewrite run_bind, run_lift, report_counts_format. cbv iota.
  eexists. split; [reflexivity|]. simpl. apply last_snoc.
Qed.

Lemma effective_val_size_idemp (v : pyval) :
  effective_val_size (effective_val_size v) = effective_val_size v.
Proof. by destruct v. Qed.

(** Storing the fields of the checklist a second time changes nothing. *)
Lemma checklist_fields_idemp (input_data labels : ndarray) n vn vs
  (d : gmap string pyval) :
  let store vs d := with_labels_shape labels
                      (with_input_shape input_data (with_counts n vn vs d)) in
  store (effective_val_size vs) (store vs d) = store vs d.
Proof.
  intros store. apply map_eq. intros k.
  destruct (decide (k ∈ checklist_fields)) as [Hin|Hout].
  - unfold store, with_labels_shape, with_input_shape, with_counts.
    rewrite effective_val_size_idemp.
    unfold checklist_fields in Hin.
    destruct (shape labels) as [|? [|? [|? [|? [|? ?]]]]];
      destruct (shape input_data) as [|? [|? [|? [|? [|? ?]]]]];
      repeat (apply elem_of_cons in Hin as [->|Hin];
        [by repeat first [rewrite lookup_insert_eq | rewrite lookup_insert_ne by done]|]);
      by apply elem_of_nil in Hin.
  - unfold store. by rewrite !checklist_fields_other.
Qed.

(** X4: the checklist is idempotent.  Run again on the same arrays, in the
    state its first run left, it returns again and leaves every attribute
    as the first run left it ([val_size], replaced by [0] when it was
    [None], included). *)
Theorem checklist_idempotent (input_data labels : ndarray) (h : Heap R)
  n rest vs p vn :
  shape input_data = n :: rest →
  self h !! "val_size" = Some vs →
  py_mul_int (Z.of_nat n) (effective_val_size vs) = Ok p →
  py_int p = Ok vn →
  device_attributes h →
  device_calls_return →
  ∃ h1 h2,
    pre_training_checklist_master input_data labels h = (Ok tt, h1)
    ∧ pre_training_checklist_master input_data labels h1 = (Ok tt, h2)
    ∧ self h2 = self h1.
Proof.
  intros Hsh Hvs Hmul Hint Hattr Hdev.
  destruct (checklist_run input_data labels h _ _ _ _ _ Hsh Hvs Hmul Hint Hattr Hdev)
    as (h1 & E1 & Hs1 & _).
  destruct (checklist_fields_counts input_data labels (Z.of_nat n) vn vs (self h))
    as (_ & _ & Hvs1). rewrite <- Hs1 in Hvs1.
  destruct (checklist_run input_data labels h1 n rest (effective_val_size vs) p vn)
    as (h2 & E2 & Hs2 & _); try done.
  { by rewrite effective_val_size_idemp. }
  { destruct Hattr as (? & ? & ?). unfold device_attributes.
    rewrite Hs1, !checklist_fields_other by compute_done.
    done. }
  exists h1, h2. split; [done|]. split; [done|].
  rewrite Hs2, Hs1. apply checklist_fields_idemp.
Qed.

(** The first statement of the checklist: [val_size] is no longer [None],
    nothing else has changed. *)
Lemma split_counts_start (h : Heap R) (vs : pyval) :
  self h !! "val_size" = Some vs →
  let h0 := mkHeap (<["val_size" := effective_val_size vs]> (self h))
              (arrays h) (world h) in
  (if is_None vs then self_set "val_size" (VInt 0) else mret tt) h = (Ok tt, h0)
  ∧ self h0 !! "val_size" = Some (effective_val_size vs).
Proof.
  intros Hvs h0. split; [|apply lookup_insert_eq].
  unfold h0, effective_val_size. destruct (is_None vs); [reflexivity|].
  rewrite insert_id by done. by rewrite heap_eta.
Qed.

(** X5: input data of rank 0 has no first axis.  The checklist raises
    [IndexError] at [input_data.shape[0]]: no count is stored, no shape is
    inferred, no device is set up and nothing is printed; only [val_size],
    when it was [None], has become [0]. *)
Theorem checklist_scalar_input_raises (input_data labels : ndarray) (h : Heap R)
  (vs : pyval) :
  shape input_data = [] →
  self h !! "val_size" = Some vs →
  ∃ e,
    pre_training_checklist_master input_data labels h
    = (Raise e, mkHeap (<["val_size" := effective_val_size vs]> (self h))
                  (arrays h) (world h))
    ∧ exn_cls e = IndexError.
Proof.
  intros Hsh Hvs.
  destruct (split_counts_start h vs Hvs) as [E0 _].
  unfold pre_training_checklist_master, split_counts.
  rewrite run_bind.
  rewrite (run_bind_ok _ _ _ _ _ (run_self_get _ _ _ Hvs)).
  rewrite (run_bind_ok _ _ _ _ _ E0).
  rewrite run_bind, run_lift. unfold dim, Np.shape_at. rewrite Hsh. simpl.
  eexists. split; reflexivity.
Qed.

(** X6: a [val_size] for which [int(n * val_size)] is not defined (a NaN,
    an infinity, a string that is no number, ...) makes the checklist end
    with the exception of that expression: no count is stored, no shape is
    inferred, no device is set up and nothing is printed; only [val_size],
    when it was [None], has become [0]. *)
Theorem checklist_bad_val_size (input_data labels : ndarray) (h : Heap R)
  n rest vs e :
  shape input_data = n :: rest →
  self h !! "val_size" = Some vs →
  py_mul_int (Z.of_nat n) (effective_val_size vs) ≫= py_int = Raise e →
  pre_training_checklist_master input_data labels h
  = (Raise e, mkHeap (<["val_size" := effective_val_size vs]> (self h))
                (arrays h) (world h)).
Proof.
  intros Hsh Hvs Hbad.
  destruct (split_counts_start h vs Hvs) as [E0 Hvs0].
  unfold pre_training_checklist_master, split_counts.
  rewrite run_bind.
  rewrite (run_bind_ok _ _ _ _ _ (run_self_get _ _ _ Hvs)).
  rewrite (run_bind_ok _ _ _ _ _ E0).
  rewrite run_bind, run_lift, (dim_cons _ _ _ Hsh). cbv iota.
  rewrite (run_bind_ok _ _ _ _ _ (run_self_get _ _ _ Hvs0)).
  rewrite run_bind, run_lift.
  destruct (py_mul_int (Z.of_nat n) (effective_val_size vs)) as [p|e'];
    simpl in Hbad.
  - cbv iota. rewrite run_bind, run_lift, Hbad. reflexivity.
  - cbv iota. congruence.
Qed.

(** X7: the checklist reads the shapes of its arguments and nothing else
    of them: not the data, and of the labels not even the first axis.
    Labels for another number of examples than the input has are accepted
    and give the same result. *)
Theorem checklist_reads_only_shapes (input_data input_data' labels labels' : ndarray)
  (h : Heap R) :
  shape input_data = shape input_data' →
  tail (shape labels) = tail (shape labels') →
  Np.ndim labels = Np.ndim labels' →
  pre_training_checklist_master input_data labels h
  = pre_training_checklist_master input_data' labels' h.
Proof.
  intros Hin Htail Hrank. unfold pre_training_checklist_master.
  assert (split_counts input_data = (split_counts input_data' : Py R unit)) as ->.
  { unfold split_counts, dim, Np.shape_at. by rewrite Hin. }
  assert (infer_input_shape input_data = (infer_input_shape input_data' : Py R unit))
    as ->.
  { unfold infer_input_shape, dim, Np.shape_at, Np.ndim. by rewrite Hin. }
  assert (infer_labels_shape labels = (infer_labels_shape labels' : Py R unit)) as ->.
  { unfold infer_labels_shape, dim, Np.shape_at, Np.ndim in *.
    destruct (shape labels) as [|m sh], (shape labels') as [|m' sh'];
      simpl in *; try done.
    by subst. }
  reflexivity.
Qed.

End ChecklistRuns.

(** ** [save]: the folder and the summary file *)

Section SaveRuns.
Context {R : Type} `{!Runtime R}.

(** Where the summary is opened, for a folder name that is not empty. *)
Lemma summary_path_resolves (c : list string) (cd s : string) :
  s ≠ "" →
  PosixPath.resolve c (PosixPath.join cd (s +:+ "/") +:+ summary_file)
  = (PosixPath.resolve c (PosixPath.join cd s) ++ [summary_file])%list.
Proof.
  intros Hs. rewrite (join_with_sep _ _ Hs), append_assoc.
  apply resolve_child; try done. by apply join_nonempty.
Qed.

Lemma summary_path_nonempty (cd s : string) :
  s ≠ "" → PosixPath.join cd (s +:+ "/") +:+ summary_file ≠ "".
Proof.
  intros Hs. rewrite (join_with_sep _ _ Hs).
  apply append_nonempty, append_nonempty. by apply join_nonempty.
Qed.

(** [save] from the assignment of [fullfilepath] to the opening of the
    summary file, after a folder step that returned. *)
Lemma save_summary_opens (name : pyval) (h ha : Heap R) (cd s : string) :
  save_folder name h = (Ok tt, ha) →
  self ha !! "currentdir" = Some (VStr cd) →
  self ha !! "folder_name" = Some (VStr s) →
  let ffp := PosixPath.join cd (s +:+ "/") in
  let hb := mkHeap (<["fullfilepath" := VStr ffp]> (self ha)) (arrays ha) (world ha) in
  save_summary name h
  = (q ← fs_update (open_w (ffp +:+ summary_file));
     for_fold hyperparameter_lines tt (λ line _, write_line q line)) hb.
Proof.
  intros Efolder Hcd Hfn ffp hb.
  unfold save_summary. rewrite (run_bind_ok _ _ _ _ _ Efolder).
  rewrite (run_bind_ok _ _ _ _ _ (run_self_get _ _ _ Hcd)).
  rewrite (run_bind_ok _ _ _ _ _ (run_self_get _ _ _ Hfn)).
  rewrite run_bind, run_lift. simpl py_add_str. cbv iota.
  rewrite run_bind, run_lift, os_path_join_str. cbv iota.
  rewrite run_bind, run_self_set. cbv iota. fold ffp hb.
  unfold save_hyperparameter.
  erewrite run_bind_ok; [|apply run_self_get; simpl; apply lookup_insert_eq].
  rewrite run_bind, run_lift. simpl py_add_str. cbv iota.
  rewrite run_bind, run_lift. simpl py_path. cbv iota.
  reflexivity.
Qed.


(** The summary is written, after a folder step that returned with the
    folder in place. *)
Lemma save_summary_run (name : pyval) (h ha : Heap R) (cd s : string) :
  save_folder name h = (Ok tt, ha) →
  self ha !! "currentdir" = Some (VStr cd) →
  self ha !! "folder_name" = Some (VStr s) →
  s ≠ "" →
  Forall (λ lab : string * string, is_Some (self ha !! lab.2)) summary_labels →
  let folder := PosixPath.resolve (cwd (fs (world ha))) (PosixPath.join cd s) in
  is_dir (fs (world ha)) folder = true →
  is_dir (fs (world ha)) (folder ++ [summary_file]) = false →
  ∃ h', save_summary name h = (Ok tt, h')
        ∧ self h' = <["fullfilepath" := VStr (PosixPath.join cd (s +:+ "/"))]> (self ha)
        ∧ cwd (fs (world h')) = cwd (fs (world ha))
        ∧ nodes (fs (world h'))
          = <[(folder ++ [summary_file])%list := File (summary_text (self h'))]>
              (nodes (fs (world ha))).
Proof.
  intros Efolder Hcd Hfn Hs Hattrs folder Hdir Hfree.
  rewrite (save_summary_opens name h ha cd s Efolder Hcd Hfn).
  set (ffp := PosixPath.join cd (s +:+ "/")).
  set (hb := mkHeap (<["fullfilepath" := VStr ffp]> (self ha)) (arrays ha) (world ha)).
  set (q := (folder ++ [summary_file])%list) in *.
  set (fs1 := mkFS (cwd (fs (world ha))) (<[q := File ""]> (nodes (fs (world ha))))).
  assert (open_w (ffp +:+ summary_file) (fs (world ha)) = Ok (q, fs1)) as Hopen.
  { unfold open_w, ffp. rewrite (summary_path_resolves _ _ _ Hs).
    rewrite bool_decide_eq_false_2 by by apply summary_path_nonempty.
    fold folder q. rewrite Hfree. unfold q at 1 2. rewrite removelast_last.
    by rewrite (is_dir_not_file _ _ Hdir), Hdir. }
  set (hc := mkHeap (self hb) (arrays hb) (mkWorld (stdout (world ha)) fs1 (rt (world ha)))).
  destruct (write_lines_run hyperparameter_lines summary_labels hc q ""
              hyperparameter_lines_labels) as (h' & Elines & Hs' & Hc' & Hn').
  { eapply Forall_impl; [exact Hattrs|]. intros lab [v Hv]. simpl.
    apply lookup_insert_is_Some'. right. eauto. }
  { simpl. apply lookup_insert_eq. }
  exists h'. split.
  { assert (fs_update (open_w (ffp +:+ summary_file)) hb = (Ok q, hc)) as Hupd.
    { unfold fs_update. simpl world. by rewrite Hopen. }
    rewrite (run_bind_ok _ _ _ _ _ Hupd). exact Elines. }
  split; [by rewrite Hs'|]. split; [by rewrite Hc'|].
  rewrite Hn'. simpl. rewrite insert_insert_eq. by rewrite Hs'.
Qed.

Lemma read_file_insert (f : FS) (q : list string) (text : string)
  (m : gmap (list string) node) :
  q ≠ [] → nodes f = <[q := File text]> m → read_file f q = Some text.
Proof.
  intros Hq Hn. unfold read_file, is_root.
  rewrite bool_decide_eq_false_2 by done. by rewrite Hn, lookup_insert_eq.
Qed.


Lemma is_dir_other (f f' : FS) (q q' : list string) (n : node) :
  q ≠ q' → nodes f' = <[q := n]> (nodes f) → is_dir f' q' = is_dir f q'.
Proof. intros Hne Hn. unfold is_dir. by rewrite Hn, lookup_insert_ne. Qed.

Lemma child_ne (q : list string) (name : string) : (q ++ [name])%list ≠ q.
Proof.
  intros E. apply (f_equal length) in E. rewrite length_app in E. simpl in E. lia.
Qed.

Lemma child_nonempty (q : list string) (name : string) : (q ++ [name])%list ≠ [].
Proof. by destruct q. Qed.

(** X8: the folder name is remembered.  On an object whose [folder_name]
    is a string, [save()] without a name does what [save(name)] with that
    string does. *)
Theorem save_remembers_name (s : string) (model_plot : pyval) (h : Heap R) :
  self h !! "folder_name" = Some (VStr s) →
  save VNone model_plot h = save (VStr s) model_plot h.
Proof.
  intros Hfn.
  assert (save_folder VNone h = save_folder (VStr s) h) as E.
  { unfold save_folder.
    rewrite !(run_bind_ok _ _ _ _ _ (run_self_get _ _ _ Hfn)).
    cbn [is_None andb negb]. rewrite !(run_bind _ _ h), run_self_set.
    change ((mret tt : Py R unit) h) with (Ok tt, h).
    rewrite insert_id by done. by rewrite heap_eta. }
  unfold save, save_summary. rewrite !(run_bind _ _ h), E. reflexivity.
Qed.





End SaveRuns.

Section SaveCalls.
Context {R : Type} `{!Runtime R}.

(** [save] under a name that is not empty, up to the end of the [with]
    block. *)
Lemma save_named_run (h : Heap R) (cd s : string) :
  s ≠ "" →
  self h !! "currentdir" = Some (VStr cd) →
  Forall (λ lab : string * string, is_Some (self h !! lab.2)) summary_labels →
  folder_ready (fs (world h)) (PosixPath.join cd s) →
  let folder := PosixPath.resolve (cwd (fs (world h))) (PosixPath.join cd s) in
  is_dir (fs (world h)) (folder ++ [summary_file]) = false →
  ∃ h', save_summary (VStr s) h = (Ok tt, h')
        ∧ self h' = <["fullfilepath" := VStr (PosixPath.join cd (s +:+ "/"))]>
                      (<["folder_name" := VStr s]> (self h))
        ∧ cwd (fs (world h')) = cwd (fs (world h))
        ∧ is_dir (fs (world h')) folder = true
        ∧ read_file (fs (world h')) (folder ++ [summary_file])
          = Some (summary_text (self h')).
Proof.
  intros Hs Hcd Hattrs Hready folder Hfree.
  assert (is_Some (self h !! "folder_name")) as Hfn.
  { rewrite Forall_forall in Hattrs.
    apply (Hattrs ("folder name: ", "folder_name")).
    unfold summary_labels. set_solver. }
  destruct (save_folder_ready h cd s summary_file Hfn Hcd Hs Hready Hfree)
    as (ha & Efolder & Hsa & Hcwd & Hdir & Hfree').
  fold folder in Hdir, Hfree'.
  destruct (save_summary_run (VStr s) h ha cd s Efolder)
    as (h' & E & Hs' & Hc' & Hn'); try done.
  { rewrite Hsa. by rewrite lookup_insert_ne. }
  { rewrite Hsa. apply lookup_insert_eq. }
  { eapply Forall_impl; [exact Hattrs|]. intros lab [v Hv]. simpl.
    rewrite Hsa. apply lookup_insert_is_Some'. right. eauto. }
  { by rewrite Hcwd. }
  { by rewrite Hcwd. }
  rewrite Hcwd in Hn'. fold folder in Hn'.
  exists h'. split; [done|]. split; [by rewrite Hs', Hsa|].
  split; [congruence|]. split.
  - rewrite (is_dir_other (fs (world ha)) _ _ folder _ (child_ne _ _) Hn'). done.
  - eapply read_file_insert; [apply child_nonempty | exact Hn'].
Qed.



(** What a [save] under a name has assigned when its summary is written. *)
Lemma save_summary_inv (h h1 : Heap R) (s : string) :
  save_summary (VStr s) h = (Ok tt, h1) →
  ∃ cd, self h !! "currentdir" = Some (VStr cd)
        ∧ self h1 = <["fullfilepath" := VStr (PosixPath.join cd (s +:+ "/"))]>
                      (<["folder_name" := VStr s]> (self h)).
Proof.
  intros Hsum. unfold save_summary in Hsum.
  apply run_bind_inv in Hsum as ([] & ha & Hfolder & Hsum).
  destruct (save_folder_inv _ _ _ Hfolder) as (cd & Hcd & Hsa & _).
  exists cd. split; [done|].
  assert (self ha !! "currentdir" = Some (VStr cd)) as Hcda.
  { rewrite Hsa. by rewrite lookup_insert_ne. }
  assert (self ha !! "folder_name" = Some (VStr s)) as Hfna.
  { rewrite Hsa. apply lookup_insert_eq. }
  rewrite (run_bind_ok _ _ _ _ _ (run_self_get _ _ _ Hcda)) in Hsum.
  rewrite (run_bind_ok _ _ _ _ _ (run_self_get _ _ _ Hfna)) in Hsum.
  rewrite run_bind, run_lift in Hsum. simpl py_add_str in Hsum. cbv iota in Hsum.
  rewrite run_bind, run_lift, os_path_join_str in Hsum. cbv iota in Hsum.
  rewrite run_bind, run_self_set in Hsum. cbv iota in Hsum.
  match type of Hsum with
  | save_hyperparameter ?hb = _ =>
      pose proof (save_hyperparameter_self (λ d, d = self hb) hb eq_refl) as Hs
  end.
  unfold on_self in Hs. rewrite Hsum in Hs. simpl in Hs. by rewrite Hs, Hsa.
Qed.

(** X22: the diagram goes where the summary went.  After the summary of
    [save(name)] is written, [plot_model] asks the renderer for the file
    [model.png] under the [fullfilepath] that call assigned,
    [os.path.join(currentdir, name + '/')], with [show_shapes=True], and
    catches what the renderer raises. *)
Theorem save_plots_into_folder (h h1 : Heap R) (s : string) (keras_model : pyval) :
  save_summary (VStr s) h = (Ok tt, h1) →
  self h !! "keras_model" = Some keras_model →
  ∃ cd,
    self h !! "currentdir" = Some (VStr cd)
    ∧ plot_model h1
      = try_except
          (call (keras_plot_model keras_model true
                   (VStr (PosixPath.join cd (s +:+ "/") +:+ "model.png"))))
          is_Exception (print plot_model_warning) h1.
Proof.
  intros Hsum Hkm.
  destruct (save_summary_inv h h1 s Hsum) as (cd & Hcd & Hs1).
  exists cd. split; [done|].
  assert (self h1 !! "fullfilepath" = Some (VStr (PosixPath.join cd (s +:+ "/"))))
    as Hffp by (rewrite Hs1; apply lookup_insert_eq).
  assert (self h1 !! "keras_model" = Some keras_model) as Hkm1.
  { rewrite Hs1. by rewrite !lookup_insert_ne. }
  unfold plot_model, try_except. f_equal.
  unfold render_model.
  rewrite (run_bind_ok _ _ _ _ _ (run_self_get _ _ _ Hffp)). cbn [is_None negb].
  rewrite (run_bind_ok _ _ _ _ _ (run_self_get _ _ _ Hkm1)).
  rewrite (run_bind_ok _ _ _ _ _ (run_self_get _ _ _ Hffp)).
  reflexivity.
Qed.

End SaveCalls.

(** ** The directory the object was made in *)

Section WorkingDirectory.
Import PosixPath.

Lemma plain_startswith (c : string) : plain_name c → startswith_sep c = false.
Proof.
  intros (Hne & _ & _ & Hsp). destruct c as [|x c]; [done|]. simpl in *.
  destruct (is_sep x); [|done]. by injection Hsp.
Qed.

Lemma split_plain_endswith (c : string) : split c = [c] → endswith_sep c = false.
Proof.
  induction c as [|x c IH]; [done|]. simpl.
  destruct (is_sep x) eqn:Hx; [by intros [= ?]|].
  destruct (split c) as [|p t] eqn:Hc; [by destruct (split_nonempty c)|].
  intros [= -> ->]. destruct c; [done|]. by apply IH.
Qed.

Lemma endswith_sep_append (a b : string) :
  b ≠ "" → endswith_sep (a +:+ b) = endswith_sep b.
Proof.
  intros Hb. induction a as [|x a IH]; [done|].
  rewrite append_cons. simpl.
  destruct (a +:+ b) eqn:E; [|done].
  destruct a; [by destruct b | done].
Qed.

Lemma dirs_endswith (c : string) (l : list string) :
  Forall plain_name (c :: l) → endswith_sep (dirs (c :: l)) = false.
Proof.
  revert c. induction l as [|c' l IH]; intros c [Hc Hl]%Forall_cons.
  - change (dirs [c]) with (("/" +:+ c) +:+ ""). rewrite append_empty_r.
    destruct Hc as (Hne & _ & _ & Hsp).
    rewrite endswith_sep_append by done. by apply split_plain_endswith.
  - change (dirs (c :: c' :: l)) with ("/" +:+ c +:+ dirs (c' :: l)).
    rewrite <- append_assoc. rewrite endswith_sep_append; [by apply IH|].
    by simpl.
Qed.

Lemma split_dirs (c : string) (l : list string) (s : string) :
  plain_name c → Forall plain_name l → plain_name s →
  split (c +:+ dirs l +:+ "/" +:+ s) = (c :: l ++ [s])%list.
Proof.
  intros Hc Hl Hs. revert c Hc. induction Hl as [|c' l Hc' Hl IH]; intros c Hc.
  - change (c +:+ dirs [] +:+ "/" +:+ s) with (c +:+ "/" +:+ s).
    rewrite split_append_sep.
    destruct Hc as (_ & _ & _ & ->). by destruct Hs as (_ & _ & _ & ->).
  - change (c +:+ dirs (c' :: l) +:+ "/" +:+ s)
      with (c +:+ "/" +:+ ((c' +:+ dirs l) +:+ "/" +:+ s)).
    rewrite split_append_sep, append_assoc, (IH c' Hc').
    by destruct Hc as (_ & _ & _ & ->).
Qed.

Lemma walk_plain (stack l : list string) :
  Forall plain_name l → fold_left walk l stack = (stack ++ l)%list.
Proof.
  intros Hl. revert stack. induction Hl as [|c l (H1 & H2 & H3 & _) _ IH];
    intros stack; simpl.
  - by rewrite app_nil_r.
  - unfold walk at 2. rewrite !bool_decide_eq_false_2 by done. simpl.
    rewrite IH. by rewrite <- app_assoc.
Qed.

(** A plain name joined to the path [os.getcwd] gave names the entry of
    that name in that directory, whatever the working directory has
    become. *)
Lemma getcwd_join_resolves (f : FS) (now : list string) (s : string) :
  Forall plain_name (cwd f) → plain_name s →
  resolve now (join (os_getcwd f) s) = (cwd f ++ [s])%list.
Proof.
  intros Hl Hs. pose proof (plain_startswith s Hs) as Hstart.
  unfold os_getcwd. destruct (cwd f) as [|c l] eqn:Hcwd.
  - unfold join. rewrite Hstart. simpl.
    unfold resolve. simpl. change ("" +:+ s) with s.
    destruct Hs as (H1 & H2 & H3 & ->). simpl.
    unfold walk.
    rewrite (bool_decide_eq_false_2 (s = "")), (bool_decide_eq_false_2 (s = ".")),
      (bool_decide_eq_false_2 (s = "..")) by done.
    reflexivity.
  - fold (dirs (c :: l)). unfold join. rewrite Hstart.
    rewrite (dirs_endswith c l Hl), orb_false_r.
    rewrite bool_decide_eq_false_2 by done.
    unfold resolve.
    change (dirs (c :: l) +:+ "/" +:+ s) with ("/" +:+ (c +:+ dirs l) +:+ "/" +:+ s).
    cbn [startswith_sep].
    change (is_sep "/") with true. cbv iota.
    change ("/" +:+ (c +:+ dirs l) +:+ "/" +:+ s)
      with ("" +:+ "/" +:+ ((c +:+ dirs l) +:+ "/" +:+ s)).
    rewrite split_append_sep, append_assoc.
    apply Forall_cons in Hl as [Hc Hl].
    rewrite (split_dirs c l s Hc Hl Hs).
    change (fold_left walk (c :: l ++ [s]) [] = (c :: l ++ [s])%list).
    apply (walk_plain [] (c :: l ++ [s])).
    apply Forall_cons. split; [done|]. apply Forall_app. split; [done|].
    by apply Forall_singleton.
Qed.

End WorkingDirectory.

Section FreshObject.
Context {R : Type} `{!Runtime R}.

Lemma init_summary_attributes (env : NeuralNetMaster.environment) (f : FS) :
  Forall (λ lab : string * string, is_Some (__init__ env f !! lab.2)) summary_labels.
Proof. repeat constructor; vm_compute; eauto. Qed.

Lemma init_currentdir (env : NeuralNetMaster.environment) (f : FS) :
  __init__ env f !! "currentdir" = Some (VStr (os_getcwd f)).
Proof. vm_compute. reflexivity. Qed.

(** X14: [__init__] records the working directory as an absolute path,
    and [save] joins the folder name to it.  An object saved under a plain
    name gets its folder and its summary below the directory it was made
    in, whatever the working directory is at the time of the call; the
    attributes [__init__] assigns are all the summary needs. *)
Theorem save_below_construction_directory (env : NeuralNetMaster.environment)
  (made : FS) (h : Heap R) (s : string) :
  self h = __init__ env made →
  Forall plain_name (cwd made) →
  plain_name s →
  let folder := (cwd made ++ [s])%list in
  location_ready (fs (world h)) folder →
  is_dir (fs (world h)) (folder ++ [summary_file]) = false →
  ∃ h', save_summary (VStr s) h = (Ok tt, h')
        ∧ is_dir (fs (world h')) folder = true
        ∧ read_file (fs (world h')) (folder ++ [summary_file])
          = Some (summary_text (self h')).
Proof.
  intros Hself Hcwd Hs folder Hready Hfree.
  pose proof (getcwd_join_resolves made (cwd (fs (world h))) s Hcwd Hs) as Hres.
  assert (s ≠ "") as Hne by apply Hs.
  destruct (save_named_run h (os_getcwd made) s Hne)
    as (h' & E & _ & _ & Hdir & Hread).
  - rewrite Hself. apply init_currentdir.
  - rewrite Hself. apply init_summary_attributes.
  - unfold folder_ready. rewrite Hres. fold folder.
    destruct Hready as [Hd|(Hd & Hf & Ha)]; [by left|right].
    split; [|done]. unfold os_path_exists. rewrite Hres. fold folder.
    by rewrite Hd, Hf, andb_false_r.
  - rewrite Hres. exact Hfree.
  - rewrite Hres in Hdir, Hread. eauto.
Qed.

Lemma init_defaults (env : NeuralNetMaster.environment) (f : FS) :
  __init__ env f !! "val_size" = Some VNone
  ∧ __init__ env f !! "fallback_cpu" = Some (VBool false)
  ∧ __init__ env f !! "limit_gpu_mem" = Some (VBool true)
  ∧ __init__ env f !! "log_device_placement" = Some (VBool false).
Proof. repeat split; vm_compute; reflexivity. Qed.

(** X23: the defaults of [__init__] are enough for the checklist.  On an
    object as [__init__] leaves it, with input data that has a first axis
    of length [n], the checklist returns as soon as
    [gpu_memory_manage(log_device_placement=False)] does ([cpu_fallback] is
    not called): all [n] examples are training data, [val_size] and
    [val_num] are [0], and the report says so. *)
Theorem checklist_on_fresh_object (env : NeuralNetMaster.environment) (made : FS)
  (input_data labels : ndarray) (h : Heap R) (n : nat) (rest : list nat) :
  self h = __init__ env made →
  shape input_data = n :: rest →
  (∀ w, is_Ok (gpu_memory_manage None (VBool false) w).1 = true) →
  ∃ h', pre_training_checklist_master input_data labels h = (Ok tt, h')
        ∧ self h' !! "val_size" = Some (VInt 0)
        ∧ self h' !! "val_num" = Some (VInt 0)
        ∧ self h' !! "num_train" = Some (VInt (Z.of_nat n))
        ∧ last (stdout (world h')) = Some (counts_line (Z.of_nat n) 0).
Proof.
  intros Hself Hsh Hgpu.
  destruct (init_defaults env made) as (Hvs & Hcpu & Hlimit & Hldp).
  rewrite <- Hself in Hvs, Hcpu, Hlimit, Hldp.
  rewrite (checklist_steps input_data labels h n rest VNone (VInt 0) 0 Hsh Hvs).
  2:{ simpl. by rewrite Z.mul_0_r. }
  2:{ reflexivity. }
  destruct (checklist_fields_counts input_data labels (Z.of_nat n) 0 VNone (self h))
    as (Hnt & Hvn & Hvs').
  rewrite Z.sub_0_r in Hnt.
  set (d' := with_labels_shape labels _) in *.
  set (h3 := mkHeap d' (arrays h) (world h)).
  assert (∀ k, k ∉ checklist_fields → self h3 !! k = self h !! k) as Hother.
  { intros k Hk. unfold h3, d'. cbn [self]. by rewrite checklist_fields_other. }
  assert (cpu_gpu_check h3 = call (gpu_memory_manage None (VBool false)) h3) as Hcheck.
  { unfold cpu_gpu_check.
    erewrite run_bind_ok;
      [|apply run_self_get; rewrite Hother by compute_done; exact Hcpu].
    cbn [is_True]. rewrite run_bind.
    change ((mret tt : Py R unit) h3) with (Ok tt, h3). cbv iota.
    erewrite run_bind_ok;
      [|apply run_self_get; rewrite Hother by compute_done; exact Hlimit].
    cbn [is_True].
    erewrite run_bind_ok;
      [|apply run_self_get; rewrite Hother by compute_done; exact Hldp].
    reflexivity. }
  rewrite run_bind, Hcheck. unfold call. specialize (Hgpu (world h3)).
  destruct (gpu_memory_manage None (VBool false) (world h3)) as [[[]|e] w'];
    [|discriminate].
  set (h4 := mkHeap (self h3) (arrays h3) w').
  unfold report_counts.
  rewrite (run_bind_ok _ _ _ _ _ (run_self_get "num_train" _ h4 Hnt)).
  rewrite (run_bind_ok _ _ _ _ _ (run_self_get "val_num" _ h4 Hvn)).
  rewrite run_bind, run_lift, report_counts_format. cbv iota.
  exists (printed (counts_line (Z.of_nat n) 0) h4).
  split; [reflexivity|].
  split; [exact Hvs'|]. split; [exact Hvn|]. split; [exact Hnt|].
  unfold printed. cbn [world stdout]. apply last_snoc.
Qed.

End FreshObject.

(** ** [plot_model]: errors before the rendering *)

Section PlotModelMore.
Context {R : Type} `{!Runtime R}.

(** X15: the [try] block of [plot_model] holds the building of the file
    name too.  With a [fullfilepath] that is neither [None] nor a string (a
    number, a tuple), [fullfilepath + 'model.png'] raises [TypeError]
    inside the block: the renderer is not called, and the console gets the
    warning about graphviz and pydot. *)
Theorem plot_model_swallows_path_error (h : Heap R) (v : pyval) :
  self h !! "fullfilepath" = Some v →
  is_Some (self h !! "keras_model") →
  is_None v = false → (∀ s, v ≠ VStr s) → (∀ o, v ≠ VObj o) →
  plot_model h = (Ok tt, printed plot_model_warning h).
Proof.
  intros Hv [m Hm] Hnone Hstr Hobj.
  assert (render_model h = (Raise (unsupported_operands "+" v (VStr "model.png")), h))
    as Hrender.
  { unfold render_model.
    rewrite (run_bind_ok _ _ _ _ _ (run_self_get _ _ _ Hv)), Hnone.
    cbn [negb].
    rewrite (run_bind_ok _ _ _ _ _ (run_self_get _ _ _ Hm)).
    rewrite (run_bind_ok _ _ _ _ _ (run_self_get _ _ _ Hv)).
    rewrite run_bind, run_lift.
    destruct v; try done; [by destruct (Hstr s) | by destruct (Hobj o)]. }
  unfold plot_model, try_except. rewrite Hrender. reflexivity.
Qed.

End PlotModelMore.

(** ** [jacobian]: the input layer, the attributes, the result *)

Section JacobianMore.
Context {R : Type} `{!Runtime R}.

Lemma jacobian_prepare_lookup (x : positive) :
  jacobian_prepare x
  = (a ← load x;
     x_data ← alloc a;
     a ← load x_data;
     input_mean_norm ← self_get "input_mean_norm";
     a ← lift (np_isub a input_mean_norm);
     store x_data a;;
     a ← load x_data;
     input_std_norm ← self_get "input_std_norm";
     a ← lift (np_itruediv a input_std_norm);
     store x_data a;;
     a ← load x_data;
     '(input_tens, input_shape_expectation) ← find_input_layer;
     start_time ← call time_time;
     mret (Np.atleast_3d a, input_tens, input_shape_expectation, start_time) : Py R _).
Proof. reflexivity. Qed.

(** X16: when [keras_model_predict] is not a model ([None], as
    [__init__] leaves it), reading its input layer raises
    [AttributeError], and the input tensor and the expected shape are
    those of [keras_model], read in the state of the call. *)
Theorem input_layer_falls_back (h : Heap R) (v : pyval) :
  self h !! "keras_model_predict" = Some v →
  (∀ o, v ≠ VObj o) →
  find_input_layer h = input_layer "keras_model" h.
Proof.
  intros Hv Hobj. unfold find_input_layer, try_except.
  assert (input_layer "keras_model_predict" h = (Raise (no_attribute v "get_layer"), h))
    as ->.
  { unfold input_layer.
    rewrite (run_bind_ok _ _ _ _ _ (run_self_get _ _ _ Hv)).
    rewrite run_bind. destruct v; try done. by destruct (Hobj o). }
  reflexivity.
Qed.

(** *** The object is only read *)

Lemma on_self_input_layer Q model : stable (on_self Q) (input_layer model : Py R _).
Proof. unfold input_layer. repeat stable_step. Qed.

Lemma on_self_jacobian_prepare Q x : stable (on_self Q) (jacobian_prepare x : Py R _).
Proof.
  pose proof on_self_input_layer. unfold jacobian_prepare. repeat stable_step.
Qed.

Lemma on_self_jacobian_compute Q x mean_output x_data t e s :
  stable (on_self Q) (jacobian_compute x mean_output x_data t e s : Py R _).
Proof.
  unfold jacobian_compute, report_progress, gradients_round3, gradients_round4,
    gradient_tensor, run_gradient.
  repeat stable_step.
Qed.

(** X18: [jacobian] assigns no attribute: however it ends, the attributes
    of the object are those of before the call. *)
Theorem jacobian_keeps_attributes (x : option positive) (mean_output : pyval)
  (h : Heap R) :
  self (jacobian x mean_output h).2 = self h.
Proof.
  assert (stable (on_self (λ d, d = self h)) (jacobian x mean_output : Py R _)) as Hst.
  { pose proof on_self_jacobian_prepare. pose proof on_self_jacobian_compute.
    unfold jacobian. destruct x; repeat stable_step. }
  exact (Hst h eq_refl).
Qed.

(** *** What [jacobian] returns *)

Lemma report_progress_never_returns (j : nat) (t : spec_float) (h h' : Heap R) :
  report_progress j t h ≠ (Ok tt, h').
Proof.
  unfold report_progress. rewrite run_bind. unfold self_get.
  destruct (self h !! "labels_shape") as [v|]; [|done]. cbv beta iota.
  rewrite run_bind. unfold call.
  destruct (time_time (world h)) as [[now|e] w']; [|done].
  rewrite run_bind, run_lift, progress_format_raises. done.
Qed.

(** The loop over the output units returns only when there is no unit. *)
Lemma units_loop_returns (js : list nat) (acc J : ndarray) (t : spec_float)
  (rest : nat → ndarray → Py R ndarray) (h h' : Heap R) :
  for_fold js acc (λ j jacobian, report_progress j t;; rest j jacobian) h = (Ok J, h') →
  js = [] ∧ J = acc.
Proof.
  destruct js as [|j js].
  - by intros [= -> ->].
  - rewrite for_fold_cons, run_bind, run_bind.
    destruct (report_progress j t h) as [[[]|e] h0] eqn:E; [|done].
    by apply report_progress_never_returns in E.
Qed.

Lemma no_units (v : pyval) (l : nat) :
  dimension v = Ok l → py_range v = Ok [] → l = 0%nat.
Proof.
  intros Hd Hr. pose proof (py_range_dimension v l [] Hd Hr) as E.
  by destruct l.
Qed.

(** X20: [jacobian] never returns a gradient.  Every round of the loop
    over the output units starts with the progress report, which does not
    return; so a call that returns has run no round, and the array it
    returns has no element. *)
Theorem jacobian_returns_no_gradient (x : option positive) (mean_output : pyval)
  (h h' : Heap R) (J : ndarray) :
  jacobian x mean_output h = (Ok J, h') → data J = [].
Proof.
  destruct x as [x|]; [|discriminate]. unfold jacobian. intros H.
  apply run_bind_inv in H as ([[[x_data t] e] s] & h1 & _ & H).
  unfold jacobian_compute in H. undo_step H.
  destruct (bool_decide (_ = 3%nat)); [|destruct (bool_decide (_ = 4%nat))].
  - cbv zeta in H. do 6 undo_step H.
    apply run_bind_inv in H as (J0 & h2 & Hloop & H).
    apply units_loop_returns in Hloop as [-> ->].
    match goal with
    | Hd : dimension _ = Ok ?l |- _ =>
        assert (l = 0%nat) as -> by (eapply no_units; [exact Hd | congruence])
    end.
    destruct (is_True mean_output).
    + apply lift_inv in H as [H _]. unfold Np.mean in H. simpl in H.
      by injection H as <-.
    + by injection H as <-.
  - do 9 undo_step H.
    apply run_bind_inv in H as (J0 & h2 & Hloop & H).
    apply units_loop_returns in Hloop as [-> ->].
    match goal with
    | Hd : dimension _ = Ok ?l |- _ =>
        assert (l = 0%nat) as -> by (eapply no_units; [exact Hd | congruence])
    end.
    destruct (is_True mean_output).
    + apply lift_inv in H as [H _]. unfold Np.mean in H. simpl in H.
      by injection H as <-.
    + by injection H as <-.
  - discriminate.
Qed.

End JacobianMore.

Section JacobianLabels.
Context {R : Type} `{!Runtime R}.

Lemma jacobian_prepare_rank (x : positive) (h h1 : Heap R) (x_data : ndarray)
  (t e : pyval) (s : spec_float) :
  jacobian_prepare x h = (Ok (x_data, t, e, s), h1) →
  ∃ d0 d1 d2 rest, shape x_data = d0 :: d1 :: d2 :: rest.
Proof.
  unfold jacobian_prepare. intros H.
  do 11 (apply run_bind_inv in H as (? & ? & _ & H)). cbv zeta in H.
  apply run_bind_inv in H as ([t' e'] & ? & _ & H).
  apply run_bind_inv in H as (? & ? & _ & H).
  injection H as <- _ _ _ _. apply atleast_3d_shape.
Qed.

(** X19: [jacobian] needs [labels_shape] to be an integer.  With the
    tuple the checklist stores for labels of rank 3 or 4, or with [None],
    [np.ones] raises [TypeError] before any gradient is requested. *)
Theorem jacobian_needs_integer_labels_shape (x : positive) (mean_output : pyval)
  (h h1 : Heap R) (x_data : ndarray) (input_tens expectation : pyval)
  (start_time : spec_float) (n : nat) (v : pyval) :
  jacobian_prepare x h = (Ok (x_data, input_tens, expectation, start_time), h1) →
  py_len expectation = Ok n →
  n = 3%nat ∨ n = 4%nat →
  self h !! "labels_shape" = Some v →
  as_int v = None → (∀ o, v ≠ VObj o) →
  jacobian (Some x) mean_output h = (Raise (not_an_integer v), h1).
Proof.
  intros Hprep Hlen Hn Hv Hint Hobj.
  assert (self h1 !! "labels_shape" = Some v) as Hv1.
  { pose proof (on_self_jacobian_prepare (λ d, d !! "labels_shape" = Some v) x h Hv)
      as Hs. unfold on_self in Hs. by rewrite Hprep in Hs. }
  assert (dimension v = Raise (not_an_integer v)) as Hdim.
  { unfold dimension. destruct v; try done. by destruct (Hobj o). }
  unfold jacobian. rewrite (run_bind_ok _ _ _ _ _ Hprep). cbv beta iota.
  unfold jacobian_compute. rewrite run_bind, run_lift, Hlen. cbv iota zeta.
  destruct Hn as [-> | ->].
  - rewrite bool_decide_eq_true_2 by reflexivity.
    rewrite (run_bind_ok _ _ _ _ _ (run_self_get _ _ _ Hv1)).
    destruct (atleast_3d_shape x_data) as (d0 & d1 & d2 & rest & Hsh).
    rewrite run_bind, run_lift. unfold Np.shape_at at 1. rewrite Hsh. simpl lookup.
    cbv iota.
    rewrite run_bind, run_lift. unfold Np.shape_at at 1. rewrite Hsh. simpl lookup.
    cbv iota.
    rewrite run_bind, run_lift, Hdim. reflexivity.
  - rewrite bool_decide_eq_false_2 by lia.
    rewrite bool_decide_eq_true_2 by reflexivity.
    destruct (jacobian_prepare_rank _ _ _ _ _ _ _ Hprep) as (d0 & d1 & d2 & rest & Hsh).
    rewrite run_bind, run_lift. unfold Np.newaxis3. rewrite Hsh. cbv iota.
    rewrite (run_bind_ok _ _ _ _ _ (run_self_get _ _ _ Hv1)).
    unfold Np.shape_at. simpl lookup. cbv iota.
    do 4 (rewrite run_bind, run_lift; cbv iota).
    rewrite run_bind, run_lift, Hdim. reflexivity.
Qed.

End JacobianLabels.

Section JacobianData.
Context {R : Type} `{!Runtime R}.

Lemma call_inv {A} (f : ext R A) (a : A) (h h' : Heap R) :
  call f h = (Ok a, h') → self h' = self h ∧ arrays h' = arrays h.
Proof. unfold call. destruct (f (world h)) as [r w]. by intros [= _ <-]. Qed.

(** X17: the data [jacobian] works on is the input centred, then scaled,
    then padded to rank 3: [(x - input_mean_norm) / input_std_norm] on a
    copy of [x], through [np.atleast_3d]. *)
Theorem jacobian_normalises_copy (x : positive) (a : ndarray) (h h1 : Heap R)
  (x_data : ndarray) (input_tens expectation : pyval) (start_time : spec_float) :
  arrays h !! x = Some a →
  jacobian_prepare x h = (Ok (x_data, input_tens, expectation, start_time), h1) →
  ∃ mean std centred scaled,
    self h !! "input_mean_norm" = Some mean
    ∧ self h !! "input_std_norm" = Some std
    ∧ np_isub a mean = Ok centred
    ∧ np_itruediv centred std = Ok scaled
    ∧ x_data = Np.atleast_3d scaled.
Proof.
  intros Hx H. unfold jacobian_prepare in H.
  rewrite (run_bind_ok (load x) _ h _ h eq_refl), Hx in H. simpl default in H.
  set (l := fresh (dom (arrays h))).
  rewrite (run_bind_ok (alloc a) _ h l
             (mkHeap (self h) (<[l := a]> (arrays h)) (world h)) eq_refl) in H.
  rewrite run_bind in H. unfold load at 1 in H. simpl arrays in H.
  rewrite lookup_insert_eq in H. simpl default in H.
  undo_step H. simpl in E. undo_step H.
  rewrite run_bind in H. unfold store at 1 in H. cbv beta iota in H.
  rewrite run_bind in H. unfold load at 1 in H. simpl arrays in H.
  rewrite lookup_insert_eq in H. simpl default in H.
  undo_step H. simpl in E1. undo_step H.
  rewrite run_bind in H. unfold store at 1 in H. cbv beta iota in H.
  rewrite run_bind in H. unfold load at 1 in H. simpl arrays in H.
  rewrite lookup_insert_eq in H. simpl default in H. cbv zeta in H.
  apply run_bind_inv in H as ([t' e'] & ? & _ & H).
  apply run_bind_inv in H as (? & ? & _ & H).
  injection H as <- _ _ _ _. eauto 10.
Qed.

End JacobianData.

(** ** The methods on concrete states *)

Section Concrete.

Lemma toy_device_calls_return : device_calls_return (R := Toy.config).
Proof. split; intros; reflexivity. Qed.

Lemma toy_clock_returns (w : World Toy.config) : is_Ok (time_time w).1 = true.
Proof. reflexivity. Qed.

Lemma toy_externals_keep (Q : FS → Prop) : save_externals_keep (R := Toy.config) Q.
Proof.
  repeat split; intros; intros w HQ; simpl; try done.
  by destruct (Toy.plot_failure (rt w)).
Qed.

Lemma toy_prepared3 :
  jacobian_prepare 1 (Toy.heap Toy.trained Toy.x2 Toy.config3) = Toy.prepared3.
Proof. vm_compute. reflexivity. Qed.

Lemma toy_prepared2 :
  jacobian_prepare 1 (Toy.heap Toy.trained Toy.x3 Toy.config2) = Toy.prepared2.
Proof. vm_compute. reflexivity. Qed.

Lemma toy_saved :
  save (VStr "run1") (VBool true) (Toy.heap Toy.trained Toy.x2 Toy.config3)
  = (Ok tt, Toy.saved).
Proof. vm_compute. reflexivity. Qed.

Lemma toy_gradients_available (x_data : ndarray) :
  gradients_available (R := Toy.config) Toy.trained (VObj 4) x_data
    (λ _ i, Toy.fed x_data i).
Proof.
  intros j [d a w] Hd. simpl in Hd. subst d.
  exists (VObj 6), (mkHeap Toy.trained a w).
  split; [by vm_compute|]. split; [done|].
  intros i x_in w' Hslice. exists w'.
  unfold Toy.fed. rewrite Hslice. reflexivity.
Qed.

(** The rounds on the two examples of [Toy.examples], for one output unit. *)
Example toy_rounds_fill :
  ∃ J h',
    for_fold (seq 0 1) (Np.ones [1; 2; 2]%nat)
      (gradients_round3 (VObj 4) Toy.examples)
      (Toy.heap Toy.trained Toy.x2 Toy.config3) = (Ok J, h')
    ∧ shape J = [1; 2; 2]%nat
    ∧ Np.get J [0; 0; 0]%nat = F32.cast Toy.half
    ∧ Np.get J [0; 1; 0]%nat = F32.cast Toy.quarter
    ∧ Np.get J [0; 0; 1]%nat = F32.cast Toy.tenth
    ∧ Np.get J [0; 1; 1]%nat = F32.cast Toy.minus_half.
Proof.
  destruct (gradient_rounds_fill (VObj 4) Toy.examples (λ _ i, Toy.fed Toy.examples i)
              1 2 2 [2; 1]%nat (Toy.heap Toy.trained Toy.x2 Toy.config3))
    as (J & h' & Hloop & Hshape & Hget).
  - apply toy_gradients_available.
  - intros _ i Hi. destruct i as [|[|i]]; [done|done|lia].
  - done.
  - exists J, h'. split; [done|]. split; [done|].
    rewrite !Hget by lia. done.
Defined.

Lemma toy_device_attributes (f : spec_float) : device_attributes (Toy.with_val_size f).
Proof. repeat split; vm_compute; eauto. Qed.

(** C1 at a concrete call: one example with two features, a model with one
    output unit whose input layer expects [(None, 2, 1)]. *)
Lemma jacobian_progress_report_raises_witness :
  ∃ e h', jacobian (Some 1%positive) (VBool false)
            (Toy.heap Toy.trained Toy.x2 Toy.config3) = (Raise e, h')
          ∧ exn_cls e = AttributeError.
Proof.
  eapply (jacobian_progress_report_raises (R := Toy.config) 1 (VBool false)
            (Toy.heap Toy.trained Toy.x2 Toy.config3) _ _ _ _ _ 1).
  - exact toy_prepared3.
  - reflexivity.
  - reflexivity.
  - lia.
  - exact toy_clock_returns.
Defined.

(** C3 as stated fails.  Data of rank 2 on a model that expects a shape of
    length 3 raises no [ValueError] (with one output unit the call ends in
    the [AttributeError] of the progress report, with none it returns);
    data of rank 3 on a model that expects a shape of length 2 raises the
    [ValueError] of the shape test. *)
Lemma jacobian_rank_of_data_counterexample :
  (Np.ndim Toy.x2 = 2%nat
   ∧ raised_class (jacobian (Some 1%positive) (VBool false)
                     (Toy.heap Toy.trained Toy.x2 Toy.config3)).1
     = Some AttributeError
   ∧ is_Ok (jacobian (Some 1%positive) (VBool false)
              (Toy.heap (<["labels_shape" := VInt 0]> Toy.trained) Toy.x2 Toy.config3)).1
     = true)
  ∧ (Np.ndim Toy.x3 = 3%nat
     ∧ (jacobian (Some 1%positive) (VBool false)
          (Toy.heap Toy.trained Toy.x3 Toy.config2)).1
       = Raise shape_mismatch).
Proof. vm_compute. repeat split. Qed.

Lemma jacobian_shape_error_iff_witness :
  (jacobian (Some 1%positive) (VBool false)
     (Toy.heap Toy.trained Toy.x3 Toy.config2)).1 = Raise shape_mismatch
  ↔ 2%nat ≠ 3%nat ∧ 2%nat ≠ 4%nat.
Proof.
  eapply (jacobian_shape_error_iff (R := Toy.config) 1 (VBool false)
            (Toy.heap Toy.trained Toy.x3 Toy.config2)).
  - exact toy_prepared2.
  - reflexivity.
  - intros o. discriminate.
  - exact toy_clock_returns.
Defined.

(** C4 as stated fails: with [val_size = -0.5] and one sample the product is
    [-0.5], whose floor is [-1]; the method stores [int(-0.5) = 0]. *)
Lemma split_floor_counterexample :
  let r := pre_training_checklist_master Toy.x2 Toy.x2 (Toy.with_val_size Toy.minus_half) in
  r.1 = Ok tt
  ∧ self r.2 !! "val_num" = Some (VInt 0)
  ∧ self r.2 !! "num_train" = Some (VInt 1)
  ∧ py_mul_int (R := Toy.config) 1 (VFloat Toy.minus_half) = Ok (VFloat Toy.minus_half)
  ∧ py_floor (VFloat Toy.minus_half) = Ok (-1).
Proof. vm_compute. repeat split. Qed.

Lemma checklist_split_counts_witness :
  ∃ h' val_num num_train,
    pre_training_checklist_master Toy.inputs Toy.labels (Toy.with_val_size Toy.tenth)
    = (Ok tt, h')
    ∧ self h' !! "val_num" = Some (VInt val_num)
    ∧ self h' !! "num_train" = Some (VInt num_train)
    ∧ val_num + num_train = 10
    ∧ py_int (R := Toy.config) (VFloat (S754_finite false 4503599627370496 (-52)))
      = Ok val_num
    ∧ (py_nonneg (VFloat (S754_finite false 4503599627370496 (-52))) = true →
       py_floor (VFloat (S754_finite false 4503599627370496 (-52))) = Ok val_num)
    ∧ (VFloat Toy.tenth = VNone → val_num = 0 ∧ num_train = 10).
Proof.
  eapply (checklist_split_counts (R := Toy.config) Toy.inputs Toy.labels
            (Toy.with_val_size Toy.tenth) 10 [3%nat] (VFloat Toy.tenth)
            (VFloat (S754_finite false 4503599627370496 (-52))) 1).
  - reflexivity.
  - vm_compute. reflexivity.
  - vm_compute. reflexivity.
  - vm_compute. reflexivity.
  - apply toy_device_attributes.
  - exact toy_device_calls_return.
Defined.

Lemma checklist_infers_shapes_witness :
  ∃ h',
    pre_training_checklist_master Toy.inputs Toy.labels (Toy.with_val_size Toy.tenth)
    = (Ok tt, h')
    ∧ self h' !! "input_shape" = Some (VTuple [VInt 3; VInt 1])
    ∧ self h' !! "labels_shape" = Some (VInt 2).
Proof.
  destruct (checklist_infers_shapes (R := Toy.config) Toy.inputs Toy.labels
              (Toy.with_val_size Toy.tenth) 10 [3%nat] (VFloat Toy.tenth)
              (VFloat (S754_finite false 4503599627370496 (-52))) 1
              eq_refl eq_refl eq_refl eq_refl
              (toy_device_attributes Toy.tenth) toy_device_calls_return)
    as (h' & E & H2 & _ & _ & _ & L2 & _).
  exists h'. split; [exact E|]. split.
  - exact (H2 3%nat eq_refl).
  - exact (L2 10%nat 2%nat eq_refl).
Defined.

(** C10 as stated fails: input data of rank 0 has no first axis, and
    reading [input_data.shape[0]] raises [IndexError]. *)
Lemma checklist_scalar_input_counterexample :
  Np.ndim Toy.scalar = 0%nat
  ∧ raised_class (pre_training_checklist_master Toy.scalar Toy.labels
                    (Toy.with_val_size Toy.tenth)).1
    = Some IndexError.
Proof. vm_compute. repeat split. Qed.

Lemma checklist_unhandled_rank_witness :
  ∃ h',
    pre_training_checklist_master (NDArray [10%nat] (replicate 10 Toy.half)) Toy.scalar
      (Toy.with_val_size Toy.tenth) = (Ok tt, h')
    ∧ self h' !! "input_shape" = Some VNone
    ∧ self h' !! "labels_shape" = Some (VInt 1)
    ∧ self h' !! "val_num" = Some (VInt 1)
    ∧ self h' !! "num_train" = Some (VInt 9).
Proof.
  destruct (checklist_unhandled_rank (R := Toy.config)
              (NDArray [10%nat] (replicate 10 Toy.half)) Toy.scalar
              (Toy.with_val_size Toy.tenth) 10 [] (VFloat Toy.tenth)
              (VFloat (S754_finite false 4503599627370496 (-52))) 1
              eq_refl eq_refl eq_refl eq_refl
              (toy_device_attributes Toy.tenth) toy_device_calls_return)
    as (h' & E & Hin & Hlab & Hv & Hn).
  exists h'. split; [exact E|]. split.
  - rewrite Hin by (vm_compute; discriminate). reflexivity.
  - split; [|split; [exact Hv | exact Hn]].
    rewrite Hlab by (vm_compute; discriminate). reflexivity.
Defined.

Lemma save_folder_idempotent_witness :
  save (VStr "run1") (VBool true) (Toy.heap Toy.trained Toy.x2 Toy.config3)
  = (Ok tt, Toy.saved)
  ∧ save_folder (VStr "run1") Toy.saved = (Ok tt, Toy.saved)
  ∧ self Toy.saved !! "folder_name" = Some (VStr "run1")
  ∧ self Toy.saved !! "fullfilepath" = Some (VStr "/home/user/run1/")
  ∧ self (save (VStr "run1") (VBool false) Toy.saved).2 = self Toy.saved.
Proof.
  destruct (save_folder_idempotent (R := Toy.config) "run1" (VBool true) (VBool false)
              (Toy.heap Toy.trained Toy.x2 Toy.config3) Toy.saved
              toy_saved (λ p, toy_externals_keep (path_exists p)))
    as (Hagain & Hfn & (cd & Hcd & Hffp) & Hself).
  split; [exact toy_saved|]. split; [exact Hagain|]. split; [exact Hfn|]. split.
  - vm_compute. reflexivity.
  - apply (Hself (save (VStr "run1") (VBool false) Toy.saved).1).
    by destruct (save _ _ Toy.saved).
Defined.

(** C7 as stated fails: a [KeyboardInterrupt] raised while the diagram is
    rendered is not caught; no warning is printed and [save] ends with it. *)
Lemma plot_model_keyboard_interrupt_counterexample :
  let h := Toy.heap Toy.trained Toy.x2 Toy.interrupted in
  raised_class (plot_model h).1 = Some KeyboardInterrupt
  ∧ stdout (world (plot_model h).2) = []
  ∧ raised_class (save (VStr "run1") (VBool true) h).1 = Some KeyboardInterrupt.
Proof. vm_compute. repeat split. Qed.

Lemma plot_model_catches_exceptions_witness :
  let h := Toy.heap Toy.trained Toy.x2 Toy.no_graphviz in
  plot_model h
  = (Ok tt, mkHeap (self h) (arrays h)
              (mkWorld [plot_model_warning] (fs (world h)) (rt (world h))))
  ∧ (save (VStr "run1") (VBool true) h).1 = Ok tt.
Proof.
  intros h. split.
  - apply (plot_model_catches_exceptions (R := Toy.config) h h
             (Exn ImportError "Failed to import pydot")); reflexivity.
  - vm_compute. reflexivity.
Defined.

Lemma jacobian_leaves_input_witness :
  let h := Toy.heap Toy.trained Toy.x2 Toy.config3 in
  is_Some (arrays h !! 1%positive)
  ∧ arrays (jacobian (Some 1%positive) (VBool false) h).2 !! 1%positive
    = arrays h !! 1%positive.
Proof.
  intros h.
  assert (is_Some (arrays h !! 1%positive)) as Hx by (vm_compute; eauto).
  split; [exact Hx|].
  exact (jacobian_leaves_input (R := Toy.config) 1 (VBool false) h Hx).
Defined.

End Concrete.

(** ** Further properties on concrete states *)

Section ConcreteProperties.


Lemma cpu_gpu_check_other_settings_witness :
  cpu_gpu_check Toy.int_limit = (Ok tt, Toy.int_limit).
Proof.
  apply (cpu_gpu_check_other_settings (R := Toy.config) Toy.int_limit
           (VBool false) (VInt 1)); reflexivity.
Defined.

Lemma checklist_keeps_other_attributes_witness :
  let h := Toy.with_val_size Toy.tenth in
  let h' := (pre_training_checklist_master Toy.inputs Toy.labels h).2 in
  self h' !! "batch_size" = self h !! "batch_size" ∧ arrays h' = arrays h.
Proof.
  intros h.
  apply (checklist_keeps_other_attributes (R := Toy.config) Toy.inputs Toy.labels h
           "batch_size").
  unfold checklist_fields. intros Hin.
  repeat (apply elem_of_cons in Hin as [Hin|Hin]; [discriminate|]).
  by apply elem_of_nil in Hin.
Defined.

Lemma checklist_prints_counts_witness :
  ∃ h', pre_training_checklist_master Toy.inputs Toy.labels (Toy.with_val_size Toy.tenth)
        = (Ok tt, h')
        ∧ last (stdout (world h'))
          = Some "Number of Training Data: 9, Number of Validation Data: 1".
Proof.
  apply (checklist_prints_counts (R := Toy.config) Toy.inputs Toy.labels
           (Toy.with_val_size Toy.tenth) 10 [3%nat] (VFloat Toy.tenth)
           (VFloat (S754_finite false 4503599627370496 (-52))) 1).
  - reflexivity.
  - vm_compute. reflexivity.
  - vm_compute. reflexivity.
  - vm_compute. reflexivity.
  - apply toy_device_attributes.
  - exact toy_device_calls_return.
Defined.

Lemma checklist_idempotent_witness :
  ∃ h1 h2,
    pre_training_checklist_master Toy.inputs Toy.labels (Toy.with_val_size Toy.tenth)
    = (Ok tt, h1)
    ∧ pre_training_checklist_master Toy.inputs Toy.labels h1 = (Ok tt, h2)
    ∧ self h2 = self h1.
Proof.
  apply (checklist_idempotent (R := Toy.config) Toy.inputs Toy.labels
           (Toy.with_val_size Toy.tenth) 10 [3%nat] (VFloat Toy.tenth)
           (VFloat (S754_finite false 4503599627370496 (-52))) 1).
  - reflexivity.
  - vm_compute. reflexivity.
  - vm_compute. reflexivity.
  - vm_compute. reflexivity.
  - apply toy_device_attributes.
  - exact toy_device_calls_return.
Defined.

Lemma checklist_scalar_input_raises_witness :
  ∃ e,
    pre_training_checklist_master Toy.scalar Toy.labels (Toy.with_val_size Toy.tenth)
    = (Raise e, Toy.with_val_size Toy.tenth)
    ∧ exn_cls e = IndexError.
Proof.
  destruct (checklist_scalar_input_raises (R := Toy.config) Toy.scalar Toy.labels
              (Toy.with_val_size Toy.tenth) (VFloat Toy.tenth) eq_refl eq_refl)
    as (e & E & He).
  exists e. split; [|exact He]. rewrite E. vm_compute. reflexivity.
Defined.

Lemma checklist_bad_val_size_witness :
  (pre_training_checklist_master Toy.inputs Toy.labels (Toy.with_val_size S754_nan)).1
  = Raise (Exn ValueError "cannot convert float NaN to integer").
Proof.
  rewrite (checklist_bad_val_size (R := Toy.config) Toy.inputs Toy.labels
             (Toy.with_val_size S754_nan) 10 [3%nat] (VFloat S754_nan)
             (Exn ValueError "cannot convert float NaN to integer")
             eq_refl eq_refl eq_refl).
  reflexivity.
Defined.

Lemma save_remembers_name_witness :
  save VNone (VBool false) Toy.saved = save (VStr "run1") (VBool false) Toy.saved.
Proof.
  apply (save_remembers_name (R := Toy.config) "run1" (VBool false) Toy.saved).
  reflexivity.
Defined.

End ConcreteProperties.

Section ConcreteSaves.

Lemma toy_plain_run1 : plain_name "run1".
Proof. repeat split; done. Qed.





Lemma toy_summarised :
  save_summary (VStr "run1") (Toy.heap Toy.trained Toy.x2 Toy.config3)
  = (Ok tt, Toy.summarised).
Proof. vm_compute. reflexivity. Qed.

Lemma save_plots_into_folder_witness :
  plot_model Toy.summarised
  = try_except
      (call (keras_plot_model (VObj 1) true (VStr "/home/user/run1/model.png")))
      is_Exception (print plot_model_warning) Toy.summarised.
Proof.
  destruct (save_plots_into_folder (R := Toy.config)
              (Toy.heap Toy.trained Toy.x2 Toy.config3) Toy.summarised "run1" (VObj 1)
              toy_summarised eq_refl) as (cd & Hcd & Hplot).
  assert (cd = "/home/user") as -> by (vm_compute in Hcd; congruence).
  exact Hplot.
Defined.

Lemma checklist_on_fresh_object_witness :
  ∃ h', pre_training_checklist_master Toy.inputs Toy.labels Toy.fresh = (Ok tt, h')
        ∧ self h' !! "val_size" = Some (VInt 0)
        ∧ self h' !! "val_num" = Some (VInt 0)
        ∧ self h' !! "num_train" = Some (VInt 10)
        ∧ last (stdout (world h'))
          = Some "Number of Training Data: 10, Number of Validation Data: 0".
Proof.
  apply (checklist_on_fresh_object (R := Toy.config) Toy.env Toy.disk
           Toy.inputs Toy.labels Toy.fresh 10 [3%nat]).
  - reflexivity.
  - reflexivity.
  - intros w. reflexivity.
Defined.


Lemma save_below_construction_directory_witness :
  ∃ h', save_summary (VStr "run1") Toy.fresh = (Ok tt, h')
        ∧ is_dir (fs (world h')) ["home"; "user"; "run1"] = true
        ∧ read_file (fs (world h')) ["home"; "user"; "run1"; "hyperparameter.txt"]
          = Some (summary_text (self h')).
Proof.
  apply (save_below_construction_directory (R := Toy.config) Toy.env Toy.disk
           Toy.fresh "run1").
  - reflexivity.
  - repeat constructor; done.
  - exact toy_plain_run1.
  - right. vm_compute. done.
  - vm_compute. reflexivity.
Defined.

Lemma plot_model_swallows_path_error_witness :
  plot_model Toy.bad_path = (Ok tt, printed plot_model_warning Toy.bad_path).
Proof.
  apply (plot_model_swallows_path_error (R := Toy.config) Toy.bad_path (VInt 3)).
  - reflexivity.
  - vm_compute. eauto.
  - reflexivity.
  - discriminate.
  - discriminate.
Defined.

End ConcreteSaves.

Section ConcreteJacobian.

Lemma toy_returned :
  jacobian (Some 1%positive) (VBool false) Toy.no_units = Toy.no_units_jacobian.
Proof. vm_compute. reflexivity. Qed.

Lemma toy_prepared_tuple :
  jacobian_prepare 1 Toy.tuple_labels = Toy.prepared_tuple.
Proof. vm_compute. reflexivity. Qed.

Lemma jacobian_returns_no_gradient_witness :
  ∃ J h', jacobian (Some 1%positive) (VBool false) Toy.no_units = (Ok J, h')
          ∧ shape J = [0; 2; 1]%nat ∧ data J = [].
Proof.
  eexists _, _. split; [exact toy_returned|]. split; [reflexivity|].
  exact (jacobian_returns_no_gradient (R := Toy.config) (Some 1%positive) (VBool false)
           Toy.no_units _ _ toy_returned).
Defined.

Lemma input_layer_falls_back_witness :
  find_input_layer (Toy.heap Toy.trained Toy.x2 Toy.config3)
  = input_layer "keras_model" (Toy.heap Toy.trained Toy.x2 Toy.config3).
Proof.
  apply (input_layer_falls_back (R := Toy.config)
           (Toy.heap Toy.trained Toy.x2 Toy.config3) VNone).
  - reflexivity.
  - discriminate.
Defined.

Lemma jacobian_needs_integer_labels_shape_witness :
  (jacobian (Some 1%positive) (VBool false) Toy.tuple_labels).1
  = Raise (Exn TypeError "'tuple' object cannot be interpreted as an integer").
Proof.
  erewrite (jacobian_needs_integer_labels_shape (R := Toy.config) 1 (VBool false)
              Toy.tuple_labels _ _ _ _ _ 3 (VTuple [VInt 2; VInt 3])).
  - reflexivity.
  - exact toy_prepared_tuple.
  - reflexivity.
  - by left.
  - reflexivity.
  - reflexivity.
  - discriminate.
Defined.

Lemma checklist_reads_only_shapes_witness :
  pre_training_checklist_master Toy.inputs Toy.labels (Toy.with_val_size Toy.tenth)
  = pre_training_checklist_master Toy.inputs Toy.labels7 (Toy.with_val_size Toy.tenth).
Proof.
  apply (checklist_reads_only_shapes (R := Toy.config)); reflexivity.
Defined.

Lemma jacobian_normalises_copy_witness :
  ∃ mean std centred scaled,
    self (Toy.heap Toy.trained Toy.x2 Toy.config3) !! "input_mean_norm" = Some mean
    ∧ self (Toy.heap Toy.trained Toy.x2 Toy.config3) !! "input_std_norm" = Some std
    ∧ np_isub Toy.x2 mean = Ok centred
    ∧ np_itruediv centred std = Ok scaled
    ∧ (NDArray [1; 2; 1]%nat
         [S754_zero false; S754_finite true 4503599627370496 (-52)])
      = Np.atleast_3d scaled.
Proof.
  eapply (jacobian_normalises_copy (R := Toy.config) 1 Toy.x2
            (Toy.heap Toy.trained Toy.x2 Toy.config3)).
  - reflexivity.
  - exact toy_prepared3.
Defined.

End ConcreteJacobian.

(** C8, what the code does with the empty folder name: [save] joins the
    current directory with ["" + "/"], which is the root.  The summary is
    written to [/hyperparameter.txt], and no file of that name is in the
    folder [os.path.join(currentdir, folder_name)], here [/home/user]. *)
Theorem save_empty_name_writes_to_root :
  let h := Toy.heap Toy.trained Toy.x2 Toy.config3 in
  let h' := (save (VStr "") (VBool false) h).2 in
  (save (VStr "") (VBool false) h).1 = Ok tt
  ∧ self h' !! "currentdir" = Some (VStr "/home/user")
  ∧ self h' !! "folder_name" = Some (VStr "")
  ∧ self h' !! "fullfilepath" = Some (VStr "/")
  ∧ PosixPath.resolve (cwd (fs (world h'))) (PosixPath.join "/home/user" "")
    = ["home"; "user"]
  ∧ read_file (fs (world h')) ["home"; "user"; "hyperparameter.txt"] = None
  ∧ read_file (fs (world h')) ["hyperparameter.txt"] = Some (summary_text (self h')).
Proof. vm_compute. repeat split. Qed.

